(** * Nifty Shop ("Aditi") strategy: screening, sell pass, buy / averaging pass

    A shallow embedding of the decision logic of
    - [Aditi-NiftyShop-Code-Snippet.py] (the strategy class run by the
      trading platform),
    - [app.py] (the dashboard that replays the same rules on a CSV export),
    - [niftyshopscreener.py] (the stand-alone screening loop),
    followed by the properties proved about them.

    Numbers.  Prices and percentages are Python / numpy floats in the
    source.  A finite float is a rational number, and that is what a
    number is here ([Q]).  Where the code decides on a number it has
    computed (the P&L percentage of the sell pass, the change since the
    last buy in the averaging block and in the dashboard), the
    computation is the one of the machine: every operation is rounded to
    the nearest double ([F64]).  The indicator of the screening (the
    rolling mean and the deviation from it) is computed exactly.  A
    missing value (pandas [NaN], Python [None] in a numeric column) is
    [None] of an [option Q].  Integers (quantities, counters,
    configuration limits) are [Z]. *)

From Stdlib Require Import List String Ascii ZArith QArith Qround Qabs Qpower.
From Stdlib Require Import Lia Lqa.
From Stdlib Require Import Permutation Sorted Bool OrderedTypeEx.
Import ListNotations.

Open Scope Z_scope.
Open Scope Q_scope.
Open Scope string_scope.
Open Scope list_scope.

(* ================================================================== *)
(** * Python and pandas primitives *)

Module Py.

(** Exceptions the modelled code can raise. *)
Inductive exn : Type :=
| AttributeError     (* attribute access on [None] *)
| ZeroDivisionError  (* [x / 0] on Python numbers *)
| IndexError         (* [iloc[-1]] on an empty column *)
| TypeError          (* [len(None)] *)
| FetchError.        (* anything a data provider raises *)

Inductive result (A : Type) : Type :=
| Ok (a : A)
| Raise (e : exn).
Arguments Ok {A} a.
Arguments Raise {A} e.

Definition bind {A B : Type} (c : result A) (k : A -> result B) : result B :=
  match c with
  | Ok a => k a
  | Raise e => Raise e
  end.

(** [[x for x in l if cond(x)]] where [cond] may raise: the first
    exception aborts the comprehension. *)
Fixpoint comprehension {A : Type} (cond : A -> result bool) (l : list A)
  : result (list A) :=
  match l with
  | [] => Ok []
  | x :: l' =>
      bind (cond x) (fun keep =>
      bind (comprehension cond l') (fun rest =>
      Ok (if keep then x :: rest else rest)))
  end.

(** A [for] loop whose body either appends to an accumulator, leaves it
    alone ([continue]) or raises. *)
Fixpoint for_collect {A B : Type} (body : A -> result (option B)) (l : list A)
  : result (list B) :=
  match l with
  | [] => Ok []
  | x :: l' =>
      bind (body x) (fun r =>
      bind (for_collect body l') (fun rest =>
      Ok (match r with Some b => b :: rest | None => rest end)))
  end.

(** Insertion sort by a boolean order; an element goes in front of the
    first one it is not above, so equal elements keep their order. *)
Fixpoint insert_by {A : Type} (leb : A -> A -> bool) (x : A) (l : list A)
  : list A :=
  match l with
  | [] => [x]
  | y :: l' => if leb x y then x :: y :: l' else y :: insert_by leb x l'
  end.

Definition insertion_sort {A : Type} (leb : A -> A -> bool) (l : list A)
  : list A :=
  fold_right (insert_by leb) [] l.

(** [sorted(l, key=key)].  Python's sort is stable, and a stable sort by
    a key is unique, so insertion sort computes the same list. *)
Definition sorted {A : Type} (key : A -> Q) (l : list A) : list A :=
  insertion_sort (fun x y => Qle_bool (key x) (key y)) l.

(** [l.sort(key=key, reverse=True)]: CPython reverses the list, sorts it
    stably in ascending order and reverses the result, which keeps the
    original order among equal keys. *)
Definition sort_reverse {A : Type} (key : A -> Q) (l : list A) : list A :=
  rev (sorted key (rev l)).

(** The slice [l[:n]] for an integer [n]; a negative bound counts from
    the end. *)
Definition slice_to {A : Type} (n : Z) (l : list A) : list A :=
  if (0 <=? n)%Z then firstn (Z.to_nat n) l
  else firstn (List.length l - Z.to_nat (- n)) l.

(** [sum(...)] over integers and over numbers. *)
Definition sumZ (l : list Z) : Z := fold_left Z.add l 0%Z.
Definition sumQ (l : list Q) : Q := fold_left Qplus l 0.

Definition Qlt_bool (x y : Q) : bool := negb (Qle_bool y x).

(** [numpy.rint]: round to the nearest integer, ties to the even one. *)
Definition rint (x : Q) : Z :=
  let f := Qfloor x in
  let r := x - inject_Z f in
  if Qle_bool r (1 # 2)
  then if Qle_bool (1 # 2) r then (if Z.even f then f else f + 1)%Z else f
  else (f + 1)%Z.

End Py.

Import Py.

(* ================================================================== *)
(** * Double-precision arithmetic *)

(** Python floats and numpy [float64] cells are IEEE 754 binary64
    numbers.  An operation on them returns the exact result rounded to
    the nearest double, a tie going to the double whose significand is
    even.  [round] is that rounding on [Q]: 53 significant bits, with
    gradual underflow below [2^-1022] down to the least positive double
    [2^-1074].  Overflow to an infinity (from [2^1024] on) and the sign
    of zero are not modelled. *)
Module F64.

(** The binary exponent of a number that is not zero: the [e] with
    [2^e <= |x| < 2^(e+1)]. *)
Definition exponent (x : Q) : Z :=
  let e := (Z.log2 (Z.abs (Qnum x)) - Z.log2 (Zpos (Qden x)))%Z in
  if Qle_bool (2 ^ e) (Qabs x) then e else (e - 1)%Z.

(** The spacing of the doubles around [x]. *)
Definition quantum (x : Q) : Q := 2 ^ Z.max (exponent x - 52) (-1074).

Definition round (x : Q) : Q :=
  if Qeq_bool x 0 then 0
  else Qred (inject_Z (rint (x / quantum x)) * quantum x).

Definition add (x y : Q) : Q := round (x + y).
Definition sub (x y : Q) : Q := round (x - y).
Definition mul (x y : Q) : Q := round (x * y).
Definition div (x y : Q) : Q := round (x / y).

(** [float(n)] of a Python integer, as in [x * n] or [x / n]. *)
Definition of_int (n : Z) : Q := round (inject_Z n).

(** The loop of [sum] over floats in CPython 3.12 and later: next to
    the running sum it keeps a compensation term (Neumaier's variant of
    Kahan's summation), which is added at the end unless it is zero. *)
Fixpoint compensated (total c : Q) (l : list Q) : Q :=
  match l with
  | [] => if Qeq_bool c 0 then total else add total c
  | x :: l' =>
      let t := add total x in
      let c' :=
        if Qle_bool (Qabs x) (Qabs total)
        then add c (add (sub total t) x)
        else add c (add (sub x t) total) in
      compensated t c' l'
  end.

(** [sum(...)] over floats.  The start value is the integer 0, to which
    the first item is added; from the second item on CPython up to 3.11
    adds one item after the other, and CPython from 3.12 on runs the
    compensated loop. *)
Definition sum (compensate : bool) (l : list Q) : Q :=
  match l with
  | [] => 0
  | x :: l' =>
      if compensate then compensated (add 0 x) 0 l'
      else fold_left add l' (add 0 x)
  end.

End F64.

(** [Series.round(2)] on a [float64] column, which is numpy's [around]:
    the cell is multiplied by [10**2], rounded to the nearest integer
    ([rint]) and divided by [10**2], each in double precision. *)
Definition round2 (x : Q) : Q :=
  F64.div (inject_Z (rint (F64.mul x 100))) 100.

Notation "x <- c ;; k" := (Py.bind c (fun x => k))
  (at level 61, c at next level, right associativity).

(* ================================================================== *)
(** * pandas: price frames and sorting *)

Module Pd.

(** The frame a price provider returns: the index (a date, as a day
    number) and, when the frame has a [Close] column, its cell in that
    row ([None] is [NaN]). *)
Record DataFrame : Type := {
  has_Close : bool;
  rows : list (Z * option Q)
}.

Definition empty (df : DataFrame) : bool :=
  match rows df with [] => true | _ => false end.

(** [df['Close']]. *)
Definition Close (df : DataFrame) : list (option Q) := map snd (rows df).

(** [col.iloc[-1]]. *)
Definition iloc_last {A : Type} (col : list A) : result A :=
  match rev col with
  | [] => Raise IndexError
  | x :: _ => Ok x
  end.

(** All cells of a window, when none is [NaN]. *)
Fixpoint valid_cells (w : list (option Q)) : option (list Q) :=
  match w with
  | [] => Some []
  | None :: _ => None
  | Some x :: w' =>
      match valid_cells w' with
      | Some xs => Some (x :: xs)
      | None => None
      end
  end.

(** [col.rolling(window=n).mean()] at the last row: [min_periods]
    defaults to the window size, so the value is [NaN] unless the last
    [n] cells exist and are all valid. *)
Definition rolling_mean_last (n : nat) (col : list (option Q)) : option Q :=
  if (List.length col <? n)%nat then None
  else match valid_cells (skipn (List.length col - n) col) with
       | Some xs => Some (sumQ xs / inject_Z (Z.of_nat n))
       | None => None
       end.

(** [df.loc[~df.index.duplicated(keep='last')]]: a row stays when its
    index label does not occur again further down. *)
Fixpoint drop_duplicated_keep_last (r : list (Z * option Q))
  : list (Z * option Q) :=
  match r with
  | [] => []
  | x :: r' =>
      if existsb (fun y => (fst y =? fst x)%Z) r'
      then drop_duplicated_keep_last r'
      else x :: drop_duplicated_keep_last r'
  end.

(** Order of a sort key with missing values last ([na_position='last']). *)
Definition na_le (a b : option Q) : Prop :=
  match a, b with
  | Some x, Some y => x <= y
  | _, None => True
  | None, Some _ => False
  end.

(** [sort_values] and [sort_index] run numpy's default [quicksort],
    which is not stable: the order among equal keys is whatever the
    algorithm leaves.  The embedding takes them as operations of which
    only the contract is known. *)
Class Sorting : Type := {
  sort_values : forall A : Type, (A -> option Q) -> list A -> list A;
  sort_index : list (Z * option Q) -> list (Z * option Q)
}.

Class SortingSpec (S : Sorting) : Prop := {
  sort_values_perm :
    forall (A : Type) (key : A -> option Q) (l : list A),
      Permutation l (sort_values A key l);
  sort_values_sorted :
    forall (A : Type) (key : A -> option Q) (l : list A),
      StronglySorted (fun x y => na_le (key x) (key y)) (sort_values A key l);
  sort_index_perm :
    forall l, Permutation l (sort_index l);
  sort_index_sorted :
    forall l, StronglySorted (fun x y => (fst x <= fst y)%Z) (sort_index l)
}.

(** An instance to run the model with: both sorts as insertion sorts. *)
Definition na_leb (a b : option Q) : bool :=
  match a, b with
  | Some x, Some y => Qle_bool x y
  | _, None => true
  | None, Some _ => false
  end.

Definition insertion_sorting : Sorting := {|
  sort_values := fun A key l =>
    insertion_sort (fun x y => na_leb (key x) (key y)) l;
  sort_index := fun l =>
    insertion_sort (fun x y => (fst x <=? fst y)%Z) l
|}.

End Pd.

(* ================================================================== *)
(** * The indicator *)

(** Both screening loops compute the same three quantities from a frame:
    [df['Close'].iloc[-1]] and [df['20DMA'].iloc[-1]] after
    [df.sort_index()], and the deviation of the one from the other. *)

Definition sorted_by_date {S : Pd.Sorting} (df : Pd.DataFrame) : Pd.DataFrame :=
  {| Pd.has_Close := Pd.has_Close df;
     Pd.rows := Pd.sort_index (Pd.rows df) |}.

Definition latest_close {S : Pd.Sorting} (df : Pd.DataFrame) : result (option Q) :=
  Pd.iloc_last (Pd.Close (sorted_by_date df)).

Definition latest_dma {S : Pd.Sorting} (df : Pd.DataFrame) : option Q :=
  Pd.rolling_mean_last 20 (Pd.Close (sorted_by_date df)).

(** With a zero average numpy yields an infinity where [Q] yields 0; the
    value is only used for a close below the average, which then is
    negative. *)
Definition deviation (close dma : Q) : Q := ((close - dma) / dma) * 100.

(* ================================================================== *)
(** * The trade ledger *)

(** Modelled from the spec: the platform's [Direction] and [OrderStatus]
    enumerations, which the strategy file uses but does not declare.  The
    strategy names [Direction.LONG] and [OrderStatus.COMPLETE]; the other
    members stand for any other value. *)
Inductive Direction : Type := LONG | SHORT.
Inductive OrderStatus : Type := OPEN | COMPLETE | CANCELLED | REJECTED.

Definition OrderStatus_eqb (a b : OrderStatus) : bool :=
  match a, b with
  | OPEN, OPEN | COMPLETE, COMPLETE | CANCELLED, CANCELLED
  | REJECTED, REJECTED => true
  | _, _ => false
  end.

Definition Direction_eqb (a b : Direction) : bool :=
  match a, b with
  | LONG, LONG | SHORT, SHORT => true
  | _, _ => false
  end.

(** Modelled from the spec: the platform's order and trade objects, which
    the strategy file reads but does not declare, with the attributes it
    reads: a trade is one fill event with its symbol, direction, entry
    price, filled quantity, creation timestamp, state (a string, ["active"]
    while held) and optional entry and target orders. *)
Module Order.
Record t : Type := {
  orderStatus : OrderStatus;
  filledQty : Z
}.
End Order.

Record Trade : Type := {
  strategy : string;
  tradingSymbol : string;
  direction : Direction;
  tradeState : string;
  entry : Q;
  filledQty : Z;
  createTimestamp : Z;
  entryOrder : option Order.t;
  targetOrder : option Order.t
}.

(** [t.entryOrder.attr]: the access raises when [entryOrder] is [None]. *)
Definition entryOrder_attr {A : Type} (attr : Order.t -> A) (t : Trade)
  : result A :=
  match entryOrder t with
  | Some o => Ok (attr o)
  | None => Raise AttributeError
  end.

Definition is_None {A : Type} (o : option A) : bool :=
  match o with None => true | Some _ => false end.

(* ================================================================== *)
(** * The strategy object and what it calls into *)

(** The attributes set in the constructor of the strategy class. *)
Record Strategy : Type := {
  name : string;
  investment_first_buy : Z;
  investment_averaging : Z;
  target_pct : Q;
  averaging_pct : Q;
  max_buys_per_day : Z;
  max_sells_per_day : Z;
  max_averaging_per_stock : Z
}.

Definition Aditi : Strategy := {|
  name := "Aditi";
  investment_first_buy := 15000;
  investment_averaging := 7500;
  target_pct := 5;
  averaging_pct := - (5);
  max_buys_per_day := 1;
  max_sells_per_day := 1;
  max_averaging_per_stock := 3
|}.

(** Platform services the strategy file calls but does not define:
    [SymbolManager.get_historical_data] (may raise, may return [None]),
    [self.get_cmp] ([None] when no quote is available),
    [Utils.round_off_price], and [self.place_new_trade], whose only
    effect of interest is what it does to [TradeManager.trades].  The
    platform also brings the interpreter: [compensated_sum] says whether
    its [sum] over floats is the compensated one of CPython 3.12 and
    later. *)
Class Platform : Type := {
  get_historical_data : string -> result (option Pd.DataFrame);
  get_cmp : string -> option Q;
  round_off_price : Q -> Q;
  place_new_trade : string -> list Trade -> list Trade;
  compensated_sum : bool
}.

(* ================================================================== *)
(** * Aditi-NiftyShop-Code-Snippet.py *)

Module NiftyShop.
Section Methods.

Context {S : Pd.Sorting} {P : Platform}.
Variable self : Strategy.

(** ** get_eligible_stocks_for_today *)

(** The body of the [try] block for one symbol: [Ok None] is a
    [continue] (or a failed final test), [Ok (Some r)] an
    [append], [Raise] an exception on its way to the handler. *)
Definition examine (symbol : string) : result (option (string * Q)) :=
  df <- get_historical_data symbol ;;
  match df with
  | None => Ok None
  | Some df =>
      if Pd.empty df || negb (Pd.has_Close df) then Ok None
      else
        close <- latest_close df ;;
        match latest_dma df with
        | None => Ok None
        | Some dma =>
            match close with
            | None => Ok None
            | Some close =>
                if Qlt_bool close dma
                then Ok (Some (symbol, deviation close dma))
                else Ok None
            end
        end
  end.

(** The [for] loop: the handler logs and goes on to the next symbol. *)
Definition screen_results (symbols : list string) : list (string * Q) :=
  fold_left
    (fun results symbol =>
       match examine symbol with
       | Ok (Some r) => results ++ [r]
       | Ok None => results
       | Raise _ => results
       end)
    symbols [].

Definition top_5 (results : list (string * Q)) : list (string * Q) :=
  firstn 5 (sorted snd results).

(** [None] is the bare [return] taken when the universe is empty. *)
Definition get_eligible_stocks_for_today (symbols : list string)
  : option (list string) :=
  if (List.length symbols =? 0)%nat then None
  else Some (map fst (top_5 (screen_results symbols))).

(** ** initiate_sell *)

(** The condition shared by the sell pass and the averaging rows; the
    conjunction is evaluated left to right and stops at the first false
    conjunct. *)
Definition is_open_holding (t : Trade) : result bool :=
  if negb (strategy t =? name self) then Ok false
  else if negb (tradeState t =? "active") then Ok false
  else if negb (is_None (targetOrder t)) then Ok false
  else
    status <- entryOrder_attr Order.orderStatus t ;;
    if negb (OrderStatus_eqb status COMPLETE) then Ok false
    else
      qty <- entryOrder_attr Order.filledQty t ;;
      Ok (0 <? qty)%Z.

(** [d.setdefault(k, []).append(v)] on a dict, which keeps its keys in
    insertion order. *)
Fixpoint setdefault_append (k : string) (v : Trade)
         (d : list (string * list Trade)) : list (string * list Trade) :=
  match d with
  | [] => [(k, [v])]
  | (k', vs) :: d' =>
      if k' =? k then (k', vs ++ [v]) :: d'
      else (k', vs) :: setdefault_append k v d'
  end.

Fixpoint build_symbol_trades (trades : list Trade)
         (d : list (string * list Trade))
  : result (list (string * list Trade)) :=
  match trades with
  | [] => Ok d
  | trade :: rest =>
      keep <- is_open_holding trade ;;
      build_symbol_trades rest
        (if keep then setdefault_append (tradingSymbol trade) trade d else d)
  end.

Definition total_qty (trades : list Trade) : Z := sumZ (map filledQty trades).

(** Prices are Python floats and quantities Python integers: an integer
    operand is converted to a float, and every operation rounds. *)
Definition weighted_entry (trades : list Trade) : Q :=
  F64.div
    (F64.sum compensated_sum
       (map (fun t => F64.mul (entry t) (F64.of_int (filledQty t))) trades))
    (F64.of_int (total_qty trades)).

(** The body of the loop over [symbol_trades.items()].  The numbers are
    Python numbers, on which a division by zero raises. *)
Definition sell_candidate (item : string * list Trade)
  : result (option (string * Q * list Trade)) :=
  let (symbol, trades) := item in
  if (total_qty trades =? 0)%Z then Ok None
  else
    match get_cmp symbol with
    | None => Ok None
    | Some cmp =>
        let unrealised_pnl :=
          F64.mul (F64.of_int (total_qty trades))
                  (F64.sub cmp (weighted_entry trades)) in
        let invested :=
          F64.mul (F64.of_int (total_qty trades)) (weighted_entry trades) in
        if Qeq_bool invested 0 then Raise ZeroDivisionError
        else
          let pnl_pct :=
            round_off_price
              (F64.div (F64.mul unrealised_pnl (F64.of_int 100)) invested) in
          if Qle_bool (target_pct self) pnl_pct
          then Ok (Some (symbol, pnl_pct, trades))
          else Ok None
    end.

Definition pnl_of (c : string * Q * list Trade) : Q := snd (fst c).
Definition symbol_of (c : string * Q * list Trade) : string := fst (fst c).
Definition trades_of (c : string * Q * list Trade) : list Trade := snd c.

Definition sell_candidates (trades : list Trade)
  : result (list (string * Q * list Trade)) :=
  symbol_trades <- build_symbol_trades trades [] ;;
  for_collect sell_candidate symbol_trades.

(** The result is [to_sell]; every trade of every entry is handed to
    [TradeManager.square_off_trade], in this order. *)
Definition initiate_sell (trades : list Trade)
  : result (list (string * Q * list Trade)) :=
  candidates <- sell_candidates trades ;;
  match candidates with
  | [] => Ok []
  | _ => Ok (slice_to (max_sells_per_day self) (sort_reverse pnl_of candidates))
  end.

Definition squared_off (to_sell : list (string * Q * list Trade))
  : list Trade :=
  flat_map trades_of to_sell.

(** ** _current_averaging_count *)

Definition counts_as_entry (symbol : string) (t : Trade) : bool :=
  (strategy t =? name self)
  && (tradingSymbol t =? symbol)
  && Direction_eqb (direction t) LONG
  && match entryOrder t with
     | None => false
     | Some o =>
         OrderStatus_eqb (Order.orderStatus o) COMPLETE
         && (0 <? Order.filledQty o)%Z
     end.

Definition _current_averaging_count (trades : list Trade) (symbol : string)
  : Z :=
  sumZ (map (fun _ => 1%Z) (filter (counts_as_entry symbol) trades)).

(** ** initiate_buy *)

Definition already_held (trades : list Trade) (stock : string) : bool :=
  existsb (fun t => tradingSymbol t =? stock)
    (filter (fun t => (strategy t =? name self) && (tradeState t =? "active"))
            trades).

(** State of the first loop: [TradeManager.trades], the counter, and the
    symbols handed to [place_new_trade] so far. *)
Record BuyLoop : Type := {
  ledger : list Trade;
  new_stocks_bought : Z;
  bought : list string
}.

Definition buy_step (st : BuyLoop) (stock : string) : BuyLoop :=
  if negb (already_held (ledger st) stock)
     && (new_stocks_bought st <? max_buys_per_day self)%Z
  then {| ledger := place_new_trade stock (ledger st);
          new_stocks_bought := new_stocks_bought st + 1;
          bought := bought st ++ [stock] |}
  else st.

Definition new_buy_loop (stock_list : list string) (trades : list Trade)
  : BuyLoop :=
  fold_left buy_step stock_list
    {| ledger := trades; new_stocks_bought := 0; bought := [] |}.

(** A row of the averaging frame as first built. *)
Record Holding : Type := {
  Symbol : string;
  LastBuyPrice : Q;
  Date : Z
}.

Definition holding_rows (trades : list Trade) : result (list Holding) :=
  kept <- comprehension is_open_holding trades ;;
  Ok (map (fun t => {| Symbol := tradingSymbol t;
                       LastBuyPrice := entry t;
                       Date := createTimestamp t |}) kept).

(** [df.groupby('Symbol')] orders its groups by key. *)
Fixpoint insert_key (k : string) (keys : list string) : list string :=
  match keys with
  | [] => [k]
  | k' :: keys' =>
      if k =? k' then keys
      else if String.ltb k k' then k :: keys
      else k' :: insert_key k keys'
  end.

Definition group_keys (rows : list Holding) : list string :=
  fold_right insert_key [] (map Symbol rows).

(** [idxmax] of [Date] in one group: the first row with the greatest
    value. *)
Fixpoint first_latest (best : Holding) (group : list Holding) : Holding :=
  match group with
  | [] => best
  | r :: group' =>
      if (Date best <? Date r)%Z then first_latest r group'
      else first_latest best group'
  end.

(** [df.loc[df.groupby('Symbol')['Date'].idxmax()]]. *)
Definition latest_purchase (rows : list Holding) : list Holding :=
  flat_map
    (fun k =>
       match filter (fun r => Symbol r =? k) rows with
       | [] => []
       | r :: group => [first_latest r group]
       end)
    (group_keys rows).

(** The frame after the [Close] and [ChangePct] columns are added.  A
    symbol without a quote has [NaN] in both.  With a zero
    [LastBuyPrice] pandas yields an infinity or [NaN] rather than
    raising; for a non-negative [Close] neither is below a finite
    threshold, and the cell is [None] here. *)
Record Scored : Type := {
  holding : Holding;
  Close : option Q;
  ChangePct : option Q
}.

Definition change_pct (close last_buy : Q) : option Q :=
  if Qeq_bool last_buy 0 then None
  else Some (round2 (F64.mul (F64.div (F64.sub close last_buy) last_buy)
                             (F64.of_int 100))).

Definition score (r : Holding) : Scored :=
  let close := get_cmp (Symbol r) in
  {| holding := r;
     Close := close;
     ChangePct := match close with
                  | Some c => change_pct c (LastBuyPrice r)
                  | None => None
                  end |}.

(** [df['ChangePct'] <= self.averaging_pct]; false on [NaN]. *)
Definition fallen_enough (r : Scored) : bool :=
  match ChangePct r with
  | Some c => Qle_bool c (averaging_pct self)
  | None => false
  end.

Definition below_cap (trades : list Trade) (r : Scored) : bool :=
  (_current_averaging_count trades (Symbol (holding r))
   <? max_averaging_per_stock self)%Z.

Definition averaging_candidates (trades : list Trade) (rows : list Holding)
  : list Scored :=
  let df := map score (latest_purchase rows) in
  let df := Pd.sort_values Scored ChangePct (filter fallen_enough df) in
  filter (below_cap trades) df.

(** What one call did: the symbols bought by the first loop, the symbol
    bought by the averaging block (if any), and the ledger afterwards. *)
Record BuyOutcome : Type := {
  new_buys : list string;
  averaging_buy : option string;
  trades_after : list Trade
}.

Definition initiate_buy (stock_list : list string) (trades : list Trade)
  : result BuyOutcome :=
  let st := new_buy_loop stock_list trades in
  let nothing_more :=
    {| new_buys := bought st; averaging_buy := None;
       trades_after := ledger st |} in
  if (0 <? new_stocks_bought st)%Z then Ok nothing_more
  else
    rows <- holding_rows (ledger st) ;;
    match rows with
    | [] => Ok nothing_more
    | _ =>
        match averaging_candidates (ledger st) rows with
        | [] => Ok nothing_more
        | r :: _ =>
            let averaging_symbol := Symbol (holding r) in
            Ok {| new_buys := bought st;
                  averaging_buy := Some averaging_symbol;
                  trades_after :=
                    place_new_trade averaging_symbol (ledger st) |}
        end
    end.

End Methods.
End NiftyShop.

(* ================================================================== *)
(** * app.py *)

Module App.

(** [yf.download], which may raise. *)
Class Feed : Type := {
  yf_download : string -> result Pd.DataFrame
}.

(** A row of the screening table. *)
Record Screened : Type := {
  Symbol : string;
  Deviation : Q;
  CMP : Q;
  DMA20 : Q
}.

(** A row of the uploaded trade export, with the columns the dashboard
    reads. *)
Record Exported : Type := {
  csv_Strategy : string;
  csv_Status : string;
  csv_Symbol : string;
  csv_Entry : Q
}.

(** A line of "Today's Recommended Actions". *)
Inductive Decision : Type :=
| BUY (stock : string)
| AVERAGE (symbol : string) (ChangePct : Q)
| HOLD_no_candidates
| HOLD_no_recommendations.

Section Dashboard.

Context {S : Pd.Sorting} {F : Feed}.

Definition get_historical_data (symbol : string) : option Pd.DataFrame :=
  match yf_download symbol with
  | Raise _ => None
  | Ok df =>
      if Pd.empty df then None
      else Some {| Pd.has_Close := Pd.has_Close df;
                   Pd.rows := Pd.drop_duplicated_keep_last (Pd.rows df) |}
  end.

(** The body of the [try] block for one symbol. *)
Definition examine (symbol : string) : result (option Screened) :=
  match get_historical_data symbol with
  | None => Ok None
  | Some df =>
      if Pd.empty df || negb (Pd.has_Close df)
         || (List.length (Pd.rows df) <? 20)%nat
      then Ok None
      else
        close <- latest_close df ;;
        match latest_dma df, close with
        | Some dma, Some close =>
            if Qlt_bool close dma
            then Ok (Some {| Symbol := symbol;
                             Deviation := deviation close dma;
                             CMP := close;
                             DMA20 := dma |})
            else Ok None
        | _, _ => Ok None
        end
  end.

Definition screen_results (symbols : list string) : list Screened :=
  fold_left
    (fun results symbol =>
       match examine symbol with
       | Ok (Some r) => results ++ [r]
       | Ok None => results
       | Raise _ => results
       end)
    symbols [].

(** The returned table; [[]] is the empty frame. *)
Definition top_5_df (results : list Screened) : list Screened :=
  match results with
  | [] => []
  | _ =>
      firstn 5 (Pd.sort_values Screened (fun r => Some (Deviation r)) results)
  end.

Definition get_eligible_stocks_for_today (symbols : list string)
  : list Screened :=
  top_5_df (screen_results symbols).

(** [uploaded_file] is [None] when nothing was uploaded; reading it may
    fail, which yields the empty frame as well. *)
Definition get_current_holdings (uploaded_file : option (result (list Exported)))
  : list Exported :=
  match uploaded_file with
  | None => []
  | Some (Raise _) => []
  | Some (Ok df) =>
      filter (fun r => (csv_Strategy r =? "Aditi") && (csv_Status r =? "active"))
             df
  end.

(** The first loop of the decision block. *)
Definition buy_step (held_symbols : list string) (max_buys_per_day : Z)
           (st : list Decision * Z) (row : Screened) : list Decision * Z :=
  let (buy_decisions, new_stocks_bought) := st in
  if negb (existsb (String.eqb (Symbol row)) held_symbols)
     && (new_stocks_bought <? max_buys_per_day)%Z
  then (buy_decisions ++ [BUY (Symbol row)], (new_stocks_bought + 1)%Z)
  else st.

(** [change_pct] of a holding; as in the strategy, a zero [Entry] gives
    an infinity or [NaN], here [None]. *)
Definition change_pct (cmp entry : Q) : option Q :=
  if Qeq_bool entry 0 then None
  else Some (F64.mul (F64.div (F64.sub cmp entry) entry) (F64.of_int 100)).

(** The loop over the holdings in the averaging block. *)
Definition potential_avg (eligible_stocks_df : list Screened)
           (averaging_pct : Q) (holdings_df : list Exported)
  : list (string * Q) :=
  flat_map
    (fun row =>
       match filter (fun e => Symbol e =? csv_Symbol row) eligible_stocks_df with
       | [] => []
       | cmp_row :: _ =>
           match change_pct (CMP cmp_row) (csv_Entry row) with
           | Some c =>
               if Qle_bool c averaging_pct then [(csv_Symbol row, c)] else []
           | None => []
           end
       end)
    holdings_df.

(** The buy / average part of the decision block (an export was
    uploaded). *)
Definition buy_decisions (eligible_stocks_df : list Screened)
           (holdings_df : list Exported)
           (max_buys_per_day : Z) (averaging_pct : Q) : list Decision :=
  let held_symbols := map csv_Symbol holdings_df in
  let (decisions, new_stocks_bought) :=
    fold_left (buy_step held_symbols max_buys_per_day)
              eligible_stocks_df ([], 0%Z) in
  let decisions :=
    if (new_stocks_bought =? 0)%Z
       && negb (is_None (hd_error eligible_stocks_df))
       && negb (is_None (hd_error holdings_df))
    then
      match potential_avg eligible_stocks_df averaging_pct holdings_df with
      | [] => decisions ++ [HOLD_no_candidates]
      | (first :: _) as rows =>
          (* [.iloc[0]] of the sorted frame, which has as many rows *)
          let avg :=
            hd first (Pd.sort_values (string * Q) (fun r => Some (snd r)) rows) in
          decisions ++ [AVERAGE (fst avg) (snd avg)]
      end
    else decisions in
  match decisions with
  | [] => [HOLD_no_recommendations]
  | _ => decisions
  end.

End Dashboard.
End App.

(* ================================================================== *)
(** * niftyshopscreener.py *)

(** The stand-alone script runs the loop of the strategy's screening on a
    list of symbols typed into the file and prints the result. *)
Module Screener.

Definition top_5_symbols {S : Pd.Sorting} {P : Platform}
           (symbols : list string) : list string :=
  map fst (NiftyShop.top_5 (NiftyShop.screen_results symbols)).

End Screener.

(* ================================================================== *)
(** * Aditi-NiftyShop-Code-Snippet.py: one cycle *)

(** What the platform does to [TradeManager.trades] outside the strategy
    file: [TradeManager.square_off_trade], and whatever its own threads do
    to the ledger while the strategy sleeps between the two passes. *)
Class Broker : Type := {
  square_off_trade : Trade -> list Trade -> list Trade;
  while_asleep : list Trade -> list Trade
}.

Module Cycle.
Section Methods.

Context {S : Pd.Sorting} {P : Platform} {B : Broker}.
Variable self : Strategy.

(** The last loop of [initiate_sell]: the trades are squared off one by
    one, symbol by symbol. *)
Definition square_off_all (to_sell : list (string * Q * list Trade))
           (trades : list Trade) : list Trade :=
  fold_left (fun ledger trade => square_off_trade trade ledger)
            (NiftyShop.squared_off to_sell) trades.

(** What one call of [execute_strategy] did. *)
Record Outcome : Type := {
  sold : list (string * Q * list Trade);
  stock_list : option (list string);
  buys : option NiftyShop.BuyOutcome;
  trades_at_end : list Trade
}.

(** [not stock_list]: [None] and the empty list are both false. *)
Definition nothing_eligible (stock_list : option (list string)) : bool :=
  match stock_list with
  | None => true
  | Some [] => true
  | Some (_ :: _) => false
  end.

(** [symbols] is what [get_universe_instruments] leaves in
    [self.symbols]. *)
Definition execute_strategy (symbols : list string) (trades : list Trade)
  : result Outcome :=
  to_sell <- NiftyShop.initiate_sell self trades ;;
  let trades := while_asleep (square_off_all to_sell trades) in
  let stock_list := NiftyShop.get_eligible_stocks_for_today symbols in
  if nothing_eligible stock_list
  then Ok {| sold := to_sell; stock_list := stock_list; buys := None;
             trades_at_end := trades |}
  else
    match stock_list with
    | Some stocks =>
        bought <- NiftyShop.initiate_buy self stocks trades ;;
        Ok {| sold := to_sell; stock_list := stock_list;
              buys := Some bought;
              trades_at_end := NiftyShop.trades_after bought |}
    | None =>
        Ok {| sold := to_sell; stock_list := stock_list; buys := None;
              trades_at_end := trades |}
    end.

End Methods.
End Cycle.

(* ================================================================== *)
(** * app.py: the universe and the sell recommendations *)

Module Universe.

(** A parsed JSON document, as [response.json()] returns it. *)
#[warnings="-register-all"] Inductive json : Type :=
| JNull
| JBool (b : bool)
| JNumber (n : Q)
| JString (s : string)
| JArray (items : list json)
| JObject (members : list (string * json)).

(** What the two requests came to, when neither raised: the status code,
    whether [response.text.strip()] is empty, and the parsed body
    ([None] when [response.json()] raises). *)
Record Response : Type := {
  status_code : Z;
  text_is_blank : bool;
  body : option json
}.

(** A key of a parsed object; of a repeated key the last member counts. *)
Fixpoint member (key : string) (members : list (string * json)) : option json :=
  match members with
  | [] => None
  | (k, v) :: rest =>
      match member key rest with
      | Some later => Some later
      | None => if k =? key then Some v else None
      end
  end.

(** The keys of a parsed object in the order a dict keeps them. *)
Fixpoint keys (members : list (string * json)) (seen : list string)
  : list string :=
  match members with
  | [] => []
  | (k, _) :: rest =>
      if existsb (String.eqb k) seen then keys rest seen
      else k :: keys rest (k :: seen)
  end.

(** What a [for] loop over a value iterates: the items of a list, the
    characters of a string, the keys of a dict; [None] for a value that
    is not iterable. *)
Definition iterate (v : json) : option (list json) :=
  match v with
  | JArray items => Some items
  | JString s =>
      Some (map (fun c => JString (String c EmptyString)) (list_ascii_of_string s))
  | JObject members => Some (map JString (keys members []))
  | JNull | JBool _ | JNumber _ => None
  end.

(** [item['symbol'] + ".NS"]; [None] when the subscript or the
    concatenation raises. *)
Definition symbol_NS (item : json) : option string :=
  match item with
  | JObject members =>
      match member "symbol" members with
      | Some (JString symbol) => Some (symbol ++ ".NS")%string
      | _ => None
      end
  | _ => None
  end.

(** The list comprehension; the first item that raises aborts it. *)
Fixpoint symbols_NS (items : list json) : option (list string) :=
  match items with
  | [] => Some []
  | item :: rest =>
      match symbol_NS item with
      | None => None
      | Some symbol =>
          match symbols_NS rest with
          | None => None
          | Some symbols => Some (symbol :: symbols)
          end
      end
  end.

Definition fallback : list string :=
  [ "RELIANCE.NS"; "TCS.NS"; "HDFCBANK.NS"; "ICICIBANK.NS"; "INFY.NS";
    "HINDUNILVR.NS"; "BHARTIARTL.NS"; "ITC.NS"; "SBIN.NS"; "LICI.NS";
    "BAJFINANCE.NS"; "HCLTECH.NS"; "KOTAKBANK.NS"; "MARUTI.NS"; "LT.NS";
    "ASIANPAINT.NS"; "AXISBANK.NS"; "SUNPHARMA.NS"; "WIPRO.NS"; "ULTRACEMCO.NS";
    "NESTLEIND.NS"; "BAJAJFINSV.NS"; "ADANIENT.NS"; "NTPC.NS"; "M&M.NS";
    "JSWSTEEL.NS"; "TATAMOTORS.NS"; "POWERGRID.NS"; "TITAN.NS"; "TATASTEEL.NS";
    "ADANIPORTS.NS"; "COALINDIA.NS"; "ONGC.NS"; "INDUSINDBK.NS"; "HINDALCO.NS";
    "BRITANNIA.NS"; "CIPLA.NS"; "DRREDDY.NS"; "EICHERMOT.NS"; "GRASIM.NS";
    "HEROMOTOCO.NS"; "BPCL.NS"; "DIVISLAB.NS"; "BAJAJ-AUTO.NS"; "APOLLOHOSP.NS";
    "TECHM.NS"; "UPL.NS"; "SHREECEM.NS"; "HDFCLIFE.NS"; "TATACONSUM.NS" ].

(** The body of the [try] block once both requests have answered:
    [Raise] is an exception on its way to the handler, [Ok (Some _)] a
    [return symbols], [Ok None] the end of the block without a
    [return]. *)
Definition parse (response : Response) : result (option (list string)) :=
  if negb (status_code response =? 200)%Z || text_is_blank response
  then Raise FetchError
  else
    match body response with
    | None => Raise FetchError
    | Some (JObject members) =>
        let data :=
          match member "data" members with
          | Some v => v
          | None => JArray []
          end in
        match iterate data with
        | None => Raise FetchError
        | Some items =>
            match symbols_NS items with
            | None => Raise FetchError
            | Some [] => Ok None
            | Some symbols => Ok (Some symbols)
            end
        end
    | Some _ => Raise FetchError
    end.

(** [get_nifty50_symbols]; [exchange] is what the session's two requests
    came to.  The handler returns the static list; leaving the [try]
    block without a [return] makes the function return [None]. *)
Definition get_nifty50_symbols (exchange : result Response)
  : option (list string) :=
  match exchange with
  | Raise _ => Some fallback
  | Ok response =>
      match parse response with
      | Raise _ => Some fallback
      | Ok returned => returned
      end
  end.

(** [get_eligible_stocks_for_today(symbols, progress_bar)] as the main
    flow calls it, with whatever [get_nifty50_symbols] returned.
    [len(symbols)], ahead of the loop and its [try], raises a
    [TypeError] on [None]. *)
Definition screening_run {S : Pd.Sorting} {F : App.Feed}
           (symbols : option (list string)) : result (list App.Screened) :=
  match symbols with
  | None => Raise TypeError
  | Some symbols => Ok (App.get_eligible_stocks_for_today symbols)
  end.

(** The first step of a run of the dashboard.  [len(symbols)] at the top
    of [get_eligible_stocks_for_today] raises a [TypeError] on [None],
    outside of any handler: that is the [None] here. *)
Definition scan {S : Pd.Sorting} {F : App.Feed} (exchange : result Response)
  : option (list App.Screened) :=
  match get_nifty50_symbols exchange with
  | None => None
  | Some symbols => Some (App.get_eligible_stocks_for_today symbols)
  end.

End Universe.

Module AppSell.

(** A line of the sell recommendations. *)
Inductive Decision : Type :=
| SELL (symbol : string) (pnl : Q)
| HOLD_below_target.

(** [df.sort_values(by, ascending=False)]: pandas reverses the rows,
    sorts them in ascending order and reverses the result. *)
Definition sort_values_descending {S : Pd.Sorting} {A : Type}
           (key : A -> option Q) (l : list A) : list A :=
  rev (Pd.sort_values A key (rev l)).

(** [holdings_df['Pnl%'] >= target_pct]; false on [NaN]. *)
Definition reached (target_pct : Q) (row : App.Exported * option Q) : bool :=
  match snd row with
  | Some pnl => Qle_bool target_pct pnl
  | None => false
  end.

(** The sell part of the decision block.  A row of [holdings_df] comes
    with its ['Pnl%'] cell; [has_Pnl] says whether the export has that
    column at all. *)
Definition sell_decisions {S : Pd.Sorting}
           (holdings_df : list (App.Exported * option Q)) (has_Pnl : bool)
           (target_pct : Q) (max_sells_per_day : Z) : list Decision :=
  if negb (is_None (hd_error holdings_df)) && has_Pnl
  then
    match filter (reached target_pct) holdings_df with
    | [] => [HOLD_below_target]
    | sell_candidates =>
        let to_sell :=
          slice_to max_sells_per_day
                   (sort_values_descending snd sell_candidates) in
        flat_map (fun row => match snd row with
                             | Some pnl => [SELL (App.csv_Symbol (fst row)) pnl]
                             | None => []
                             end) to_sell
    end
  else [].

End AppSell.

(* ================================================================== *)
(** * A small market to run the model on *)

Module Demo.

(** Twenty trading days: nineteen closes at [base], then [last]. *)
Definition frame (base last : Q) : Pd.DataFrame := {|
  Pd.has_Close := true;
  Pd.rows := map (fun d => (Z.of_nat d, Some base)) (seq 1 19)
             ++ [(20%Z, Some last)]
|}.

Definition no_rows : Pd.DataFrame := {| Pd.has_Close := true; Pd.rows := [] |}.

(** INFY and WIPRO have the same history; ITC closed above its average;
    the provider fails on SBIN and has nothing on anything else. *)
Definition history (symbol : string) : result (option Pd.DataFrame) :=
  if symbol =? "INFY" then Ok (Some (frame 100 80))
  else if symbol =? "WIPRO" then Ok (Some (frame 100 80))
  else if symbol =? "TCS" then Ok (Some (frame 100 90))
  else if symbol =? "ITC" then Ok (Some (frame 100 110))
  else if symbol =? "SBIN" then Raise FetchError
  else Ok None.

Definition quotes (symbol : string) : option Q :=
  if symbol =? "INFY" then Some 108
  else if symbol =? "WIPRO" then Some 80
  else if symbol =? "TCS" then Some 106
  else if symbol =? "ITC" then Some 110
  else if symbol =? "HDFC" then Some 95004
  else None.

(** An order just placed: an entry of the strategy that is not yet
    active. *)
Definition placed (stock : string) : Trade := {|
  strategy := "Aditi";
  tradingSymbol := stock;
  direction := LONG;
  tradeState := "created";
  entry := 0;
  filledQty := 0;
  createTimestamp := 100;
  entryOrder := None;
  targetOrder := None
|}.

Definition platform : Platform := {|
  get_historical_data := history;
  get_cmp := quotes;
  round_off_price := fun price => price;
  place_new_trade := fun stock trades => trades ++ [placed stock];
  compensated_sum := false
|}.

Definition feed : App.Feed := {|
  App.yf_download := fun symbol =>
    match history symbol with
    | Ok (Some df) => Ok df
    | Ok None => Ok no_rows
    | Raise e => Raise e
    end
|}.

Definition universe : list string := ["ITC"; "TCS"; "SBIN"; "INFY"; "XYZ"].

(** A lot of the strategy that is held: bought at [price], [qty] shares
    filled, at time [time]. *)
Definition lot (symbol : string) (price : Q) (qty time : Z) : Trade := {|
  strategy := "Aditi";
  tradingSymbol := symbol;
  direction := LONG;
  tradeState := "active";
  entry := price;
  filledQty := qty;
  createTimestamp := time;
  entryOrder := Some {| Order.orderStatus := COMPLETE; Order.filledQty := qty |};
  targetOrder := None
|}.

(** TCS stands 6% above its entry and INFY 8% (see [quotes]). *)
Definition winners : list Trade := [lot "TCS" 100 10 1; lot "INFY" 100 10 2].

(** Two fills of one symbol, at 100 and at 90, ten shares each. *)
Definition two_fills : list Trade := [lot "HDFC" 100 10 1; lot "HDFC" 90 10 2].

(** WIPRO was bought at 100 and is quoted at 80. *)
Definition fallen : list Trade := [lot "WIPRO" 100 10 1].

(** Three filled entries of WIPRO, the last one still held. *)
Definition sold (symbol : string) (price : Q) (qty time : Z) : Trade := {|
  strategy := "Aditi";
  tradingSymbol := symbol;
  direction := LONG;
  tradeState := "completed";
  entry := price;
  filledQty := qty;
  createTimestamp := time;
  entryOrder := Some {| Order.orderStatus := COMPLETE; Order.filledQty := qty |};
  targetOrder := Some {| Order.orderStatus := COMPLETE; Order.filledQty := qty |}
|}.

Definition thrice : list Trade :=
  [sold "WIPRO" 120 10 1; sold "WIPRO" 110 10 2; lot "WIPRO" 100 10 3].

(** HDFC was bought at 100000 and is quoted at 95004: down 4.996%. *)
Definition borderline : list Trade := [lot "HDFC" 100000 1 1].

(** A trade export: INFY held from 200 and WIPRO from 1000, and a
    closed trade of another strategy. *)
Definition export : list App.Exported :=
  [ {| App.csv_Strategy := "Aditi"; App.csv_Status := "active";
       App.csv_Symbol := "INFY"; App.csv_Entry := 200 |};
    {| App.csv_Strategy := "Aditi"; App.csv_Status := "active";
       App.csv_Symbol := "WIPRO"; App.csv_Entry := 1000 |};
    {| App.csv_Strategy := "Other"; App.csv_Status := "closed";
       App.csv_Symbol := "TCS"; App.csv_Entry := 50 |} ].

End Demo.

(** More of the small market. *)
Module Demo2.

(** An active trade of the strategy whose entry order was never
    recorded. *)
Definition orphan : Trade := {|
  strategy := "Aditi";
  tradingSymbol := "INFY";
  direction := LONG;
  tradeState := "active";
  entry := 100;
  filledQty := 10;
  createTimestamp := 1;
  entryOrder := None;
  targetOrder := None
|}.

(** A holding whose entry price was recorded as 0. *)
Definition unpriced : list Trade := [Demo.lot "INFY" 0 10 1].

(** A broker that marks a squared-off trade as exited, and a platform
    that leaves the ledger alone while the strategy sleeps. *)
Definition exited (t : Trade) : Trade := {|
  strategy := strategy t;
  tradingSymbol := tradingSymbol t;
  direction := direction t;
  tradeState := "completed";
  entry := entry t;
  filledQty := filledQty t;
  createTimestamp := createTimestamp t;
  entryOrder := entryOrder t;
  targetOrder := targetOrder t
|}.

Definition broker : Broker := {|
  square_off_trade := fun trade ledger =>
    map (fun t => if (createTimestamp t =? createTimestamp trade)%Z
                     && (tradingSymbol t =? tradingSymbol trade)
                  then exited t else t) ledger;
  while_asleep := fun ledger => ledger
|}.

(** A second market, quoting LT at 96.25 and HDFC at 104996, on which
    the price rounding and the interpreter can be chosen. *)
Definition quotes (symbol : string) : option Q :=
  if symbol =? "LT" then Some (385 # 4)
  else if symbol =? "HDFC" then Some 104996
  else None.

Definition market (round_off : Q -> Q) (compensated : bool) : Platform := {|
  get_historical_data := Demo.history;
  get_cmp := quotes;
  round_off_price := round_off;
  place_new_trade := fun stock trades => trades ++ [Demo.placed stock];
  compensated_sum := compensated
|}.

(** Python's [round(price, 2)]: the two-decimal number nearest to the
    value of the float, as a float. *)
Definition py_round2 (price : Q) : Q :=
  F64.round (inject_Z (rint (price * 100)) / 100).

(** Two shares of LT bought at 90 and one at 95: a weighted mean of
    275/3, which 96.25 exceeds by 5%.  And three shares bought at the
    double nearest to 275/3, which is above it. *)
Definition two_lots : list Trade := [Demo.lot "LT" 90 2 1; Demo.lot "LT" 95 1 2].

Definition one_lot : list Trade :=
  [Demo.lot "LT" (6450468216285867 # 70368744177664) 3 1].

(** A winner next to a trade without entry order. *)
Definition winner_and_orphan : list Trade := [Demo.lot "TCS" 100 10 1; orphan].

(** Holdings of an export with their ['Pnl%'] cells; TCS has none. *)
Definition held (symbol : string) : App.Exported := {|
  App.csv_Strategy := "Aditi";
  App.csv_Status := "active";
  App.csv_Symbol := symbol;
  App.csv_Entry := 100
|}.

Definition positions : list (App.Exported * option Q) :=
  [ (held "WIPRO", Some 6); (held "TCS", None);
    (held "INFY", Some 8); (held "ITC", Some 2) ].

(** An answer of the index API with an empty list, and one with two
    constituents. *)
Definition empty_answer : Universe.Response := {|
  Universe.status_code := 200;
  Universe.text_is_blank := false;
  Universe.body :=
    Some (Universe.JObject
            [("name", Universe.JString "NIFTY 50");
             ("data", Universe.JArray [])])
|}.

(** An answer of the index API that is an object without constituents. *)
Definition no_data_answer : Universe.Response := {|
  Universe.status_code := 200;
  Universe.text_is_blank := false;
  Universe.body :=
    Some (Universe.JObject [("message", Universe.JString "No data found")])
|}.

(** A download of twenty rows in which the nineteenth day comes twice,
    and a platform and a feed that both deliver it for INFY. *)
Definition repeated : Pd.DataFrame := {|
  Pd.has_Close := true;
  Pd.rows := map (fun d => (Z.of_nat d, Some 100)) (seq 1 19)
             ++ [(19%Z, Some 80)]
|}.

Definition repeating_platform : Platform := {|
  get_historical_data := fun symbol =>
    if symbol =? "INFY" then Ok (Some repeated) else Ok None;
  get_cmp := quotes;
  round_off_price := fun price => price;
  place_new_trade := fun stock trades => trades ++ [Demo.placed stock];
  compensated_sum := false
|}.

Definition repeating_feed : App.Feed := {|
  App.yf_download := fun symbol =>
    if symbol =? "INFY" then Ok repeated else Ok Demo.no_rows
|}.

(** A screening table with one row, and a holding of the same symbol. *)
Definition table : list App.Screened :=
  [ {| App.Symbol := "INFY"; App.Deviation := - (10);
       App.CMP := 171; App.DMA20 := 190 |} ].

Definition constituent (symbol : string) : Universe.json :=
  Universe.JObject [("symbol", Universe.JString symbol);
                    ("open", Universe.JNumber 100)].

Definition answer : Universe.Response := {|
  Universe.status_code := 200;
  Universe.text_is_blank := false;
  Universe.body :=
    Some (Universe.JObject
            [("data", Universe.JArray [constituent "INFY"; constituent "TCS"])])
|}.

End Demo2.

(* ================================================================== *)
(** * Notions used to state the properties *)

(** What one symbol contributes to [results] in the strategy's screening
    loop. *)
Definition contribution {S : Pd.Sorting} {P : Platform} (symbol : string)
  : list (string * Q) :=
  match NiftyShop.examine symbol with
  | Ok (Some r) => [r]
  | Ok None => []
  | Raise _ => []
  end.

(** The same for the dashboard's loop. *)
Definition app_contribution {S : Pd.Sorting} {F : App.Feed} (symbol : string)
  : list App.Screened :=
  match App.examine symbol with
  | Ok (Some r) => [r]
  | Ok None => []
  | Raise _ => []
  end.

(** The inputs the screening has to survive, for the strategy: the
    provider raises, returns [None], returns an empty frame or one
    without a [Close] column, or the latest moving average is [NaN]. *)
Definition unusable {S : Pd.Sorting} {P : Platform} (symbol : string) : Prop :=
  match get_historical_data symbol with
  | Raise _ => True
  | Ok None => True
  | Ok (Some df) =>
      Pd.empty df = true \/ Pd.has_Close df = false
      \/ latest_dma df = None
  end.

(** And for the dashboard: the download raises or is empty, the frame has
    no [Close] column or fewer than 20 rows once duplicate dates are
    dropped, or the latest moving average or close is [NaN]. *)
Definition app_unusable {S : Pd.Sorting} {F : App.Feed} (symbol : string)
  : Prop :=
  match App.yf_download symbol with
  | Raise _ => True
  | Ok df =>
      Pd.empty df = true
      \/ exists df', App.get_historical_data symbol = Some df'
          /\ (Pd.has_Close df' = false
              \/ (List.length (Pd.rows df') < 20)%nat
              \/ latest_dma df' = None
              \/ latest_close df' = Ok None)
  end.

(** The test of [is_open_holding] on a trade whose entry order is
    recorded, where no attribute access can fail. *)
Definition open_holding (self : Strategy) (t : Trade) : bool :=
  (strategy t =? name self)
  && (tradeState t =? "active")
  && is_None (targetOrder t)
  && match entryOrder t with
     | Some o =>
         OrderStatus_eqb (Order.orderStatus o) COMPLETE
         && (0 <? Order.filledQty o)%Z
     | None => false
     end.

(** The trades of one symbol that the sell pass and the averaging block
    look at. *)
Definition holdings_of (self : Strategy) (trades : list Trade) (symbol : string)
  : list Trade :=
  filter (fun t => open_holding self t && (tradingSymbol t =? symbol)) trades.

(** An active trade of the strategy without target order has its entry
    order on record (the platform activates a trade when its entry order
    fills). *)
Definition entry_recorded (self : Strategy) (t : Trade) : Prop :=
  strategy t = name self ->
  tradeState t = "active" ->
  targetOrder t = None ->
  entryOrder t <> None.

(** A ledger the sell pass can price: entries are recorded, and no
    symbol it looks at has a weighted entry of zero. *)
Definition priced {P : Platform} (self : Strategy) (trades : list Trade)
  : Prop :=
  Forall (entry_recorded self) trades
  /\ forall symbol,
      NiftyShop.total_qty (holdings_of self trades symbol) <> 0%Z ->
      ~ NiftyShop.weighted_entry (holdings_of self trades symbol) == 0.

(** The fills of some trades: entry price and filled quantity. *)
Definition fills_of (trades : list Trade) : list (Q * Z) :=
  map (fun t => (entry t, filledQty t)) trades.

Definition filled (fills : list (Q * Z)) : Z :=
  fold_right Z.add 0%Z (map snd fills).

(** The quantity-weighted mean of the entry prices as a number: the sum
    of entry price times filled quantity over the sum of filled
    quantities. *)
Definition weighted_mean (fills : list (Q * Z)) : Q :=
  fold_right Qplus 0 (map (fun f => fst f * inject_Z (snd f)) fills)
  / inject_Z (filled fills).

(** The weighted-average entry price in the words of the specification,
    on the machine: the sum, by Python's [sum], of entry price times
    filled quantity, over the sum of filled quantities, each operation
    in double precision. *)
Definition spec_weighted_avg_entry {P : Platform} (fills : list (Q * Z)) : Q :=
  F64.div
    (F64.sum compensated_sum
       (map (fun f => F64.mul (fst f) (F64.of_int (snd f))) fills))
    (F64.of_int (filled fills)).

(** A number the machine has: rounding leaves it as it is. *)
Definition is_double (x : Q) : Prop := F64.round x == x.

(** The sums of a list from the left, starting from [acc], are all
    doubles. *)
Fixpoint sums_are_doubles (acc : Q) (l : list Q) : Prop :=
  match l with
  | [] => True
  | x :: l' => is_double (acc + x) /\ sums_are_doubles (acc + x) l'
  end.

(** The weighted mean of some fills can be computed without rounding:
    the quantities, the products, their sums from the left, the total
    quantity and the mean itself are doubles. *)
Definition computed_exactly (fills : list (Q * Z)) : Prop :=
  Forall (fun f => is_double (inject_Z (snd f))
                   /\ is_double (fst f * inject_Z (snd f))) fills
  /\ sums_are_doubles 0 (map (fun f => fst f * inject_Z (snd f)) fills)
  /\ is_double (inject_Z (filled fills))
  /\ is_double (weighted_mean fills).

(** The P&L percentage of [qty] shares bought at [entry] and quoted at
    [cmp]: as a number, and with the operations of the sell pass. *)
Definition pnl_pct_of (cmp entry : Q) : Q := (cmp - entry) / entry * 100.

Definition pnl_pct_at (qty : Z) (cmp entry : Q) : Q :=
  F64.div
    (F64.mul (F64.mul (F64.of_int qty) (F64.sub cmp entry)) (F64.of_int 100))
    (F64.mul (F64.of_int qty) entry).

(** Reading a key of the insertion-ordered dict. *)
Fixpoint dict_get (k : string) (d : list (string * list Trade))
  : option (list Trade) :=
  match d with
  | [] => None
  | (k', vs) :: d' => if k' =? k then Some vs else dict_get k d'
  end.

(** The dict [symbol_trades] after the loop of the sell pass, when no
    attribute access failed. *)
Definition grouped (self : Strategy) (trades : list Trade)
           (d : list (string * list Trade)) : list (string * list Trade) :=
  fold_left
    (fun d t =>
       if open_holding self t
       then NiftyShop.setdefault_append (tradingSymbol t) t d
       else d)
    trades d.

(** The averaging frame as first built, when no attribute access
    failed. *)
Definition held_rows (self : Strategy) (trades : list Trade)
  : list NiftyShop.Holding :=
  map (fun t => {| NiftyShop.Symbol := tradingSymbol t;
                   NiftyShop.LastBuyPrice := entry t;
                   NiftyShop.Date := createTimestamp t |})
      (filter (open_holding self) trades).

(** The change in percent from [last_buy] to [close]: as a number, and
    as the averaging block has it in its [ChangePct] column, computed in
    double precision and rounded to two decimals. *)
Definition change_of (close last_buy : Q) : Q :=
  (close - last_buy) / last_buy * 100.

Definition rounded_change (close last_buy : Q) : Q :=
  round2 (F64.mul (F64.div (F64.sub close last_buy) last_buy)
                  (F64.of_int 100)).

(** An averaging candidate and its change: a row of the frame reduced to
    the latest purchase per symbol, with a quote, whose change since the
    last buy, as computed and rounded to two decimals, is at most
    [averaging_pct], and whose symbol is below the averaging cap. *)
Definition averaging_candidate {P : Platform} (self : Strategy)
           (trades : list Trade) (h : NiftyShop.Holding) (change : Q) : Prop :=
  In h (NiftyShop.latest_purchase (held_rows self trades))
  /\ (exists close,
         get_cmp (NiftyShop.Symbol h) = Some close
         /\ ~ NiftyShop.LastBuyPrice h == 0
         /\ change = rounded_change close (NiftyShop.LastBuyPrice h))
  /\ change <= averaging_pct self
  /\ (NiftyShop._current_averaging_count self trades (NiftyShop.Symbol h)
      < max_averaging_per_stock self)%Z.

(** The platform and the dashboard's feed deliver the same download for
    a symbol: the frame the platform returns is the frame [yf.download]
    returns, and where the platform has nothing or fails the download is
    empty or fails. *)
Definition same_download {P : Platform} {F : App.Feed} (symbol : string)
  : Prop :=
  match get_historical_data symbol with
  | Ok (Some df) => App.yf_download symbol = Ok df
  | Ok None | Raise _ =>
      match App.yf_download symbol with
      | Ok df => Pd.empty df = true
      | Raise _ => True
      end
  end.

(** No date comes twice in the frame the platform returns for a
    symbol. *)
Definition dates_unique {P : Platform} (symbol : string) : Prop :=
  forall df,
    get_historical_data symbol = Ok (Some df) ->
    NoDup (map fst (Pd.rows df)).

(** The screened symbols the dashboard would buy: the first
    [max_buys_per_day] of the table that are not among the holdings. *)
Definition first_unheld (eligible_stocks_df : list App.Screened)
           (holdings_df : list App.Exported) (max_buys_per_day : Z)
  : list string :=
  firstn (Z.to_nat max_buys_per_day)
         (filter (fun s => negb (existsb (String.eqb s)
                                         (map App.csv_Symbol holdings_df)))
                 (map App.Symbol eligible_stocks_df)).

(** The rows of a frame whose ['Pnl%'] cell is a number, with that
    number. *)
Definition with_pnl (rows : list (App.Exported * option Q))
  : list (App.Exported * Q) :=
  flat_map (fun row => match snd row with
                       | Some pnl => [(fst row, pnl)]
                       | None => []
                       end) rows.

(** Whether a string ends in [".NS"]. *)
Fixpoint ends_with_NS (s : string) : bool :=
  (s =? ".NS")
  || match s with
     | EmptyString => false
     | String _ rest => ends_with_NS rest
     end.

(** The value the comprehension of [get_nifty50_symbols] iterates. *)
Definition data_of (members : list (string * Universe.json)) : Universe.json :=
  match Universe.member "data" members with
  | Some v => v
  | None => Universe.JArray []
  end.

(** An item of the API's list that is an object with the string [name]
    under ['symbol']. *)
Definition has_symbol (item : Universe.json) (name : string) : Prop :=
  exists members,
    item = Universe.JObject members
    /\ Universe.member "symbol" members = Some (Universe.JString name).

(* ================================================================== *)
(** * Properties *)

(** ** Double-precision arithmetic *)

(* The rounding at work: a tenth is not a double; a tie goes to the even
   significand, among the integers above 2^53 as among the least
   doubles; what is less than half the least double is zero. *)
Lemma round_examples :
  F64.round (1 # 10) = 3602879701896397 # 36028797018963968
  /\ F64.round (inject_Z (2 ^ 53 + 1)) = inject_Z (2 ^ 53)
  /\ F64.round (inject_Z (2 ^ 53 + 3)) = inject_Z (2 ^ 53 + 4)
  /\ F64.round (3 * 2 ^ (-1075)) == 2 * 2 ^ (-1074)
  /\ F64.round (2 ^ (-1075)) = 0
  /\ F64.div 1 3 = 6004799503160661 # 18014398509481984.
Proof. repeat split; vm_compute; reflexivity. Qed.

Lemma rint_floor (y : Q) : (Qfloor y <= rint y <= Qfloor y + 1)%Z.
Proof.
  unfold rint. cbv zeta.
  destruct (Qle_bool (y - inject_Z (Qfloor y)) (1 # 2));
    [destruct (Qle_bool (1 # 2) (y - inject_Z (Qfloor y)));
     [destruct (Z.even (Qfloor y))|]|]; lia.
Qed.

Lemma rint_ge (k : Z) (y : Q) : inject_Z k <= y -> (k <= rint y)%Z.
Proof.
  intros H. pose proof (rint_floor y) as [Hlo _].
  assert (k <= Qfloor y)%Z; [|lia].
  rewrite <- (Qfloor_Z k). now apply Qfloor_resp_le.
Qed.

Lemma rint_le (k : Z) (y : Q) : y <= inject_Z k -> (rint y <= k)%Z.
Proof.
  intros H.
  assert (Hf : (Qfloor y <= k)%Z).
  { rewrite <- (Qfloor_Z k). now apply Qfloor_resp_le. }
  destruct (Z.eq_dec (Qfloor y) k) as [E|E].
  - (* y = k exactly *)
    assert (Hy : y == inject_Z k).
    { apply Qle_antisym; [exact H|]. rewrite <- E. apply Qfloor_le. }
    unfold rint. cbv zeta.
    assert (Hr : y - inject_Z (Qfloor y) == 0) by (rewrite E, Hy; ring).
    assert (H1 : Qle_bool (y - inject_Z (Qfloor y)) (1 # 2) = true).
    { apply Qle_bool_iff. rewrite Hr. discriminate. }
    assert (H2 : Qle_bool (1 # 2) (y - inject_Z (Qfloor y)) = false).
    { destruct (Qle_bool (1 # 2) (y - inject_Z (Qfloor y))) eqn:E2; [|reflexivity].
      apply Qle_bool_iff in E2. rewrite Hr in E2. now exfalso. }
    rewrite H1, H2. lia.
  - pose proof (rint_floor y). lia.
Qed.

Lemma pow2_pos (k : Z) : 0 < 2 ^ k.
Proof. apply Qpower_0_lt. reflexivity. Qed.

Lemma pow2_le (j k : Z) : (j <= k)%Z -> 2 ^ j <= 2 ^ k.
Proof. intros H. apply Qpower_le_compat_l; [exact H|discriminate]. Qed.

Lemma pow2_lt (j k : Z) : (j < k)%Z -> 2 ^ j < 2 ^ k.
Proof. intros H. apply Qpower_lt_compat_l; [exact H|reflexivity]. Qed.

Lemma pow2_Z (k : Z) : (0 <= k)%Z -> 2 ^ k == inject_Z (2 ^ k).
Proof. intros H. symmetry. now apply (Zpower_Qpower 2). Qed.

Lemma pow2_minus (j k : Z) : 2 ^ (j - k) == 2 ^ j / 2 ^ k.
Proof. apply Qpower_minus. discriminate. Qed.

Lemma log2_bounds (n : Z) :
  (0 < n)%Z -> 2 ^ Z.log2 n <= inject_Z n /\ inject_Z n < 2 ^ (Z.log2 n + 1).
Proof.
  intros H. pose proof (Z.log2_spec n H) as [Hlo Hhi].
  pose proof (Z.log2_nonneg n).
  rewrite !pow2_Z by lia. split.
  - rewrite <- Zle_Qle. exact Hlo.
  - rewrite <- Zlt_Qlt. replace (Z.log2 n + 1)%Z with (Z.succ (Z.log2 n)) by lia.
    exact Hhi.
Qed.

Lemma Qabs_num_den (x : Q) :
  Qabs x == inject_Z (Z.abs (Qnum x)) / inject_Z (Zpos (Qden x)).
Proof.
  destruct x as [n d]. unfold Qabs. simpl.
  rewrite (Qmake_Qdiv (Z.abs n) d). reflexivity.
Qed.

Lemma exponent_spec (x : Q) :
  ~ x == 0 ->
  2 ^ F64.exponent x <= Qabs x /\ Qabs x < 2 ^ (F64.exponent x + 1).
Proof.
  intros Hx.
  assert (Hn : (0 < Z.abs (Qnum x))%Z).
  { destruct x as [n d]. simpl.
    assert (n <> 0)%Z; [|lia].
    intros ->. apply Hx. reflexivity. }
  pose proof (log2_bounds _ Hn) as [Hnlo Hnhi].
  pose proof (log2_bounds (Zpos (Qden x)) eq_refl) as [Hdlo Hdhi].
  set (ln := Z.log2 (Z.abs (Qnum x))) in *.
  set (ld := Z.log2 (Zpos (Qden x))) in *.
  assert (Hd : 0 < inject_Z (Zpos (Qden x))) by reflexivity.
  assert (Habs := Qabs_num_den x).
  assert (HB : 0 < 2 ^ ld) by apply pow2_pos.
  assert (HA : 0 < 2 ^ ln) by apply pow2_pos.
  assert (HA2 : 2 ^ (ln + 1) == 2 * 2 ^ ln).
  { rewrite Qpower_plus by discriminate. rewrite Qpower_1_r. ring. }
  assert (HB2 : 2 ^ (ld + 1) == 2 * 2 ^ ld).
  { rewrite Qpower_plus by discriminate. rewrite Qpower_1_r. ring. }
  assert (HP : 2 ^ (ln - ld + 1) * 2 ^ ld == 2 * 2 ^ ln).
  { rewrite <- Qpower_plus by discriminate.
    replace (ln - ld + 1 + ld)%Z with (ln + 1)%Z by lia. exact HA2. }
  assert (HM : 2 ^ (ln - ld - 1) * (2 * 2 ^ ld) == 2 ^ ln).
  { rewrite <- HB2. rewrite <- Qpower_plus by discriminate.
    replace (ln - ld - 1 + (ld + 1))%Z with ln by lia. reflexivity. }
  assert (HPpos : 0 < 2 ^ (ln - ld + 1)) by apply pow2_pos.
  assert (HMpos : 0 < 2 ^ (ln - ld - 1)) by apply pow2_pos.
  rewrite HA2 in Hnhi. rewrite HB2 in Hdhi.
  set (N := inject_Z (Z.abs (Qnum x))) in *.
  set (D := inject_Z (Zpos (Qden x))) in *.
  set (A := 2 ^ ln) in *. set (B := 2 ^ ld) in *.
  set (P := 2 ^ (ln - ld + 1)) in *. set (M := 2 ^ (ln - ld - 1)) in *.
  assert (Hup : Qabs x < P).
  { rewrite Habs. apply Qlt_shift_div_r; [exact Hd|]. nra. }
  assert (Hlow : M < Qabs x).
  { rewrite Habs. apply Qlt_shift_div_l; [exact Hd|]. nra. }
  subst N D A B P M.
  unfold F64.exponent. fold ln ld. cbv zeta.
  destruct (Qle_bool (2 ^ (ln - ld)) (Qabs x)) eqn:E.
  - apply Qle_bool_iff in E. split; [exact E|exact Hup].
  - split.
    + apply Qlt_le_weak. exact Hlow.
    + replace (ln - ld - 1 + 1)%Z with (ln - ld)%Z by lia.
      apply Qnot_le_lt. intros H. apply Qle_bool_iff in H. congruence.
Qed.

Lemma round_eq (x : Q) :
  ~ x == 0 ->
  F64.round x == inject_Z (rint (x / F64.quantum x)) * F64.quantum x.
Proof.
  intros Hx. unfold F64.round.
  destruct (Qeq_bool x 0) eqn:E.
  - apply Qeq_bool_iff in E. contradiction.
  - apply Qred_correct.
Qed.

Lemma round_zero (x : Q) : x == 0 -> F64.round x = 0.
Proof.
  intros Hx. unfold F64.round.
  apply Qeq_bool_iff in Hx. now rewrite Hx.
Qed.

Lemma quantum_pos (x : Q) : 0 < F64.quantum x.
Proof. apply pow2_pos. Qed.

Lemma Qabs_ge (x a : Q) : a <= Qabs x <-> a <= x \/ a <= - x.
Proof.
  split.
  - intros H. destruct (Qlt_le_dec x 0) as [Hneg|Hpos].
    + right. rewrite Qabs_neg in H; [exact H|now apply Qlt_le_weak].
    + left. rewrite Qabs_pos in H; assumption.
  - intros [H|H].
    + eapply Qle_trans; [exact H|apply Qle_Qabs].
    + eapply Qle_trans; [exact H|]. rewrite <- Qabs_opp. apply Qle_Qabs.
Qed.

(* Rounding does not cross a power of two that is a multiple of the
   spacing. *)
Lemma round_keeps_above (x : Q) (j : Z) :
  ~ x == 0 ->
  (Z.max (F64.exponent x - 52) (-1074) <= j)%Z ->
  2 ^ j <= Qabs x -> 2 ^ j <= Qabs (F64.round x).
Proof.
  intros Hx Hj Hle.
  set (p := Z.max (F64.exponent x - 52) (-1074)) in *.
  assert (Hq : F64.quantum x = 2 ^ p) by reflexivity.
  assert (Hqpos : 0 < 2 ^ p) by apply pow2_pos.
  assert (Hsplit : 2 ^ j == inject_Z (2 ^ (j - p)) * 2 ^ p).
  { rewrite <- pow2_Z by lia. rewrite <- Qpower_plus by discriminate.
    replace (j - p + p)%Z with j by lia. reflexivity. }
  rewrite (round_eq x Hx), Hq.
  apply Qabs_ge. apply Qabs_ge in Hle. destruct Hle as [Hle|Hle].
  - left. rewrite Hsplit. apply Qmult_le_compat_r; [|now apply Qlt_le_weak].
    rewrite <- Zle_Qle. apply rint_ge.
    apply Qle_shift_div_l; [exact Hqpos|]. now rewrite <- Hsplit.
  - right.
    setoid_replace (- (inject_Z (rint (x / 2 ^ p)) * 2 ^ p))
      with (inject_Z (- rint (x / 2 ^ p)) * 2 ^ p)
      by (rewrite inject_Z_opp; ring).
    rewrite Hsplit. apply Qmult_le_compat_r; [|now apply Qlt_le_weak].
    rewrite <- Zle_Qle.
    assert (rint (x / 2 ^ p) <= - 2 ^ (j - p))%Z; [|lia].
    apply rint_le. rewrite inject_Z_opp.
    apply Qle_shift_div_r; [exact Hqpos|].
    setoid_replace (- inject_Z (2 ^ (j - p)) * 2 ^ p) with (- 2 ^ j)
      by (rewrite Hsplit; ring).
    lra.
Qed.

Lemma round_above_pow2 (x : Q) (k : Z) :
  (-1074 <= k)%Z -> 2 ^ k <= Qabs x -> 2 ^ k <= Qabs (F64.round x).
Proof.
  intros Hk Hle.
  assert (Hx : ~ x == 0).
  { intros E. rewrite E in Hle. pose proof (pow2_pos k) as Hpos.
    change (Qabs 0) with 0 in Hle.
    revert Hle Hpos. generalize (2 ^ k). intros t Hle Hpos. lra. }
  destruct (exponent_spec x Hx) as [Hlo Hhi].
  set (e := F64.exponent x) in *.
  assert (Hke : (k <= e)%Z).
  { assert (2 ^ k < 2 ^ (e + 1)) by (eapply Qle_lt_trans; eassumption).
    apply Qpower_lt_compat_l_inv in H; [lia|reflexivity]. }
  set (j := Z.max k (Z.max (e - 52) (-1074))).
  apply Qle_trans with (2 ^ j); [apply pow2_le; lia|].
  apply round_keeps_above; [exact Hx|fold e; lia|].
  apply Qle_trans with (2 ^ e); [apply pow2_le; lia|exact Hlo].
Qed.

Lemma round_least (x : Q) :
  ~ F64.round x == 0 -> 2 ^ (-1074) <= Qabs (F64.round x).
Proof.
  intros Hr.
  assert (Hx : ~ x == 0).
  { intros E. apply Hr. now rewrite (round_zero x E). }
  rewrite (round_eq x Hx) in *.
  set (m := rint (x / F64.quantum x)) in *.
  assert (Hm : m <> 0%Z).
  { intros E. apply Hr. rewrite E. ring. }
  rewrite Qabs_Qmult. rewrite (Qabs_pos (F64.quantum x))
    by (apply Qlt_le_weak, quantum_pos).
  apply Qle_trans with (1 * F64.quantum x).
  - rewrite Qmult_1_l. apply pow2_le. lia.
  - apply Qmult_le_compat_r; [|apply Qlt_le_weak, quantum_pos].
    change (Qabs (inject_Z m)) with (inject_Z (Z.abs m)).
    change 1 with (inject_Z 1). rewrite <- Zle_Qle. lia.
Qed.

(* A double times a non-zero integer is zero only when the double is. *)
Lemma mul_of_int_zero (n : Z) (z : Q) :
  n <> 0%Z ->
  (F64.mul (F64.of_int n) (F64.round z) == 0 <-> F64.round z == 0).
Proof.
  intros Hn. split.
  - intros H.
    destruct (Qeq_dec (F64.round z) 0) as [E|E]; [exact E|exfalso].
    pose proof (round_least z E) as Hw.
    assert (Hone : 2 ^ 0 <= Qabs (F64.of_int n)).
    { apply round_above_pow2; [lia|].
      change (Qabs (inject_Z n)) with (inject_Z (Z.abs n)).
      change (2 ^ 0) with (inject_Z 1).
      rewrite <- Zle_Qle. lia. }
    change (2 ^ 0) with 1 in Hone.
    assert (Hprod : 2 ^ (-1074) <= Qabs (F64.of_int n * F64.round z)).
    { rewrite Qabs_Qmult.
      apply Qle_trans with (1 * Qabs (F64.round z)).
      - now rewrite Qmult_1_l.
      - apply Qmult_le_compat_r; [exact Hone|apply Qabs_nonneg]. }
    apply round_above_pow2 in Hprod; [|lia].
    unfold F64.mul in H. rewrite H in Hprod.
    pose proof (pow2_pos (-1074)) as Hpos.
    change (Qabs 0) with 0 in Hprod.
    revert Hprod Hpos. generalize (2 ^ (-1074)). intros t Hprod Hpos. lra.
  - intros H. unfold F64.mul. rewrite round_zero; [reflexivity|].
    rewrite H. ring.
Qed.

Lemma exponent_unique (x : Q) (e : Z) :
  2 ^ e <= Qabs x -> Qabs x < 2 ^ (e + 1) -> F64.exponent x = e.
Proof.
  intros Hlo Hhi.
  assert (Hx : ~ x == 0).
  { intros E. rewrite E in Hlo. pose proof (pow2_pos e) as Hpos.
    change (Qabs 0) with 0 in Hlo.
    revert Hlo Hpos. generalize (2 ^ e). intros t Hlo Hpos. lra. }
  destruct (exponent_spec x Hx) as [Hlo' Hhi'].
  assert (H1 : 2 ^ e < 2 ^ (F64.exponent x + 1))
    by (eapply Qle_lt_trans; eassumption).
  assert (H2 : 2 ^ F64.exponent x < 2 ^ (e + 1))
    by (eapply Qle_lt_trans; eassumption).
  apply Qpower_lt_compat_l_inv in H1; [|reflexivity].
  apply Qpower_lt_compat_l_inv in H2; [|reflexivity].
  lia.
Qed.

Lemma exponent_comp (x y : Q) :
  ~ x == 0 -> x == y -> F64.exponent x = F64.exponent y.
Proof.
  intros Hx E. symmetry.
  assert (Hy : ~ y == 0) by now rewrite <- E.
  destruct (exponent_spec x Hx) as [Hlo Hhi].
  apply exponent_unique; now rewrite <- E.
Qed.

Lemma rint_comp (x y : Q) : x == y -> rint x = rint y.
Proof.
  intros E. unfold rint. cbv zeta.
  rewrite (Qfloor_comp _ _ E).
  assert (E' : x - inject_Z (Qfloor y) == y - inject_Z (Qfloor y))
    by now rewrite E.
  assert (H1 : Qle_bool (x - inject_Z (Qfloor y)) (1 # 2)
               = Qle_bool (y - inject_Z (Qfloor y)) (1 # 2)).
  { apply eq_true_iff_eq. rewrite !Qle_bool_iff. now rewrite E'. }
  assert (H2 : Qle_bool (1 # 2) (x - inject_Z (Qfloor y))
               = Qle_bool (1 # 2) (y - inject_Z (Qfloor y))).
  { apply eq_true_iff_eq. rewrite !Qle_bool_iff. now rewrite E'. }
  now rewrite H1, H2.
Qed.

(* Rounding depends on the number only, not on the fraction that
   stands for it. *)
Lemma round_comp (x y : Q) : x == y -> F64.round x = F64.round y.
Proof.
  intros E. unfold F64.round.
  assert (Hz : Qeq_bool x 0 = Qeq_bool y 0).
  { apply eq_true_iff_eq. rewrite !Qeq_bool_iff. now rewrite E. }
  rewrite <- Hz. destruct (Qeq_bool x 0) eqn:Hx; [reflexivity|].
  apply Qeq_bool_neq in Hx.
  unfold F64.quantum. rewrite <- (exponent_comp x y Hx E).
  apply Qred_complete.
  rewrite (rint_comp (x / 2 ^ Z.max (F64.exponent x - 52) (-1074))
                     (y / 2 ^ Z.max (F64.exponent x - 52) (-1074)))
    by (apply Qmult_comp; [exact E|reflexivity]).
  reflexivity.
Qed.

Lemma Qfloor_opp_int (y : Q) :
  y == inject_Z (Qfloor y) -> Qfloor (- y) = (- Qfloor y)%Z.
Proof.
  intros E.
  rewrite (Qfloor_comp (- y) (inject_Z (- Qfloor y)))
    by (rewrite inject_Z_opp; now rewrite <- E).
  apply Qfloor_Z.
Qed.

Lemma Qfloor_opp_frac (y : Q) :
  ~ y == inject_Z (Qfloor y) -> Qfloor (- y) = (- Qfloor y - 1)%Z.
Proof.
  intros Hne.
  pose proof (Qfloor_le y) as Hlo. pose proof (Qlt_floor y) as Hhi.
  rewrite inject_Z_plus in Hhi. change (inject_Z 1) with 1 in Hhi.
  assert (Hlt : inject_Z (Qfloor y) < y).
  { apply Qle_lteq in Hlo. destruct Hlo as [H|H]; [exact H|].
    exfalso. apply Hne. now symmetry. }
  pose proof (Qfloor_le (- y)) as Hlo'. pose proof (Qlt_floor (- y)) as Hhi'.
  rewrite inject_Z_plus in Hhi'. change (inject_Z 1) with 1 in Hhi'.
  assert (H1 : inject_Z (Qfloor (- y)) < inject_Z (- Qfloor y)).
  { rewrite inject_Z_opp. lra. }
  assert (H2 : inject_Z (- Qfloor y - 2) < inject_Z (Qfloor (- y))).
  { unfold Z.sub. rewrite !inject_Z_plus, !inject_Z_opp.
    change (inject_Z 2) with 2. lra. }
  rewrite <- Zlt_Qlt in H1, H2. lia.
Qed.

Lemma rint_opp (y : Q) : rint (- y) = (- rint y)%Z.
Proof.
  destruct (Qeq_dec y (inject_Z (Qfloor y))) as [E|Hne].
  - (* an integer *)
    rewrite (rint_comp (- y) (inject_Z (- Qfloor y)))
      by (rewrite inject_Z_opp; now rewrite <- E).
    rewrite (rint_comp y (inject_Z (Qfloor y))) by exact E.
    assert (Hint : forall k, rint (inject_Z k) = k).
    { intros k. apply Z.le_antisymm;
        [apply rint_le|apply rint_ge]; apply Qle_refl. }
    now rewrite !Hint.
  - pose proof (Qfloor_opp_frac y Hne) as Hf.
    pose proof (Qfloor_le y) as Hlo. pose proof (Qlt_floor y) as Hhi.
    rewrite inject_Z_plus in Hhi. change (inject_Z 1) with 1 in Hhi.
    unfold rint. cbv zeta. rewrite Hf.
    set (f := Qfloor y) in *.
    assert (Er : - y - inject_Z (- f - 1) == 1 - (y - inject_Z f)).
    { unfold Z.sub. rewrite inject_Z_plus, !inject_Z_opp.
      change (inject_Z 1) with 1. ring. }
    set (r := y - inject_Z f) in *.
    assert (H1 : Qle_bool (- y - inject_Z (- f - 1)) (1 # 2)
                 = Qle_bool (1 # 2) r).
    { apply eq_true_iff_eq. rewrite !Qle_bool_iff. rewrite Er. split; lra. }
    assert (H2 : Qle_bool (1 # 2) (- y - inject_Z (- f - 1))
                 = Qle_bool r (1 # 2)).
    { apply eq_true_iff_eq. rewrite !Qle_bool_iff. rewrite Er. split; lra. }
    rewrite H1, H2.
    assert (Hev : Z.even (- f - 1) = negb (Z.even f)).
    { replace (- f - 1)%Z with (- (f + 1))%Z by lia.
      rewrite Z.even_opp. replace (f + 1)%Z with (Z.succ f) by lia.
      rewrite Z.even_succ. now rewrite <- Z.negb_even. }
    rewrite Hev.
    destruct (Qle_bool (1 # 2) r) eqn:B1, (Qle_bool r (1 # 2)) eqn:B2,
      (Z.even f); simpl; try lia.
    all: exfalso;
      assert (H : r < 1 # 2)
        by (apply Qnot_le_lt; intros H; apply Qle_bool_iff in H; congruence);
      assert (H' : Qle_bool r (1 # 2) = true)
        by (apply Qle_bool_iff; lra);
      congruence.
Qed.

Lemma round_opp (x : Q) : F64.round (- x) = - F64.round x.
Proof.
  unfold F64.round.
  assert (Hz : Qeq_bool (- x) 0 = Qeq_bool x 0).
  { apply eq_true_iff_eq. rewrite !Qeq_bool_iff. split; intros H; lra. }
  rewrite Hz. destruct (Qeq_bool x 0) eqn:Hx; [reflexivity|].
  apply Qeq_bool_neq in Hx.
  assert (He : F64.exponent (- x) = F64.exponent x).
  { destruct (exponent_spec x Hx) as [Hlo Hhi].
    apply exponent_unique; now rewrite Qabs_opp. }
  unfold F64.quantum. rewrite He.
  set (q := 2 ^ Z.max (F64.exponent x - 52) (-1074)).
  rewrite <- Qred_opp. apply Qred_complete.
  rewrite (rint_comp (- x / q) (- (x / q)))
    by (field; apply Qpower_not_0; discriminate).
  rewrite rint_opp, inject_Z_opp. ring.
Qed.


Lemma round_double (x y : Q) : x == y -> is_double y -> F64.round x == y.
Proof. intros E H. rewrite (round_comp x y E). exact H. Qed.

Lemma round_opp_double (x y : Q) :
  x == - y -> is_double y -> F64.round x == - y.
Proof.
  intros E H. rewrite (round_comp x (- y) E), round_opp.
  unfold is_double in H. now rewrite H.
Qed.

Lemma naive_exact (xs ys : list Q) (acc acc' : Q) :
  acc == acc' -> Forall2 Qeq xs ys -> sums_are_doubles acc' ys ->
  fold_left F64.add xs acc == fold_left Qplus ys acc'.
Proof.
  intros Hacc HF. revert acc acc' Hacc.
  induction HF as [|x y xs ys Hxy _ IH]; intros acc acc' Hacc Hs; simpl.
  - exact Hacc.
  - destruct Hs as [Hd Hs]. apply IH; [|exact Hs].
    unfold F64.add. apply round_double; [|exact Hd]. now rewrite Hacc, Hxy.
Qed.

Lemma compensated_exact (xs ys : list Q) (total total' : Q) :
  total == total' -> is_double total' ->
  Forall2 Qeq xs ys -> Forall is_double ys -> sums_are_doubles total' ys ->
  F64.compensated total 0 xs == fold_left Qplus ys total'.
Proof.
  intros Ht Hdt HF. revert total total' Ht Hdt.
  induction HF as [|x y xs ys Hxy _ IH]; intros total total' Ht Hdt Hy Hs;
    simpl.
  - exact Ht.
  - destruct Hs as [Hd Hs].
    inversion Hy as [|? ? Hdy Hy']; subst.
    assert (Et : F64.add total x == total' + y).
    { unfold F64.add. apply round_double; [|exact Hd]. now rewrite Ht, Hxy. }
    assert (Ec : (if Qle_bool (Qabs x) (Qabs total)
                  then F64.add 0 (F64.add (F64.sub total (F64.add total x)) x)
                  else F64.add 0 (F64.add (F64.sub x (F64.add total x)) total))
                 = 0).
    { destruct (Qle_bool (Qabs x) (Qabs total)).
      - assert (E1 : F64.sub total (F64.add total x) == - y).
        { unfold F64.sub. apply round_opp_double; [|exact Hdy].
          rewrite Et, Ht. ring. }
        assert (E2 : F64.add (F64.sub total (F64.add total x)) x = 0).
        { unfold F64.add at 1. apply round_zero. rewrite E1, Hxy. ring. }
        rewrite E2. reflexivity.
      - assert (E1 : F64.sub x (F64.add total x) == - total').
        { unfold F64.sub. apply round_opp_double; [|exact Hdt].
          rewrite Et, Hxy. ring. }
        assert (E2 : F64.add (F64.sub x (F64.add total x)) total = 0).
        { unfold F64.add at 1. apply round_zero. rewrite E1, Ht. ring. }
        rewrite E2. reflexivity. }
    rewrite Ec. apply IH; assumption.
Qed.

Lemma sum_exact (c : bool) (xs ys : list Q) :
  Forall2 Qeq xs ys -> Forall is_double ys -> sums_are_doubles 0 ys ->
  F64.sum c xs == fold_left Qplus ys 0.
Proof.
  intros HF Hy Hs. destruct HF as [|x y xs ys Hxy HF]; [reflexivity|].
  simpl. destruct Hs as [Hd Hs]. inversion Hy as [|? ? Hdy Hy']; subst.
  assert (E0 : F64.add 0 x == 0 + y).
  { unfold F64.add. apply round_double; [|exact Hd]. now rewrite Hxy. }
  destruct c.
  - now apply compensated_exact.
  - now apply naive_exact.
Qed.

(** ** Sorting *)

Section InsertionSort.

Context {A : Type} (leb : A -> A -> bool).
Hypothesis leb_total : forall x y, leb x y = true \/ leb y x = true.
Hypothesis leb_trans :
  forall x y z, leb x y = true -> leb y z = true -> leb x z = true.

Lemma insert_by_perm (x : A) (l : list A) :
  Permutation (x :: l) (insert_by leb x l).
Proof.
  induction l as [|y l IH]; simpl; [reflexivity|].
  destruct (leb x y); [reflexivity|].
  rewrite perm_swap. now constructor.
Qed.

Lemma insertion_sort_perm (l : list A) : Permutation l (insertion_sort leb l).
Proof.
  induction l as [|x l IH]; simpl; [constructor|].
  rewrite <- insert_by_perm. now constructor.
Qed.

Lemma insert_by_sorted (x : A) (l : list A) :
  StronglySorted (fun a b => leb a b = true) l ->
  StronglySorted (fun a b => leb a b = true) (insert_by leb x l).
Proof.
  induction 1 as [|y l Hl IH Hy]; simpl.
  - repeat constructor.
  - destruct (leb x y) eqn:E.
    + constructor; [now constructor|].
      constructor; [exact E|].
      eapply Forall_impl; [|exact Hy].
      intros z Hz. now apply leb_trans with y.
    + constructor; [exact IH|].
      eapply Permutation_Forall; [apply insert_by_perm|].
      constructor; [|exact Hy].
      destruct (leb_total x y); congruence.
Qed.

Lemma insertion_sort_sorted (l : list A) :
  StronglySorted (fun a b => leb a b = true) (insertion_sort leb l).
Proof.
  induction l as [|x l IH]; simpl; [constructor|].
  now apply insert_by_sorted.
Qed.

End InsertionSort.

Lemma StronglySorted_impl {A : Type} (R R' : A -> A -> Prop) (l : list A) :
  (forall x y, R x y -> R' x y) -> StronglySorted R l -> StronglySorted R' l.
Proof.
  intros HR. induction 1 as [|x l Hl IH Hx]; constructor; auto.
  eapply Forall_impl; [|exact Hx]. auto.
Qed.

Lemma Qle_bool_total (x y : Q) : Qle_bool x y = true \/ Qle_bool y x = true.
Proof.
  destruct (Qlt_le_dec x y) as [H|H].
  - left. apply Qle_bool_iff. now apply Qlt_le_weak.
  - right. now apply Qle_bool_iff.
Qed.

Lemma Qle_bool_trans (x y z : Q) :
  Qle_bool x y = true -> Qle_bool y z = true -> Qle_bool x z = true.
Proof. rewrite !Qle_bool_iff. apply Qle_trans. Qed.

Section SortFacts.

Context {A : Type} (key : A -> Q).

Lemma sorted_perm (l : list A) : Permutation l (sorted key l).
Proof. apply insertion_sort_perm. Qed.

Lemma sorted_sorted (l : list A) :
  StronglySorted (fun x y => key x <= key y) (sorted key l).
Proof.
  eapply StronglySorted_impl; [|apply insertion_sort_sorted].
  - intros x y H. now apply Qle_bool_iff in H.
  - intros x y. apply Qle_bool_total.
  - intros x y z. apply Qle_bool_trans.
Qed.

(** A list sorted by key has only one arrangement, up to the order of
    elements with equal keys: when equal keys mean equal elements, two
    sorted permutations of each other are the same list. *)
Lemma sorted_perm_unique (l1 l2 : list A) :
  (forall x y, In x l1 -> In y l1 -> key x == key y -> x = y) ->
  StronglySorted (fun x y => key x <= key y) l1 ->
  StronglySorted (fun x y => key x <= key y) l2 ->
  Permutation l1 l2 ->
  l1 = l2.
Proof.
  revert l2. induction l1 as [|a l1 IH]; intros l2 Htie S1 S2 HP.
  - now apply Permutation_nil in HP.
  - destruct l2 as [|b l2].
    { symmetry in HP. now apply Permutation_nil in HP. }
    inversion S1 as [|? ? S1' F1]; subst.
    inversion S2 as [|? ? S2' F2]; subst.
    assert (Hab : a = b).
    { assert (Ha : In a (b :: l2))
        by (eapply Permutation_in; [exact HP|now left]).
      assert (Hb : In b (a :: l1))
        by (eapply Permutation_in; [symmetry; exact HP|now left]).
      destruct Ha as [Ha|Ha]; [now symmetry|].
      destruct Hb as [Hb|Hb]; [exact Hb|].
      rewrite Forall_forall in F1, F2.
      apply Htie; [now left|now right|].
      apply Qle_antisym; [now apply F1|now apply F2]. }
    subst b. f_equal.
    apply IH; auto.
    + intros x y Hx Hy. apply Htie; now right.
    + now apply Permutation_cons_inv in HP.
Qed.

End SortFacts.

Lemma In_firstn {A : Type} (n : nat) (l : list A) (x : A) :
  In x (firstn n l) -> In x l.
Proof.
  revert n. induction l as [|y l IH]; intros [|n]; simpl; try tauto.
  intros [H|H]; [now left|right; eauto].
Qed.

Lemma firstn_sorted {A : Type} (R : A -> A -> Prop) (n : nat) (l : list A) :
  StronglySorted R l -> StronglySorted R (firstn n l).
Proof.
  intros H. revert n.
  induction H as [|x l Hl IH Hx]; intros [|n]; simpl; try constructor.
  - apply IH.
  - rewrite Forall_forall in *. intros y Hy.
    apply Hx. eapply In_firstn. exact Hy.
Qed.


Lemma Qlt_bool_iff (x y : Q) : Qlt_bool x y = true <-> x < y.
Proof.
  unfold Qlt_bool. rewrite negb_true_iff. split.
  - intros E. apply Qnot_le_lt. intros H.
    apply Qle_bool_iff in H. congruence.
  - intros H. destruct (Qle_bool y x) eqn:E; [|reflexivity].
    apply Qle_bool_iff in E. exfalso. now apply (Qlt_not_le x y).
Qed.

(** A loop that appends at most one element per item is a [flat_map]. *)
Lemma fold_left_append {A B : Type} (f : A -> list B) (l : list A) (acc : list B) :
  fold_left (fun results x => results ++ f x) l acc = acc ++ flat_map f l.
Proof.
  revert acc. induction l as [|x l IH]; intros acc; simpl.
  - now rewrite app_nil_r.
  - now rewrite IH, app_assoc.
Qed.

(** With positive prices a close below the average is a negative
    deviation. *)
Lemma deviation_negative (close dma : Q) :
  close < dma -> 0 < dma -> deviation close dma < 0.
Proof.
  intros Hlt Hpos. unfold deviation.
  assert (Hq : (close - dma) / dma < 0).
  { apply Qlt_shift_div_r; [exact Hpos|]. lra. }
  lra.
Qed.

(** ** Screening *)

Section ScreeningFacts.

Context {S : Pd.Sorting} {P : Platform}.

Lemma screen_loop_flat_map (symbols : list string) (acc : list (string * Q)) :
  fold_left
    (fun results symbol =>
       match NiftyShop.examine symbol with
       | Ok (Some r) => results ++ [r]
       | Ok None => results
       | Raise _ => results
       end)
    symbols acc
  = acc ++ flat_map contribution symbols.
Proof.
  revert acc. induction symbols as [|s symbols IH]; intros acc; simpl.
  - now rewrite app_nil_r.
  - rewrite IH. unfold contribution at 2.
    destruct (NiftyShop.examine s) as [[r|]|e]; simpl; [|reflexivity..].
    now rewrite <- app_assoc.
Qed.

Lemma screen_results_flat_map (symbols : list string) :
  NiftyShop.screen_results symbols = flat_map contribution symbols.
Proof. apply screen_loop_flat_map. Qed.

End ScreeningFacts.

Section AppScreeningFacts.

Context {S : Pd.Sorting} {F : App.Feed}.

Lemma app_screen_loop_flat_map (symbols : list string) (acc : list App.Screened) :
  fold_left
    (fun results symbol =>
       match App.examine symbol with
       | Ok (Some r) => results ++ [r]
       | Ok None => results
       | Raise _ => results
       end)
    symbols acc
  = acc ++ flat_map app_contribution symbols.
Proof.
  revert acc. induction symbols as [|s symbols IH]; intros acc; simpl.
  - now rewrite app_nil_r.
  - rewrite IH. unfold app_contribution at 2.
    destruct (App.examine s) as [[r|]|e]; simpl; [|reflexivity..].
    now rewrite <- app_assoc.
Qed.

Lemma app_screen_results_flat_map (symbols : list string) :
  App.screen_results symbols = flat_map app_contribution symbols.
Proof. apply app_screen_loop_flat_map. Qed.

(** A row of the table was computed from its own symbol's data, and its
    close is below its average. *)
Lemma app_examine_inv (symbol : string) (r : App.Screened) :
  App.examine symbol = Ok (Some r) ->
  App.Symbol r = symbol
  /\ App.Deviation r = deviation (App.CMP r) (App.DMA20 r)
  /\ App.CMP r < App.DMA20 r
  /\ exists df,
       App.get_historical_data symbol = Some df
       /\ latest_close df = Ok (Some (App.CMP r))
       /\ latest_dma df = Some (App.DMA20 r).
Proof.
  unfold App.examine.
  destruct (App.get_historical_data symbol) as [df|]; [|discriminate].
  destruct (Pd.empty df || negb (Pd.has_Close df)
            || (List.length (Pd.rows df) <? 20)%nat); [discriminate|].
  destruct (latest_close df) as [close|e] eqn:Hc; simpl; [|discriminate].
  destruct (latest_dma df) as [dma|] eqn:Hd; [|discriminate].
  destruct close as [close|]; [|discriminate].
  destruct (Qlt_bool close dma) eqn:E; [|discriminate].
  intros H. injection H as <-. simpl.
  apply Qlt_bool_iff in E. repeat split; auto.
  exists df. auto.
Qed.

Lemma app_results_inv (symbols : list string) (r : App.Screened) :
  In r (App.screen_results symbols) ->
  In (App.Symbol r) symbols /\ App.examine (App.Symbol r) = Ok (Some r).
Proof.
  rewrite app_screen_results_flat_map, in_flat_map.
  intros (s & Hs & Hr). unfold app_contribution in Hr.
  destruct (App.examine s) as [[r'|]|e] eqn:E; simpl in Hr; try tauto.
  destruct Hr as [->|[]].
  destruct (app_examine_inv _ _ E) as (<- & _). auto.
Qed.

End AppScreeningFacts.

Section StrategyScreeningFacts.

Context {S : Pd.Sorting} {P : Platform}.

Lemma examine_inv (symbol s : string) (d : Q) :
  NiftyShop.examine symbol = Ok (Some (s, d)) ->
  s = symbol
  /\ exists df close dma,
       get_historical_data symbol = Ok (Some df)
       /\ latest_close df = Ok (Some close)
       /\ latest_dma df = Some dma
       /\ close < dma
       /\ d = deviation close dma.
Proof.
  unfold NiftyShop.examine.
  destruct (get_historical_data symbol) as [[df|]|e] eqn:Hdf; simpl;
    try discriminate.
  destruct (Pd.empty df || negb (Pd.has_Close df)); [discriminate|].
  destruct (latest_close df) as [close|e] eqn:Hc; simpl;
    [|discriminate].
  destruct (latest_dma df) as [dma|] eqn:Hd; [|discriminate].
  destruct close as [close|]; [|discriminate].
  destruct (Qlt_bool close dma) eqn:E; [|discriminate].
  intros H. injection H as <- <-. split; [reflexivity|].
  exists df, close, dma. apply Qlt_bool_iff in E. auto.
Qed.

Lemma results_inv (symbols : list string) (s : string) (d : Q) :
  In (s, d) (NiftyShop.screen_results symbols) ->
  In s symbols /\ NiftyShop.examine s = Ok (Some (s, d)).
Proof.
  rewrite screen_results_flat_map, in_flat_map.
  intros (s' & Hs & Hr). unfold contribution in Hr.
  destruct (NiftyShop.examine s') as [[r|]|e] eqn:E; simpl in Hr; try tauto.
  destruct Hr as [->|[]].
  destruct (examine_inv _ _ _ E) as (-> & _). auto.
Qed.

End StrategyScreeningFacts.

(** The insertion sorts meet the contract of the pandas sorts. *)
Lemma insertion_sorting_spec : Pd.SortingSpec Pd.insertion_sorting.
Proof.
  assert (na_total : forall a b, Pd.na_leb a b = true \/ Pd.na_leb b a = true).
  { intros [a|] [b|]; simpl; auto. apply Qle_bool_total. }
  assert (na_trans : forall a b c,
             Pd.na_leb a b = true -> Pd.na_leb b c = true -> Pd.na_leb a c = true).
  { intros [a|] [b|] [c|]; simpl; auto; try discriminate.
    apply Qle_bool_trans. }
  split; simpl.
  - intros A key l. apply insertion_sort_perm.
  - intros A key l.
    eapply StronglySorted_impl; [|apply insertion_sort_sorted].
    + intros x y. simpl. destruct (key x), (key y); simpl; auto;
        try discriminate. apply Qle_bool_iff.
    + intros x y. apply na_total.
    + intros x y z. apply na_trans.
  - intros l. apply insertion_sort_perm.
  - intros l.
    eapply StronglySorted_impl; [|apply insertion_sort_sorted].
    + intros x y. apply Z.leb_le.
    + intros x y. rewrite !Z.leb_le. lia.
    + intros x y z. rewrite !Z.leb_le. lia.
Qed.

(** What is returned was collected by the loop, from the data of its own
    symbol. *)
Lemma top_5_inv {S : Pd.Sorting} {P : Platform}
      (symbols : list string) (s : string) (d : Q) :
  In (s, d) (NiftyShop.top_5 (NiftyShop.screen_results symbols)) ->
  In s symbols /\ NiftyShop.examine s = Ok (Some (s, d)).
Proof.
  intros H. apply results_inv.
  eapply Permutation_in; [symmetry; apply sorted_perm|].
  eapply In_firstn. exact H.
Qed.

Lemma app_top_5_inv {S : Pd.Sorting} (Spec : Pd.SortingSpec S) {F : App.Feed}
      (symbols : list string) (r : App.Screened) :
  In r (App.get_eligible_stocks_for_today symbols) ->
  In (App.Symbol r) symbols /\ App.examine (App.Symbol r) = Ok (Some r).
Proof.
  unfold App.get_eligible_stocks_for_today, App.top_5_df.
  destruct (App.screen_results symbols) eqn:E; [intros []|].
  intros H. apply app_results_inv. rewrite E.
  eapply Permutation_in; [symmetry; apply Pd.sort_values_perm|].
  eapply In_firstn. exact H.
Qed.

(** ** C3 *)

Lemma firstn_length_le {A : Type} (n : nat) (l : list A) :
  (List.length (firstn n l) <= n)%nat.
Proof. rewrite length_firstn. lia. Qed.



(** ** C4 *)



(** ** C8 *)

Lemma flat_map_skip {A B : Type} (f : A -> list B) (before after : list A) (x : A) :
  f x = [] -> flat_map f (before ++ x :: after) = flat_map f (before ++ after).
Proof.
  intros H. rewrite !flat_map_app. simpl. now rewrite H.
Qed.

Lemma unusable_contributes_nothing {S : Pd.Sorting} {P : Platform} (s : string) :
  unusable s -> contribution s = [].
Proof.
  unfold unusable, contribution, NiftyShop.examine.
  destruct (get_historical_data s) as [[df|]|e]; simpl; try reflexivity.
  intros [H|[H|H]].
  - now rewrite H.
  - rewrite H. now rewrite orb_true_r.
  - destruct (Pd.empty df || negb (Pd.has_Close df)); [reflexivity|].
    rewrite H. now destruct (latest_close df).
Qed.

Lemma app_unusable_contributes_nothing {S : Pd.Sorting} {F : App.Feed} (s : string) :
  app_unusable s -> app_contribution s = [].
Proof.
  unfold app_unusable, app_contribution, App.examine.
  destruct (App.yf_download s) as [df|e] eqn:Hdl.
  - intros [H|(df' & Hdf' & H)].
    + unfold App.get_historical_data. now rewrite Hdl, H.
    + rewrite Hdf'.
      destruct (Pd.empty df') eqn:He; [reflexivity|]. simpl.
      destruct (Pd.has_Close df') eqn:Hc; [|reflexivity]. simpl.
      destruct (List.length (Pd.rows df') <? 20)%nat eqn:Hl; [reflexivity|].
      destruct H as [H|[H|[H|H]]].
      * discriminate.
      * apply Nat.ltb_lt in H. congruence.
      * rewrite H. now destruct (latest_close df').
      * rewrite H. simpl. now destruct (latest_dma df').
  - intros _. unfold App.get_historical_data. now rewrite Hdl.
Qed.

(** C8, the failing input.  When the index API answers 200 with a JSON
    object that lists no constituents, [get_nifty50_symbols] leaves its
    [try] block without a [return] and hands [None] to the screening of
    the dashboard, which raises a [TypeError] at [len(symbols)], ahead of
    the loop that skips what it cannot use: the run has no result.  Had
    the request failed, the static list would have been screened. *)
Theorem dashboard_screening_fails_without_a_symbol_list
        {S : Pd.Sorting} {F : App.Feed} :
  Universe.get_nifty50_symbols (Ok Demo2.no_data_answer) = None
  /\ Universe.screening_run
       (Universe.get_nifty50_symbols (Ok Demo2.no_data_answer))
     = Raise TypeError
  /\ Universe.scan (Ok Demo2.no_data_answer) = None
  /\ (forall e,
         Universe.screening_run (Universe.get_nifty50_symbols (Raise e))
         = Ok (App.get_eligible_stocks_for_today Universe.fallback))
  /\ (forall symbols,
         exists table, Universe.screening_run (Some symbols) = Ok table).
Proof.
  repeat split; try reflexivity. intros symbols. eexists. reflexivity.
Qed.

(** X22.  A symbol whose data cannot be used (the fetch raises, there is
    no data, the frame is empty or has no closes, the moving average is
    missing) is left out and changes nothing else: the loop collects what
    it collects without that symbol, and the screening returns the top of
    that. *)
Theorem unusable_symbol_is_only_skipped
        {S : Pd.Sorting} {P : Platform} {F : App.Feed}
        (before after : list string) (s : string) :
  (unusable s ->
   NiftyShop.screen_results (before ++ s :: after)
   = NiftyShop.screen_results (before ++ after)
   /\ NiftyShop.get_eligible_stocks_for_today (before ++ s :: after)
      = Some (map fst (NiftyShop.top_5
                         (NiftyShop.screen_results (before ++ after)))))
  /\ (app_unusable s ->
      App.screen_results (before ++ s :: after)
      = App.screen_results (before ++ after)
      /\ App.get_eligible_stocks_for_today (before ++ s :: after)
         = App.get_eligible_stocks_for_today (before ++ after)).
Proof.
  split.
  - intros H.
    assert (E : NiftyShop.screen_results (before ++ s :: after)
                = NiftyShop.screen_results (before ++ after)).
    { rewrite !screen_results_flat_map. apply flat_map_skip.
      now apply unusable_contributes_nothing. }
    split; [exact E|].
    unfold NiftyShop.get_eligible_stocks_for_today.
    rewrite E. rewrite length_app. simpl.
    now replace (List.length before + Datatypes.S (List.length after) =? 0)%nat
      with false by (symmetry; apply Nat.eqb_neq; lia).
  - intros H.
    assert (E : App.screen_results (before ++ s :: after)
                = App.screen_results (before ++ after)).
    { rewrite !app_screen_results_flat_map. apply flat_map_skip.
      now apply app_unusable_contributes_nothing. }
    split; [exact E|].
    unfold App.get_eligible_stocks_for_today. now rewrite E.
Qed.

Lemma unusable_symbol_is_only_skipped_witness :
  unusable (S := Pd.insertion_sorting) (P := Demo.platform) "SBIN"
  /\ NiftyShop.get_eligible_stocks_for_today
       (S := Pd.insertion_sorting) (P := Demo.platform)
       (["ITC"; "TCS"] ++ "SBIN" :: ["INFY"; "XYZ"])
     = Some (map fst (NiftyShop.top_5
                        (NiftyShop.screen_results
                           (S := Pd.insertion_sorting) (P := Demo.platform)
                           (["ITC"; "TCS"] ++ ["INFY"; "XYZ"])))).
Proof.
  assert (H : unusable (S := Pd.insertion_sorting) (P := Demo.platform) "SBIN")
    by exact I.
  split; [exact H|].
  exact (proj2 (proj1 (unusable_symbol_is_only_skipped
                         (S := Pd.insertion_sorting) (P := Demo.platform)
                         (F := Demo.feed)
                         ["ITC"; "TCS"] ["INFY"; "XYZ"] "SBIN") H)).
Defined.

(** ** C9 *)


Lemma Permutation_flat_map_l {A B : Type} (f : A -> list B) (l l' : list A) :
  Permutation l l' -> Permutation (flat_map f l) (flat_map f l').
Proof.
  induction 1 as [|x l l' _ IH|x y l|l l' l'' _ IH1 _ IH2]; simpl.
  - constructor.
  - now apply Permutation_app_head.
  - rewrite !app_assoc. apply Permutation_app_tail. apply Permutation_app_comm.
  - now transitivity (flat_map f l').
Qed.



(** ** Sums *)

Lemma fold_left_Zadd (l : list Z) (a : Z) :
  fold_left Z.add l a = (a + fold_right Z.add 0 l)%Z.
Proof.
  revert a. induction l as [|x l IH]; intros a; simpl; [lia|].
  rewrite IH. lia.
Qed.

Lemma sumZ_cons (x : Z) (l : list Z) : sumZ (x :: l) = (x + sumZ l)%Z.
Proof. unfold sumZ. simpl. rewrite !fold_left_Zadd. lia. Qed.

Lemma fold_left_Qplus (l : list Q) (a : Q) :
  fold_left Qplus l a == a + fold_right Qplus 0 l.
Proof.
  revert a. induction l as [|x l IH]; intros a; simpl; [lra|].
  rewrite IH. lra.
Qed.

Lemma sumQ_cons (x : Q) (l : list Q) : sumQ (x :: l) == x + sumQ l.
Proof. unfold sumQ. simpl. rewrite !fold_left_Qplus. lra. Qed.

Lemma sumZ_nonneg (l : list Z) : Forall (fun x => 0 <= x)%Z l -> (0 <= sumZ l)%Z.
Proof.
  induction 1 as [|x l Hx _ IH]; [unfold sumZ; simpl; lia|].
  rewrite sumZ_cons. lia.
Qed.

(** ** The ledger *)

Section LedgerFacts.

Context {S : Pd.Sorting} {P : Platform}.
Variable self : Strategy.

Lemma is_open_holding_pure (t : Trade) :
  entry_recorded self t ->
  NiftyShop.is_open_holding self t = Ok (open_holding self t).
Proof.
  unfold entry_recorded, NiftyShop.is_open_holding, open_holding, entryOrder_attr.
  intros H.
  destruct (String.eqb_spec (strategy t) (name self)) as [E1|_]; simpl;
    [|reflexivity].
  destruct (String.eqb_spec (tradeState t) "active") as [E2|_]; simpl;
    [|reflexivity].
  destruct (targetOrder t) as [o|] eqn:E3; simpl; [reflexivity|].
  destruct (entryOrder t) as [o|]; simpl.
  - now destruct (OrderStatus_eqb (Order.orderStatus o) COMPLETE).
  - now destruct (H E1 E2 eq_refl).
Qed.

Lemma is_open_holding_sound (t : Trade) (b : bool) :
  NiftyShop.is_open_holding self t = Ok b -> b = open_holding self t.
Proof.
  unfold NiftyShop.is_open_holding, open_holding, entryOrder_attr.
  destruct (strategy t =? name self); simpl; [|congruence].
  destruct (tradeState t =? "active"); simpl; [|congruence].
  destruct (targetOrder t); simpl; [congruence|].
  destruct (entryOrder t) as [o|]; simpl; [|discriminate].
  destruct (OrderStatus_eqb (Order.orderStatus o) COMPLETE); simpl; congruence.
Qed.

Lemma build_symbol_trades_grouped (trades : list Trade) d :
  Forall (entry_recorded self) trades ->
  NiftyShop.build_symbol_trades self trades d = Ok (grouped self trades d).
Proof.
  intros H. revert d.
  induction H as [|t trades Ht _ IH]; intros d; simpl; [reflexivity|].
  rewrite (is_open_holding_pure t Ht). simpl. apply IH.
Qed.

Lemma build_symbol_trades_sound (trades : list Trade) d d' :
  NiftyShop.build_symbol_trades self trades d = Ok d' ->
  d' = grouped self trades d.
Proof.
  revert d. induction trades as [|t trades IH]; intros d; simpl.
  - congruence.
  - destruct (NiftyShop.is_open_holding self t) as [b|e] eqn:E; simpl;
      [|discriminate].
    apply is_open_holding_sound in E. subst b. apply IH.
Qed.

End LedgerFacts.

(** ** The dict of the sell pass *)

Section DictFacts.

Variable self : Strategy.

Lemma dict_get_setdefault_append k v d k' :
  dict_get k' (NiftyShop.setdefault_append k v d)
  = if k =? k'
    then Some (match dict_get k d with
               | Some vs => vs ++ [v]
               | None => [v]
               end)
    else dict_get k' d.
Proof.
  induction d as [|[k0 vs] d IH]; simpl.
  - reflexivity.
  - destruct (String.eqb_spec k0 k) as [->|Hk0]; simpl.
    + destruct (String.eqb_spec k k'); reflexivity.
    + rewrite IH.
      destruct (String.eqb_spec k k') as [E|Hk]; [|reflexivity].
      rewrite <- E.
      destruct (String.eqb_spec k0 k); [contradiction|reflexivity].
Qed.

Lemma keys_setdefault_append k v d k' :
  In k' (map fst (NiftyShop.setdefault_append k v d))
  <-> k' = k \/ In k' (map fst d).
Proof.
  induction d as [|[k0 vs] d IH]; simpl.
  - intuition.
  - destruct (String.eqb_spec k0 k) as [->|Hk0]; simpl.
    + intuition.
    + rewrite IH. intuition.
Qed.

Lemma NoDup_setdefault_append k v d :
  NoDup (map fst d) -> NoDup (map fst (NiftyShop.setdefault_append k v d)).
Proof.
  induction d as [|[k0 vs] d IH]; simpl; intros H.
  - repeat constructor. intros [].
  - inversion H as [|? ? Hnin Hd]; subst.
    destruct (String.eqb_spec k0 k) as [->|Hk0]; simpl.
    + now constructor.
    + constructor; [|now apply IH].
      rewrite keys_setdefault_append. intros [->|Hin]; contradiction.
Qed.

Lemma NoDup_grouped trades d :
  NoDup (map fst d) -> NoDup (map fst (grouped self trades d)).
Proof.
  revert d. induction trades as [|t trades IH]; intros d H; simpl; [exact H|].
  apply IH. destruct (open_holding self t); [|exact H].
  now apply NoDup_setdefault_append.
Qed.

(** A key of the dict holds the matching trades seen so far, in ledger
    order. *)
Lemma dict_get_grouped trades d k :
  dict_get k (grouped self trades d)
  = match holdings_of self trades k with
    | [] => dict_get k d
    | vs => Some (match dict_get k d with
                  | Some us => us ++ vs
                  | None => vs
                  end)
    end.
Proof.
  revert d. induction trades as [|t trades IH]; intros d; simpl.
  - reflexivity.
  - rewrite IH. unfold holdings_of. simpl.
    destruct (open_holding self t); simpl.
    + rewrite dict_get_setdefault_append.
      destruct (String.eqb_spec (tradingSymbol t) k) as [E|E].
      * destruct (filter _ trades) as [|u us];
          destruct (dict_get (tradingSymbol t) d) eqn:G;
          rewrite E in G; rewrite G; try reflexivity;
          now rewrite <- app_assoc.
      * reflexivity.
    + reflexivity.
Qed.

Lemma dict_get_In (d : list (string * list Trade)) k vs :
  NoDup (map fst d) ->
  (In (k, vs) d <-> dict_get k d = Some vs).
Proof.
  induction d as [|[k0 us] d IH]; simpl; intros H.
  - split; [intros []|discriminate].
  - inversion H as [|? ? Hnin Hd]; subst.
    destruct (String.eqb_spec k0 k) as [->|Hk0].
    + split.
      * intros [E|Hin]; [congruence|].
        exfalso. apply Hnin. apply in_map_iff. now exists (k, vs).
      * intros E. left. congruence.
    + rewrite <- (IH Hd). split.
      * intros [E|Hin]; [congruence|exact Hin].
      * intros Hin. now right.
Qed.

(** The items of [symbol_trades]: one per symbol with matching trades,
    holding exactly those. *)
Lemma symbol_trades_items trades k vs :
  In (k, vs) (grouped self trades [])
  <-> vs = holdings_of self trades k /\ vs <> [].
Proof.
  rewrite dict_get_In by (apply NoDup_grouped; constructor).
  rewrite dict_get_grouped. simpl.
  destruct (holdings_of self trades k) as [|u us].
  - split; [discriminate|]. intros [-> H]. congruence.
  - split.
    + intros E. injection E as <-. split; [reflexivity|discriminate].
    + intros [-> _]. reflexivity.
Qed.

End DictFacts.

(** ** Descending sort and slices *)

Lemma StronglySorted_snoc {A : Type} (R : A -> A -> Prop) (l : list A) (x : A) :
  StronglySorted R l -> Forall (fun y => R y x) l -> StronglySorted R (l ++ [x]).
Proof.
  induction 1 as [|y l Hl IH Hy]; intros F; simpl.
  - repeat constructor.
  - inversion F as [|? ? Ryx F']; subst.
    constructor; [now apply IH|].
    apply Forall_app. split; [exact Hy|now constructor].
Qed.

Lemma StronglySorted_rev {A : Type} (R : A -> A -> Prop) (l : list A) :
  StronglySorted R l -> StronglySorted (fun x y => R y x) (rev l).
Proof.
  induction 1 as [|x l Hl IH Hx]; simpl; [constructor|].
  apply StronglySorted_snoc; [exact IH|].
  now apply Forall_rev.
Qed.

Lemma sort_reverse_perm {A : Type} (key : A -> Q) (l : list A) :
  Permutation l (sort_reverse key l).
Proof.
  unfold sort_reverse.
  rewrite <- Permutation_rev, <- sorted_perm. apply Permutation_rev.
Qed.

Lemma sort_reverse_sorted {A : Type} (key : A -> Q) (l : list A) :
  StronglySorted (fun x y => key y <= key x) (sort_reverse key l).
Proof.
  unfold sort_reverse.
  apply (StronglySorted_rev (fun x y => key x <= key y)).
  apply sorted_sorted.
Qed.

Lemma slice_to_nonneg {A : Type} (n : Z) (l : list A) :
  (0 <= n)%Z -> slice_to n l = firstn (Z.to_nat n) l.
Proof.
  intros H. unfold slice_to.
  now replace (0 <=? n)%Z with true by (symmetry; now apply Z.leb_le).
Qed.

Lemma slice_to_In {A : Type} (n : Z) (l : list A) (x : A) :
  In x (slice_to n l) -> In x l.
Proof. unfold slice_to. destruct (0 <=? n)%Z; apply In_firstn. Qed.

(** ** Loops that collect *)

Lemma for_collect_Ok {A B : Type} (body : A -> result (option B)) (l : list A) :
  (forall x, In x l -> exists r, body x = Ok r) ->
  for_collect body l
  = Ok (flat_map (fun x => match body x with
                           | Ok (Some b) => [b]
                           | _ => []
                           end) l).
Proof.
  induction l as [|x l IH]; intros H; simpl; [reflexivity|].
  destruct (H x (or_introl eq_refl)) as [r Hr]. rewrite Hr. simpl.
  rewrite IH by (intros y Hy; apply H; now right). simpl.
  now destruct r.
Qed.

Lemma for_collect_sound {A B : Type} (body : A -> result (option B))
      (l : list A) (r : list B) :
  for_collect body l = Ok r ->
  r = flat_map (fun x => match body x with
                         | Ok (Some b) => [b]
                         | _ => []
                         end) l
  /\ forall x, In x l -> exists o, body x = Ok o.
Proof.
  revert r. induction l as [|x l IH]; intros r; simpl.
  - intros E. injection E as <-. split; [reflexivity|intros x []].
  - destruct (body x) as [o|e] eqn:Hx; simpl; [|discriminate].
    destruct (for_collect body l) as [rest|e]; simpl; [|discriminate].
    destruct (IH rest eq_refl) as [-> Hall].
    intros E. injection E as <-. split.
    + now destruct o.
    + intros y [<-|Hy]; [eauto|now apply Hall].
Qed.

Lemma comprehension_Ok {A : Type} (cond : A -> result bool) (f : A -> bool)
      (l : list A) :
  (forall x, In x l -> cond x = Ok (f x)) ->
  comprehension cond l = Ok (filter f l).
Proof.
  induction l as [|x l IH]; intros H; simpl; [reflexivity|].
  rewrite (H x (or_introl eq_refl)). simpl.
  rewrite IH by (intros y Hy; apply H; now right). simpl.
  reflexivity.
Qed.

(** ** Weighted-average entry *)

Lemma filled_fills_of (ts : list Trade) :
  filled (fills_of ts) = NiftyShop.total_qty ts.
Proof.
  unfold filled, fills_of, NiftyShop.total_qty, sumZ.
  rewrite fold_left_Zadd, Z.add_0_l, map_map. reflexivity.
Qed.

Lemma weighted_entry_spec {P : Platform} (ts : list Trade) :
  NiftyShop.weighted_entry ts = spec_weighted_avg_entry (fills_of ts).
Proof.
  unfold NiftyShop.weighted_entry, spec_weighted_avg_entry.
  rewrite filled_fills_of. unfold fills_of. rewrite map_map. reflexivity.
Qed.

Lemma invested_zero {P : Platform} (ts : list Trade) :
  NiftyShop.total_qty ts <> 0%Z ->
  (F64.mul (F64.of_int (NiftyShop.total_qty ts)) (NiftyShop.weighted_entry ts) == 0
   <-> NiftyShop.weighted_entry ts == 0).
Proof.
  intros Hn. unfold NiftyShop.weighted_entry, F64.div.
  now apply mul_of_int_zero.
Qed.

(** Where nothing rounds, the machine's weighted entry is the weighted
    mean. *)
Lemma weighted_entry_exact {P : Platform} (fills : list (Q * Z)) :
  computed_exactly fills ->
  spec_weighted_avg_entry fills == weighted_mean fills.
Proof.
  intros (Hfills & Hsums & Htotal & Hmean).
  unfold spec_weighted_avg_entry, weighted_mean in *.
  unfold F64.div. apply round_double; [|exact Hmean].
  apply Qdiv_comp; [|exact Htotal].
  rewrite <- (Qplus_0_l (fold_right Qplus 0 _)), <- fold_left_Qplus.
  apply sum_exact; [| |exact Hsums].
  - clear Hsums Htotal Hmean.
    induction Hfills as [|f fills [Hq Hp] _ IH]; simpl; constructor;
      [|exact IH].
    unfold F64.mul, F64.of_int. apply round_double; [|exact Hp].
    unfold is_double in Hq. now rewrite Hq.
  - clear Hsums Htotal Hmean.
    induction Hfills as [|f fills [Hq Hp] _ IH]; simpl; constructor;
      [exact Hp|exact IH].
Qed.

Section SellFacts.

Context {S : Pd.Sorting} {P : Platform}.
Variable self : Strategy.

Lemma sell_candidate_eq (symbol : string) (ts : list Trade) :
  NiftyShop.sell_candidate self (symbol, ts)
  = if (NiftyShop.total_qty ts =? 0)%Z then Ok None
    else match get_cmp symbol with
         | None => Ok None
         | Some cmp =>
             if Qeq_bool (F64.mul (F64.of_int (NiftyShop.total_qty ts))
                                  (NiftyShop.weighted_entry ts)) 0
             then Raise ZeroDivisionError
             else
               let pnl_pct :=
                 round_off_price
                   (pnl_pct_at (NiftyShop.total_qty ts) cmp
                               (NiftyShop.weighted_entry ts)) in
               if Qle_bool (target_pct self) pnl_pct
               then Ok (Some (symbol, pnl_pct, ts))
               else Ok None
         end.
Proof. reflexivity. Qed.

Lemma sell_candidate_priced (symbol : string) (ts : list Trade) :
  (NiftyShop.total_qty ts <> 0%Z -> ~ NiftyShop.weighted_entry ts == 0) ->
  NiftyShop.sell_candidate self (symbol, ts)
  = Ok (if (NiftyShop.total_qty ts =? 0)%Z then None
        else match get_cmp symbol with
             | None => None
             | Some cmp =>
                 let pnl_pct :=
                   round_off_price
                     (pnl_pct_at (NiftyShop.total_qty ts) cmp
                                 (NiftyShop.weighted_entry ts)) in
                 if Qle_bool (target_pct self) pnl_pct
                 then Some (symbol, pnl_pct, ts)
                 else None
             end).
Proof.
  intros F. rewrite sell_candidate_eq.
  destruct (Z.eqb_spec (NiftyShop.total_qty ts) 0) as [E|E]; [reflexivity|].
  destruct (get_cmp symbol) as [cmp|]; [|reflexivity].
  destruct (Qeq_bool _ 0) eqn:Hz.
  - apply Qeq_bool_eq in Hz. apply (invested_zero ts E) in Hz.
    now destruct (F E).
  - cbv zeta. now destruct (Qle_bool _ _).
Qed.

End SellFacts.

(** ** C5 *)



(** ** C1 *)

Lemma slice_to_nil {A : Type} (n : Z) : slice_to n (@nil A) = [].
Proof. unfold slice_to. destruct (0 <=? n)%Z; apply firstn_nil. Qed.

(** C1, counterexample.  The threshold is tested on the number the pass
    has computed, not on the P&L percentage itself.  Two shares of LT at
    90 and one at 95 stand exactly 5% under a quote of 96.25, and the
    pass, on a platform that leaves the number as it is, does not sell
    them: in double precision their P&L percentage comes out below 5.
    On a platform that rounds the number to two decimals a holding that
    stands 4.996% above its entry is sold.  And whatever the rounding
    is, the pass treats the two lots of LT like a single lot that stands
    less than 5% under the quote.  A trade without entry order stops the
    pass before it sells a symbol that stands 6% above its entry. *)
Lemma sell_threshold_is_tested_on_the_computed_value :
  target_pct Aditi == 5
  /\ pnl_pct_of (385 # 4) (weighted_mean (fills_of Demo2.two_lots)) == 5
  /\ (forall c,
         NiftyShop.initiate_sell (P := Demo2.market (fun price => price) c)
                                 Aditi Demo2.two_lots
         = Ok [])
  /\ pnl_pct_of 104996 (weighted_mean (fills_of Demo.borderline)) == 4996 # 1000
  /\ (forall c,
         NiftyShop.initiate_sell (P := Demo2.market Demo2.py_round2 c)
                                 Aditi Demo.borderline
         = Ok [("HDFC", 5, Demo.borderline)])
  /\ pnl_pct_of (385 # 4) (weighted_mean (fills_of Demo2.one_lot)) < 5
  /\ (forall round_off c,
         NiftyShop.initiate_sell (P := Demo2.market round_off c)
                                 Aditi Demo2.two_lots = Ok []
         <-> NiftyShop.initiate_sell (P := Demo2.market round_off c)
                                     Aditi Demo2.one_lot = Ok [])
  /\ pnl_pct_of 106 (weighted_mean (fills_of [Demo.lot "TCS" 100 10 1])) == 6
  /\ NiftyShop.initiate_sell (P := Demo.platform) Aditi Demo2.winner_and_orphan
     = Raise AttributeError.
Proof.
  split; [reflexivity|]. split; [reflexivity|].
  split; [intros [|]; vm_compute; reflexivity|].
  split; [reflexivity|].
  split; [intros [|]; vm_compute; reflexivity|].
  split; [reflexivity|].
  split; [|split; reflexivity].
  intros round_off c.
  assert (H2 : NiftyShop.initiate_sell (P := Demo2.market round_off c)
                                       Aditi Demo2.two_lots
               = if Qle_bool 5 (round_off (2814749767106557 # 562949953421312))
                 then Ok [("LT", round_off (2814749767106557 # 562949953421312),
                           Demo2.two_lots)]
                 else Ok []).
  { unfold NiftyShop.initiate_sell, NiftyShop.sell_candidates.
    change (NiftyShop.build_symbol_trades Aditi Demo2.two_lots [])
      with (Ok [("LT", Demo2.two_lots)]).
    cbn [bind for_collect]. rewrite sell_candidate_eq.
    replace (NiftyShop.weighted_entry (P := Demo2.market round_off c)
                                      Demo2.two_lots)
      with (6450468216285867 # 70368744177664)
      by (destruct c; vm_compute; reflexivity).
    change (get_cmp (Platform := Demo2.market round_off c) "LT")
      with (Some (385 # 4)).
    change (NiftyShop.total_qty Demo2.two_lots) with 3%Z.
    change (pnl_pct_at 3 (385 # 4) (6450468216285867 # 70368744177664))
      with (2814749767106557 # 562949953421312).
    cbn [Z.eqb Qeq_bool]. cbv zeta.
    change (round_off_price (Platform := Demo2.market round_off c))
      with round_off.
    change (target_pct Aditi) with 5.
    destruct (Qle_bool 5 (round_off _)); reflexivity. }
  assert (H1 : NiftyShop.initiate_sell (P := Demo2.market round_off c)
                                       Aditi Demo2.one_lot
               = if Qle_bool 5 (round_off (2814749767106557 # 562949953421312))
                 then Ok [("LT", round_off (2814749767106557 # 562949953421312),
                           Demo2.one_lot)]
                 else Ok []).
  { unfold NiftyShop.initiate_sell, NiftyShop.sell_candidates.
    change (NiftyShop.build_symbol_trades Aditi Demo2.one_lot [])
      with (Ok [("LT", Demo2.one_lot)]).
    cbn [bind for_collect]. rewrite sell_candidate_eq.
    replace (NiftyShop.weighted_entry (P := Demo2.market round_off c)
                                      Demo2.one_lot)
      with (6450468216285867 # 70368744177664)
      by (destruct c; vm_compute; reflexivity).
    change (get_cmp (Platform := Demo2.market round_off c) "LT")
      with (Some (385 # 4)).
    change (NiftyShop.total_qty Demo2.one_lot) with 3%Z.
    change (pnl_pct_at 3 (385 # 4) (6450468216285867 # 70368744177664))
      with (2814749767106557 # 562949953421312).
    cbn [Z.eqb Qeq_bool]. cbv zeta.
    change (round_off_price (Platform := Demo2.market round_off c))
      with round_off.
    change (target_pct Aditi) with 5.
    destruct (Qle_bool 5 (round_off _)); reflexivity. }
  rewrite H1, H2.
  destruct (Qle_bool 5 (round_off _)); split; intros H;
    try reflexivity; discriminate.
Qed.

(** C1, amended.  On a ledger the pass can price, the sell pass does
    not raise; a symbol is a candidate exactly when it has matching
    trades with a non-zero total quantity, a quote, and a computed P&L
    percentage (in double precision from the weighted-average entry of
    its matching trades, then passed through the platform's price
    rounding) of at least [target_pct]; the candidates are ordered by
    descending computed P&L percentage and the first [max_sells_per_day]
    of them are sold.  With [max_sells_per_day = 1] and any candidates at
    all, exactly one symbol is sold, one whose computed P&L percentage no
    other candidate exceeds. *)
Theorem sell_pass_takes_best_by_computed_pnl
        {S : Pd.Sorting} {P : Platform}
        (self : Strategy) (trades : list Trade) :
  priced self trades ->
  exists candidates,
    NiftyShop.sell_candidates self trades = Ok candidates
    /\ NiftyShop.initiate_sell self trades
       = Ok (slice_to (max_sells_per_day self)
                      (sort_reverse NiftyShop.pnl_of candidates))
    /\ (forall symbol pnl_pct ts,
           In (symbol, pnl_pct, ts) candidates
           <-> ts = holdings_of self trades symbol
               /\ NiftyShop.total_qty ts <> 0%Z
               /\ exists cmp,
                   get_cmp symbol = Some cmp
                   /\ pnl_pct
                      = round_off_price
                          (pnl_pct_at (NiftyShop.total_qty ts) cmp
                                      (NiftyShop.weighted_entry ts))
                   /\ target_pct self <= pnl_pct)
    /\ Permutation candidates (sort_reverse NiftyShop.pnl_of candidates)
    /\ StronglySorted (fun a b => NiftyShop.pnl_of b <= NiftyShop.pnl_of a)
                      (sort_reverse NiftyShop.pnl_of candidates)
    /\ ((0 <= max_sells_per_day self)%Z ->
        slice_to (max_sells_per_day self)
                 (sort_reverse NiftyShop.pnl_of candidates)
        = firstn (Z.to_nat (max_sells_per_day self))
                 (sort_reverse NiftyShop.pnl_of candidates))
    /\ (max_sells_per_day self = 1%Z ->
        candidates <> [] ->
        exists best,
          NiftyShop.initiate_sell self trades = Ok [best]
          /\ In best candidates
          /\ forall c, In c candidates ->
                       NiftyShop.pnl_of c <= NiftyShop.pnl_of best).
Proof.
  intros [Hrec Hp].
  set (collect := fun item : string * list Trade =>
                    match NiftyShop.sell_candidate self item with
                    | Ok (Some c) => [c]
                    | _ => []
                    end).
  assert (Hitem : forall k vs,
             In (k, vs) (grouped self trades []) ->
             vs = holdings_of self trades k
             /\ (NiftyShop.total_qty vs <> 0%Z ->
                 ~ NiftyShop.weighted_entry vs == 0)).
  { intros k vs Hin. apply symbol_trades_items in Hin. destruct Hin as [-> _].
    split; [reflexivity|]. apply Hp. }
  assert (Hcand : NiftyShop.sell_candidates self trades
                  = Ok (flat_map collect (grouped self trades []))).
  { unfold NiftyShop.sell_candidates.
    rewrite (build_symbol_trades_grouped self trades [] Hrec). simpl.
    apply for_collect_Ok. intros [k vs] Hin.
    destruct (Hitem k vs Hin) as [_ F].
    rewrite (sell_candidate_priced self k vs F). eauto. }
  set (candidates := flat_map collect (grouped self trades [])) in *.
  assert (Hsell : NiftyShop.initiate_sell self trades
                  = Ok (slice_to (max_sells_per_day self)
                                 (sort_reverse NiftyShop.pnl_of candidates))).
  { unfold NiftyShop.initiate_sell. rewrite Hcand. simpl.
    generalize candidates. intros [|c cs]; [|reflexivity].
    unfold sort_reverse. simpl. now rewrite slice_to_nil. }
  exists candidates.
  split; [exact Hcand|]. split; [exact Hsell|].
  split; [|split; [apply sort_reverse_perm|split; [apply sort_reverse_sorted|split]]].
  - intros symbol pnl_pct ts. unfold candidates. rewrite in_flat_map. split.
    + intros ([k vs] & Hin & Hc).
      destruct (Hitem k vs Hin) as [Hvs F].
      unfold collect in Hc. rewrite (sell_candidate_priced self k vs F) in Hc.
      destruct (Z.eqb_spec (NiftyShop.total_qty vs) 0) as [E|E]; [destruct Hc|].
      destruct (get_cmp k) as [cmp|] eqn:Hcmp; [|destruct Hc].
      cbv zeta in Hc.
      destruct (Qle_bool (target_pct self) _) eqn:Hq; [|destruct Hc].
      destruct Hc as [Hc|[]]. injection Hc as <- <- <-.
      split; [exact Hvs|]. split; [exact E|].
      exists cmp. split; [exact Hcmp|]. split; [reflexivity|].
      now apply Qle_bool_iff.
    + intros (-> & E & cmp & Hcmp & -> & Hq).
      exists (symbol, holdings_of self trades symbol). split.
      * apply symbol_trades_items. split; [reflexivity|].
        intros Hnil. apply E. now rewrite Hnil.
      * unfold collect.
        rewrite (sell_candidate_priced self symbol _ (Hp symbol)).
        destruct (Z.eqb_spec (NiftyShop.total_qty (holdings_of self trades symbol)) 0)
          as [E'|_]; [contradiction|].
        rewrite Hcmp. cbv zeta.
        apply Qle_bool_iff in Hq. rewrite Hq. now left.
  - intros Hmax. now apply slice_to_nonneg.
  - intros Hmax Hne.
    pose proof (sort_reverse_perm NiftyShop.pnl_of candidates) as HP.
    pose proof (sort_reverse_sorted NiftyShop.pnl_of candidates) as HS.
    rewrite Hsell, Hmax.
    destruct (sort_reverse NiftyShop.pnl_of candidates) as [|best rest].
    { apply Permutation_sym, Permutation_nil in HP. contradiction. }
    exists best. split; [reflexivity|]. split.
    + eapply Permutation_in; [symmetry; exact HP|now left].
    + intros c Hc. apply (Permutation_in _ HP) in Hc.
      destruct Hc as [<-|Hc]; [apply Qle_refl|].
      inversion HS as [|? ? _ F]; subst.
      rewrite Forall_forall in F. now apply F.
Qed.

Lemma sell_pass_takes_best_by_computed_pnl_witness :
  priced (P := Demo.platform) Aditi Demo.winners
  /\ NiftyShop.sell_candidates (P := Demo.platform) Aditi Demo.winners
     = Ok [("TCS", 6, [Demo.lot "TCS" 100 10 1]);
           ("INFY", 8, [Demo.lot "INFY" 100 10 2])]
  /\ NiftyShop.initiate_sell (P := Demo.platform) Aditi Demo.winners
     = Ok [("INFY", 8, [Demo.lot "INFY" 100 10 2])].
Proof.
  assert (Hp : priced (P := Demo.platform) Aditi Demo.winners).
  { split.
    - repeat constructor; intros _ _ _; discriminate.
    - intros symbol. unfold holdings_of, Demo.winners. cbn [filter].
      change (open_holding Aditi (Demo.lot "TCS" 100 10 1)) with true.
      change (open_holding Aditi (Demo.lot "INFY" 100 10 2)) with true.
      cbn [andb tradingSymbol Demo.lot].
      destruct ("TCS" =? symbol), ("INFY" =? symbol);
        vm_compute; intros H; try discriminate; now destruct H. }
  split; [exact Hp|]. split; [reflexivity|].
  destruct (sell_pass_takes_best_by_computed_pnl
              (S := Pd.insertion_sorting) (P := Demo.platform)
              Aditi Demo.winners Hp)
    as (candidates & Hc & _ & _ & _ & _ & _ & Hbest).
  assert (Hne : candidates <> []).
  { vm_compute in Hc. injection Hc as <-. discriminate. }
  destruct (Hbest eq_refl Hne) as (best & Hsell & _).
  rewrite Hsell. vm_compute in Hsell. injection Hsell as <-. reflexivity.
Defined.

(** ** The first loop of the buy pass *)

Section BuyLoopFacts.

Context {S : Pd.Sorting} {P : Platform}.
Variable self : Strategy.

Lemma buy_step_counts (st : NiftyShop.BuyLoop) (stock : string) :
  NiftyShop.new_stocks_bought st
  = Z.of_nat (List.length (NiftyShop.bought st)) ->
  NiftyShop.new_stocks_bought (NiftyShop.buy_step self st stock)
  = Z.of_nat (List.length (NiftyShop.bought (NiftyShop.buy_step self st stock))).
Proof.
  intros H. unfold NiftyShop.buy_step.
  destruct (_ && _); [|exact H]. simpl.
  rewrite length_app. simpl. lia.
Qed.

Lemma buy_loop_counts (stock_list : list string) (st : NiftyShop.BuyLoop) :
  NiftyShop.new_stocks_bought st
  = Z.of_nat (List.length (NiftyShop.bought st)) ->
  NiftyShop.new_stocks_bought (fold_left (NiftyShop.buy_step self) stock_list st)
  = Z.of_nat (List.length
                (NiftyShop.bought
                   (fold_left (NiftyShop.buy_step self) stock_list st))).
Proof.
  revert st. induction stock_list as [|stock l IH]; intros st H; simpl.
  - exact H.
  - apply IH. now apply buy_step_counts.
Qed.

Lemma new_buy_loop_counts (stock_list : list string) (trades : list Trade) :
  NiftyShop.new_stocks_bought (NiftyShop.new_buy_loop self stock_list trades)
  = Z.of_nat (List.length
                (NiftyShop.bought
                   (NiftyShop.new_buy_loop self stock_list trades))).
Proof. apply buy_loop_counts. reflexivity. Qed.

(** The counter never goes down, and it stays put only if nothing was
    bought, in which case the ledger is untouched. *)
Lemma buy_loop_monotone (stock_list : list string) (st : NiftyShop.BuyLoop) :
  (NiftyShop.new_stocks_bought st
   <= NiftyShop.new_stocks_bought
        (fold_left (NiftyShop.buy_step self) stock_list st))%Z
  /\ (NiftyShop.new_stocks_bought
        (fold_left (NiftyShop.buy_step self) stock_list st)
      = NiftyShop.new_stocks_bought st ->
      fold_left (NiftyShop.buy_step self) stock_list st = st).
Proof.
  revert st. induction stock_list as [|stock l IH]; intros st; simpl.
  - split; [lia|reflexivity].
  - destruct (IH (NiftyShop.buy_step self st stock)) as [IH1 IH2].
    unfold NiftyShop.buy_step in *.
    destruct (_ && _); simpl in *.
    + split; [lia|]. intros E. lia.
    + split; [exact IH1|exact IH2].
Qed.

Lemma nothing_bought_ledger_untouched (stock_list : list string) (trades : list Trade) :
  NiftyShop.new_stocks_bought (NiftyShop.new_buy_loop self stock_list trades)
  = 0%Z ->
  NiftyShop.new_buy_loop self stock_list trades
  = {| NiftyShop.ledger := trades;
       NiftyShop.new_stocks_bought := 0;
       NiftyShop.bought := [] |}.
Proof.
  intros H. unfold NiftyShop.new_buy_loop in *.
  now apply buy_loop_monotone.
Qed.

End BuyLoopFacts.

(** ** C2 *)

(** C2.  The counter of the first loop counts the new buys it placed.  If
    it placed any, [initiate_buy] returns right there: no averaging buy is
    placed, whatever the holdings look like.  So an averaging buy is only
    ever placed by a call that placed no new buy. *)
Theorem no_averaging_after_a_new_buy
        {S : Pd.Sorting} {P : Platform}
        (self : Strategy) (stock_list : list string) (trades : list Trade) :
  NiftyShop.new_stocks_bought (NiftyShop.new_buy_loop self stock_list trades)
  = Z.of_nat (List.length
                (NiftyShop.bought
                   (NiftyShop.new_buy_loop self stock_list trades)))
  /\ (NiftyShop.bought (NiftyShop.new_buy_loop self stock_list trades) <> [] ->
      NiftyShop.initiate_buy self stock_list trades
      = Ok {| NiftyShop.new_buys :=
                NiftyShop.bought (NiftyShop.new_buy_loop self stock_list trades);
              NiftyShop.averaging_buy := None;
              NiftyShop.trades_after :=
                NiftyShop.ledger (NiftyShop.new_buy_loop self stock_list trades) |})
  /\ (forall outcome,
         NiftyShop.initiate_buy self stock_list trades = Ok outcome ->
         NiftyShop.new_buys outcome
         = NiftyShop.bought (NiftyShop.new_buy_loop self stock_list trades)
         /\ (NiftyShop.averaging_buy outcome <> None ->
             NiftyShop.new_buys outcome = [])).
Proof.
  pose proof (new_buy_loop_counts self stock_list trades) as Hcount.
  split; [exact Hcount|]. split.
  - intros Hne. unfold NiftyShop.initiate_buy.
    replace (0 <? _)%Z with true; [reflexivity|].
    symmetry. apply Z.ltb_lt. rewrite Hcount.
    destruct (NiftyShop.bought _); [congruence|]. simpl. lia.
  - intros outcome. unfold NiftyShop.initiate_buy.
    destruct (Z.ltb_spec 0 (NiftyShop.new_stocks_bought
                              (NiftyShop.new_buy_loop self stock_list trades)))
      as [Hpos|Hzero].
    + intros E. injection E as <-. simpl. split; [reflexivity|congruence].
    + assert (Hnil : NiftyShop.bought
                       (NiftyShop.new_buy_loop self stock_list trades) = []).
      { rewrite Hcount in Hzero.
        destruct (NiftyShop.bought _); [reflexivity|]. simpl in Hzero. lia. }
      destruct (NiftyShop.holding_rows self _) as [rows|e]; simpl;
        [|discriminate].
      destruct rows as [|row rows].
      { intros E. injection E as <-. simpl. split; [reflexivity|congruence]. }
      destruct (NiftyShop.averaging_candidates self _ _).
      { intros E. injection E as <-. simpl. split; [reflexivity|congruence]. }
      intros E. injection E as <-. simpl. split; [reflexivity|].
      intros _. exact Hnil.
Qed.

Lemma no_averaging_after_a_new_buy_witness :
  NiftyShop.bought
    (NiftyShop.new_buy_loop (P := Demo.platform) Aditi ["INFY"; "WIPRO"] Demo.fallen)
  = ["INFY"]
  /\ NiftyShop.initiate_buy
       (S := Pd.insertion_sorting) (P := Demo.platform)
       Aditi ["INFY"; "WIPRO"] Demo.fallen
     = Ok {| NiftyShop.new_buys := ["INFY"];
             NiftyShop.averaging_buy := None;
             NiftyShop.trades_after := Demo.fallen ++ [Demo.placed "INFY"] |}
  /\ NiftyShop.averaging_buy
       (match NiftyShop.initiate_buy
                (S := Pd.insertion_sorting) (P := Demo.platform)
                Aditi ["WIPRO"] Demo.fallen with
        | Ok outcome => outcome
        | Raise _ => {| NiftyShop.new_buys := [];
                        NiftyShop.averaging_buy := None;
                        NiftyShop.trades_after := [] |}
        end)
     = Some "WIPRO".
Proof.
  split; [reflexivity|]. split; [|reflexivity].
  apply (proj1 (proj2 (no_averaging_after_a_new_buy
                         (S := Pd.insertion_sorting) (P := Demo.platform)
                         Aditi ["INFY"; "WIPRO"] Demo.fallen))).
  discriminate.
Defined.

(** ** C6 *)

Lemma sumZ_ones {A : Type} (l : list A) :
  sumZ (map (fun _ => 1%Z) l) = Z.of_nat (List.length l).
Proof.
  induction l as [|x l IH]; [reflexivity|].
  simpl map. rewrite sumZ_cons, IH. simpl List.length. lia.
Qed.

Lemma OrderStatus_eqb_eq (a b : OrderStatus) : OrderStatus_eqb a b = true <-> a = b.
Proof. destruct a, b; simpl; split; congruence. Qed.

Lemma Direction_eqb_eq (a b : Direction) : Direction_eqb a b = true <-> a = b.
Proof. destruct a, b; simpl; split; congruence. Qed.

(** When the first loop buys nothing, the averaging block reads the ledger
    the call started with. *)
Lemma averaging_reads_initial_ledger
      {S : Pd.Sorting} {P : Platform}
      (self : Strategy) (stock_list : list string) (trades : list Trade) :
  (0 <? NiftyShop.new_stocks_bought
          (NiftyShop.new_buy_loop self stock_list trades))%Z = false ->
  NiftyShop.new_buy_loop self stock_list trades
  = {| NiftyShop.ledger := trades;
       NiftyShop.new_stocks_bought := 0;
       NiftyShop.bought := [] |}.
Proof.
  intros H. apply nothing_bought_ledger_untouched.
  apply Z.ltb_ge in H.
  pose proof (new_buy_loop_counts self stock_list trades). lia.
Qed.

(** C6.  The averaging count of a symbol is the number of trades of this
    strategy for that symbol that are long and whose entry order is
    complete with a positive fill, whatever their state.  A symbol whose
    count has reached [max_averaging_per_stock] is not among the averaging
    candidates and is never bought by the averaging block, whatever the
    quotes are. *)
Theorem capped_symbol_is_never_averaged
        {S : Pd.Sorting} {P : Platform}
        (self : Strategy) (trades : list Trade) (symbol : string) :
  NiftyShop._current_averaging_count self trades symbol
  = Z.of_nat (List.length (filter (NiftyShop.counts_as_entry self symbol) trades))
  /\ (forall t,
         NiftyShop.counts_as_entry self symbol t = true
         <-> strategy t = name self
             /\ tradingSymbol t = symbol
             /\ direction t = LONG
             /\ exists o, entryOrder t = Some o
                          /\ Order.orderStatus o = COMPLETE
                          /\ (0 < Order.filledQty o)%Z)
  /\ ((max_averaging_per_stock self
       <= NiftyShop._current_averaging_count self trades symbol)%Z ->
      (forall rows r,
          In r (NiftyShop.averaging_candidates self trades rows) ->
          NiftyShop.Symbol (NiftyShop.holding r) <> symbol)
      /\ (forall stock_list outcome,
             NiftyShop.initiate_buy self stock_list trades = Ok outcome ->
             NiftyShop.averaging_buy outcome <> Some symbol)).
Proof.
  split; [apply sumZ_ones|]. split.
  - intros t. unfold NiftyShop.counts_as_entry.
    rewrite !andb_true_iff, !String.eqb_eq, Direction_eqb_eq. split.
    + intros [[[H1 H2] H3] H4].
      destruct (entryOrder t) as [o|]; [|discriminate].
      apply andb_true_iff in H4. destruct H4 as [H4 H5].
      apply OrderStatus_eqb_eq in H4. apply Z.ltb_lt in H5.
      repeat split; auto. exists o. auto.
    + intros (H1 & H2 & H3 & o & -> & H4 & H5).
      repeat split; auto.
      apply andb_true_iff. split;
        [now apply OrderStatus_eqb_eq|now apply Z.ltb_lt].
  - intros Hcap.
    assert (Hcand : forall rows r,
               In r (NiftyShop.averaging_candidates self trades rows) ->
               NiftyShop.Symbol (NiftyShop.holding r) <> symbol).
    { intros rows r Hin E.
      unfold NiftyShop.averaging_candidates in Hin.
      apply filter_In in Hin. destruct Hin as [_ Hb].
      unfold NiftyShop.below_cap in Hb. rewrite E in Hb.
      apply Z.ltb_lt in Hb. lia. }
    split; [exact Hcand|].
    intros stock_list outcome. unfold NiftyShop.initiate_buy.
    destruct (0 <? _)%Z eqn:Hpos.
    { intros E. injection E as <-. simpl. discriminate. }
    rewrite (averaging_reads_initial_ledger self stock_list trades Hpos). simpl.
    destruct (NiftyShop.holding_rows self trades) as [rows|e]; simpl;
      [|discriminate].
    destruct rows as [|row rows].
    { intros E. injection E as <-. simpl. discriminate. }
    destruct (NiftyShop.averaging_candidates self trades (row :: rows))
      as [|r rest] eqn:Hc.
    { intros E. injection E as <-. simpl. discriminate. }
    intros E. injection E as <-. simpl. intros Hs. injection Hs as Hs.
    apply (Hcand (row :: rows) r); [|exact Hs].
    rewrite Hc. now left.
Qed.

Lemma capped_symbol_is_never_averaged_witness :
  NiftyShop._current_averaging_count Aditi Demo.thrice "WIPRO" = 3%Z
  /\ (max_averaging_per_stock Aditi
      <= NiftyShop._current_averaging_count Aditi Demo.thrice "WIPRO")%Z
  /\ NiftyShop.initiate_buy
       (S := Pd.insertion_sorting) (P := Demo.platform)
       Aditi ["WIPRO"] Demo.thrice
     = Ok {| NiftyShop.new_buys := [];
             NiftyShop.averaging_buy := None;
             NiftyShop.trades_after := Demo.thrice |}
  /\ NiftyShop.averaging_buy
       {| NiftyShop.new_buys := [];
          NiftyShop.averaging_buy := None;
          NiftyShop.trades_after := Demo.thrice |}
     <> Some "WIPRO".
Proof.
  assert (Hcap : (max_averaging_per_stock Aditi
                  <= NiftyShop._current_averaging_count Aditi Demo.thrice "WIPRO")%Z)
    by (vm_compute; discriminate).
  split; [reflexivity|]. split; [exact Hcap|]. split; [reflexivity|].
  apply (proj2 (proj2 (proj2 (capped_symbol_is_never_averaged
                                (S := Pd.insertion_sorting) (P := Demo.platform)
                                Aditi Demo.thrice "WIPRO")) Hcap)
               ["WIPRO"]).
  reflexivity.
Defined.

(** ** The averaging frame *)

Lemma ltb_trans (a b c : string) :
  String.ltb a b = true -> String.ltb b c = true -> String.ltb a c = true.
Proof.
  unfold String.ltb.
  destruct (String.compare a b) eqn:Eab; try discriminate.
  destruct (String.compare b c) eqn:Ebc; try discriminate.
  intros _ _.
  apply String_as_OT.cmp_lt in Eab, Ebc.
  pose proof (String_as_OT.lt_trans _ _ _ Eab Ebc) as H.
  apply String_as_OT.cmp_lt in H.
  unfold String_as_OT.cmp in H. now rewrite H.
Qed.

Lemma ltb_irrefl (a : string) : String.ltb a a = false.
Proof.
  unfold String.ltb.
  destruct (String.compare a a) eqn:E; try reflexivity.
  assert (H : String_as_OT.cmp a a = Eq) by now apply String_as_OT.cmp_eq.
  unfold String_as_OT.cmp in H. congruence.
Qed.

Lemma ltb_connected (a b : string) :
  a <> b -> String.ltb a b = false -> String.ltb b a = true.
Proof.
  unfold String.ltb. intros Hne.
  rewrite (String.compare_antisym b a).
  destruct (String.compare a b) eqn:E; simpl; try discriminate; try reflexivity.
  apply String.compare_eq_iff in E. contradiction.
Qed.

Section GroupFacts.

Lemma insert_key_In (k0 : string) (keys : list string) (k : string) :
  In k (NiftyShop.insert_key k0 keys) <-> k = k0 \/ In k keys.
Proof.
  induction keys as [|k' keys IH]; simpl.
  - intuition.
  - destruct (String.eqb_spec k0 k') as [->|Hne]; simpl.
    + intuition.
    + destruct (String.ltb k0 k'); simpl; [intuition|].
      rewrite IH. intuition.
Qed.

Lemma insert_key_sorted (k0 : string) (keys : list string) :
  StronglySorted (fun a b => String.ltb a b = true) keys ->
  StronglySorted (fun a b => String.ltb a b = true)
                 (NiftyShop.insert_key k0 keys).
Proof.
  induction 1 as [|k' keys Hs IH Hk']; simpl.
  - repeat constructor.
  - destruct (String.eqb_spec k0 k') as [->|Hne]; [now constructor|].
    destruct (String.ltb k0 k') eqn:Hlt.
    + constructor; [now constructor|].
      constructor; [exact Hlt|].
      eapply Forall_impl; [|exact Hk'].
      intros c Hc. now apply ltb_trans with k'.
    + constructor; [exact IH|].
      apply Forall_forall. intros c Hc.
      apply insert_key_In in Hc. destruct Hc as [->|Hc].
      * now apply ltb_connected.
      * rewrite Forall_forall in Hk'. now apply Hk'.
Qed.

Lemma group_keys_In (rows : list NiftyShop.Holding) (k : string) :
  In k (NiftyShop.group_keys rows) <-> In k (map NiftyShop.Symbol rows).
Proof.
  unfold NiftyShop.group_keys.
  induction (map NiftyShop.Symbol rows) as [|s l IH]; simpl; [reflexivity|].
  rewrite insert_key_In, IH. intuition.
Qed.

Lemma group_keys_NoDup (rows : list NiftyShop.Holding) :
  NoDup (NiftyShop.group_keys rows).
Proof.
  assert (Hs : StronglySorted (fun a b => String.ltb a b = true)
                              (NiftyShop.group_keys rows)).
  { unfold NiftyShop.group_keys.
    induction (map NiftyShop.Symbol rows) as [|s l IH]; simpl;
      [constructor|now apply insert_key_sorted]. }
  induction Hs as [|k keys _ IH Hk]; constructor; [|exact IH].
  intros Hin. rewrite Forall_forall in Hk.
  specialize (Hk k Hin). rewrite ltb_irrefl in Hk. discriminate.
Qed.

(** [idxmax]: a row of the group, dated no earlier than any other. *)
Lemma first_latest_spec (group : list NiftyShop.Holding) (best : NiftyShop.Holding) :
  In (NiftyShop.first_latest best group) (best :: group)
  /\ Forall (fun r => (NiftyShop.Date r
                       <= NiftyShop.Date (NiftyShop.first_latest best group))%Z)
            (best :: group).
Proof.
  revert best. induction group as [|r group IH]; intros best; simpl.
  - split; [now left|]. repeat constructor. lia.
  - destruct (Z.ltb_spec (NiftyShop.Date best) (NiftyShop.Date r)) as [Hlt|Hge].
    + destruct (IH r) as [Hin Hall]. split.
      * destruct Hin as [<-|Hin]; [right; now left|right; now right].
      * inversion Hall as [|? ? Hr Hg]; subst.
        constructor; [lia|]. now constructor.
    + destruct (IH best) as [Hin Hall]. split.
      * destruct Hin as [<-|Hin]; [now left|right; now right].
      * inversion Hall as [|? ? Hb Hg]; subst.
        constructor; [exact Hb|]. constructor; [lia|exact Hg].
Qed.

(** A row of the reduced frame is a row of the frame, and no row of the
    same symbol is dated later. *)
Lemma latest_purchase_In (rows : list NiftyShop.Holding) (r : NiftyShop.Holding) :
  In r (NiftyShop.latest_purchase rows) ->
  In r rows
  /\ forall r', In r' rows ->
                NiftyShop.Symbol r' = NiftyShop.Symbol r ->
                (NiftyShop.Date r' <= NiftyShop.Date r)%Z.
Proof.
  unfold NiftyShop.latest_purchase. rewrite in_flat_map.
  intros (k & _ & Hr).
  destruct (filter (fun r0 => NiftyShop.Symbol r0 =? k) rows)
    as [|r0 group] eqn:Hf; [destruct Hr|].
  destruct Hr as [<-|[]].
  destruct (first_latest_spec group r0) as [Hin Hall].
  rewrite <- Hf in Hin, Hall.
  apply filter_In in Hin. destruct Hin as [Hin Hk].
  apply String.eqb_eq in Hk.
  split; [exact Hin|].
  intros r' Hr' Hs. rewrite Forall_forall in Hall. apply Hall.
  apply filter_In. split; [exact Hr'|].
  apply String.eqb_eq. congruence.
Qed.

(** One row per symbol held. *)
Lemma latest_purchase_symbols (rows : list NiftyShop.Holding) :
  map NiftyShop.Symbol (NiftyShop.latest_purchase rows)
  = NiftyShop.group_keys rows.
Proof.
  unfold NiftyShop.latest_purchase.
  assert (H : forall k, In k (NiftyShop.group_keys rows) ->
                        In k (map NiftyShop.Symbol rows))
    by (intros k; apply group_keys_In).
  induction (NiftyShop.group_keys rows) as [|k keys IH]; simpl; [reflexivity|].
  rewrite map_app, IH by (intros k' Hk'; apply H; now right).
  destruct (filter (fun r => NiftyShop.Symbol r =? k) rows)
    as [|r0 group] eqn:Hf.
  - exfalso.
    specialize (H k (or_introl eq_refl)).
    apply in_map_iff in H. destruct H as (r & Hs & Hr).
    assert (Hin : In r (filter (fun r => NiftyShop.Symbol r =? k) rows)).
    { apply filter_In. split; [exact Hr|]. now apply String.eqb_eq. }
    rewrite Hf in Hin. destruct Hin.
  - simpl. f_equal.
    destruct (first_latest_spec group r0) as [Hin _].
    rewrite <- Hf in Hin. apply filter_In in Hin.
    destruct Hin as [_ Hk]. now apply String.eqb_eq in Hk.
Qed.

End GroupFacts.

(** ** C7 *)

(** C7, counterexample.  The threshold is compared with the change
    rounded to two decimals:
    HDFC is down 4.996% from its last buy, which is not a fall of 5%, and
    it is bought for averaging all the same, its change being -5.00 in
    the [ChangePct] column.  And an error can be raised where there is
    no candidate: an active trade without entry order stops the block
    while it builds its rows. *)
Lemma averaging_threshold_is_tested_after_rounding :
  Pd.SortingSpec Pd.insertion_sorting
  /\ get_cmp (Platform := Demo.platform) "HDFC" = Some 95004
  /\ map entry Demo.borderline = [100000]
  /\ change_of 95004 100000 == - (4996 # 1000)
  /\ ~ change_of 95004 100000 <= averaging_pct Aditi
  /\ rounded_change 95004 100000 = - (5)
  /\ NiftyShop.initiate_buy
       (S := Pd.insertion_sorting) (P := Demo.platform)
       Aditi ["HDFC"] Demo.borderline
     = Ok {| NiftyShop.new_buys := [];
             NiftyShop.averaging_buy := Some "HDFC";
             NiftyShop.trades_after := Demo.borderline ++ [Demo.placed "HDFC"] |}
  /\ (forall h change,
         ~ averaging_candidate (P := Demo.platform) Aditi [Demo2.orphan] h change)
  /\ NiftyShop.initiate_buy
       (S := Pd.insertion_sorting) (P := Demo.platform)
       Aditi ["INFY"] [Demo2.orphan]
     = Raise AttributeError.
Proof.
  split; [exact insertion_sorting_spec|].
  split; [reflexivity|]. split; [reflexivity|]. split; [reflexivity|].
  split; [vm_compute; intros H; now apply H|].
  split; [reflexivity|]. split; [reflexivity|].
  split; [|reflexivity].
  intros h change (Hin & _). exact Hin.
Qed.

Lemma filter_sorted {A : Type} (R : A -> A -> Prop) (f : A -> bool) (l : list A) :
  StronglySorted R l -> StronglySorted R (filter f l).
Proof.
  induction 1 as [|x l Hl IH Hx]; simpl; [constructor|].
  destruct (f x); [|exact IH].
  constructor; [exact IH|].
  rewrite Forall_forall in *. intros y Hy.
  apply Hx. now apply filter_In in Hy.
Qed.

Section AveragingFacts.

Context {S : Pd.Sorting} (Spec : Pd.SortingSpec S) {P : Platform}.
Variable self : Strategy.

Lemma holding_rows_held (trades : list Trade) :
  Forall (entry_recorded self) trades ->
  NiftyShop.holding_rows self trades = Ok (held_rows self trades).
Proof.
  intros H. unfold NiftyShop.holding_rows.
  rewrite (comprehension_Ok _ (open_holding self)); [reflexivity|].
  intros t Ht. apply is_open_holding_pure.
  rewrite Forall_forall in H. now apply H.
Qed.

Lemma change_pct_Some (close last_buy change : Q) :
  NiftyShop.change_pct close last_buy = Some change
  <-> ~ last_buy == 0
      /\ change = rounded_change close last_buy.
Proof.
  unfold NiftyShop.change_pct, rounded_change.
  destruct (Qeq_bool last_buy 0) eqn:E.
  - apply Qeq_bool_eq in E. split; [discriminate|]. now intros [H _].
  - apply Qeq_bool_neq in E. split.
    + intros H. injection H as <-. now split.
    + now intros [_ ->].
Qed.

(** The rows the averaging block is left with are the candidates. *)
Lemma averaging_candidates_In (trades : list Trade) (r : NiftyShop.Scored) :
  In r (NiftyShop.averaging_candidates self trades (held_rows self trades))
  <-> exists change,
        r = NiftyShop.score (NiftyShop.holding r)
        /\ NiftyShop.ChangePct r = Some change
        /\ averaging_candidate self trades (NiftyShop.holding r) change.
Proof.
  unfold NiftyShop.averaging_candidates, averaging_candidate.
  rewrite filter_In. split.
  - intros [Hin Hcap].
    apply (Permutation_in _ (Permutation_sym (Pd.sort_values_perm _ _ _)))
      in Hin.
    apply filter_In in Hin. destruct Hin as [Hin Hfall].
    apply in_map_iff in Hin. destruct Hin as (h & <- & Hh).
    unfold NiftyShop.fallen_enough in Hfall. simpl in *.
    destruct (get_cmp (NiftyShop.Symbol h)) as [close|] eqn:Hq;
      [|discriminate].
    destruct (NiftyShop.change_pct close (NiftyShop.LastBuyPrice h))
      as [change|] eqn:Hc; [|discriminate].
    exists change. split; [reflexivity|]. split; [reflexivity|].
    apply change_pct_Some in Hc. destruct Hc as [Hnz Hch].
    split; [exact Hh|]. split; [now exists close|].
    split; [now apply Qle_bool_iff|].
    unfold NiftyShop.below_cap in Hcap. simpl in Hcap.
    now apply Z.ltb_lt.
  - intros (change & Hr & Hch & Hh & (close & Hq & Hnz & Hval) & Hle & Hcap).
    split.
    + apply (Permutation_in _ (Pd.sort_values_perm _ _ _)).
      apply filter_In. split.
      * rewrite Hr. now apply in_map.
      * unfold NiftyShop.fallen_enough. rewrite Hch.
        now apply Qle_bool_iff.
    + unfold NiftyShop.below_cap. now apply Z.ltb_lt.
Qed.

Lemma averaging_candidates_sorted (trades : list Trade) rows :
  StronglySorted
    (fun a b => Pd.na_le (NiftyShop.ChangePct a) (NiftyShop.ChangePct b))
    (NiftyShop.averaging_candidates self trades rows).
Proof.
  unfold NiftyShop.averaging_candidates.
  apply filter_sorted. apply Pd.sort_values_sorted.
Qed.

Lemma candidate_is_scored (trades : list Trade) (h : NiftyShop.Holding) (change : Q) :
  averaging_candidate self trades h change ->
  In (NiftyShop.score h)
     (NiftyShop.averaging_candidates self trades (held_rows self trades))
  /\ NiftyShop.ChangePct (NiftyShop.score h) = Some change.
Proof.
  intros Hc.
  assert (Hch : NiftyShop.ChangePct (NiftyShop.score h) = Some change).
  { destruct Hc as (_ & (close & Hq & Hnz & Hval) & _). simpl.
    rewrite Hq. now apply change_pct_Some. }
  split; [|exact Hch].
  apply averaging_candidates_In. exists change. simpl. auto.
Qed.

End AveragingFacts.

(** C7, amended.  When the first loop bought nothing, on a ledger whose
    active trades have their entry order on record: the averaging frame
    has one row per held symbol, that of its latest entry; the candidates
    are the rows with a quote whose change since the last buy, computed
    in double precision and rounded to two decimals, is at most
    [averaging_pct] and whose averaging count is below the cap; if there
    is a candidate exactly one order is placed, for a candidate whose
    rounded change no other candidate undercuts, and if there is none
    the ledger is left as it was; on such a ledger no exception is raised
    either way. *)
Theorem averaging_buys_furthest_fallen_after_rounding
        {S : Pd.Sorting} (Spec : Pd.SortingSpec S) {P : Platform}
        (self : Strategy) (stock_list : list string) (trades : list Trade) :
  Forall (entry_recorded self) trades ->
  NiftyShop.bought (NiftyShop.new_buy_loop self stock_list trades) = [] ->
  NoDup (map NiftyShop.Symbol (NiftyShop.latest_purchase (held_rows self trades)))
  /\ (forall t,
         In t trades -> open_holding self t = true ->
         In (tradingSymbol t)
            (map NiftyShop.Symbol
                 (NiftyShop.latest_purchase (held_rows self trades))))
  /\ (forall h,
         In h (NiftyShop.latest_purchase (held_rows self trades)) ->
         exists t,
           In t trades /\ open_holding self t = true
           /\ tradingSymbol t = NiftyShop.Symbol h
           /\ entry t = NiftyShop.LastBuyPrice h
           /\ createTimestamp t = NiftyShop.Date h
           /\ forall t',
               In t' trades -> open_holding self t' = true ->
               tradingSymbol t' = tradingSymbol t ->
               (createTimestamp t' <= createTimestamp t)%Z)
  /\ exists outcome,
      NiftyShop.initiate_buy self stock_list trades = Ok outcome
      /\ NiftyShop.new_buys outcome = []
      /\ match NiftyShop.averaging_buy outcome with
         | Some s =>
             NiftyShop.trades_after outcome = place_new_trade s trades
             /\ exists h change,
                 NiftyShop.Symbol h = s
                 /\ averaging_candidate self trades h change
                 /\ forall h' change',
                     averaging_candidate self trades h' change' ->
                     change <= change'
         | None =>
             NiftyShop.trades_after outcome = trades
             /\ forall h change, ~ averaging_candidate self trades h change
         end.
Proof.
  intros Hrec Hnone.
  split; [|split; [|split]].
  - rewrite latest_purchase_symbols. apply group_keys_NoDup.
  - intros t Ht Hopen.
    rewrite latest_purchase_symbols. apply group_keys_In.
    unfold held_rows. rewrite map_map. simpl.
    apply in_map. apply filter_In. now split.
  - intros h Hh.
    apply latest_purchase_In in Hh. destruct Hh as [Hin Hmax].
    unfold held_rows in Hin. apply in_map_iff in Hin.
    destruct Hin as (t & <- & Ht). apply filter_In in Ht.
    destruct Ht as [Ht Hopen].
    exists t. simpl. repeat split; auto.
    intros t' Ht' Hopen' Hsym.
    apply (Hmax {| NiftyShop.Symbol := tradingSymbol t';
                   NiftyShop.LastBuyPrice := entry t';
                   NiftyShop.Date := createTimestamp t' |}); [|exact Hsym].
    unfold held_rows.
    apply (in_map (fun t => {| NiftyShop.Symbol := tradingSymbol t;
                               NiftyShop.LastBuyPrice := entry t;
                               NiftyShop.Date := createTimestamp t |})).
    apply filter_In. now split.
  - assert (Hst : NiftyShop.new_buy_loop self stock_list trades
                  = {| NiftyShop.ledger := trades;
                       NiftyShop.new_stocks_bought := 0;
                       NiftyShop.bought := [] |}).
    { apply nothing_bought_ledger_untouched.
      rewrite new_buy_loop_counts, Hnone. reflexivity. }
    unfold NiftyShop.initiate_buy. rewrite Hst. simpl.
    rewrite (holding_rows_held self trades Hrec). simpl.
    destruct (held_rows self trades) as [|row rows] eqn:Hrows.
    { eexists. split; [reflexivity|]. simpl. split; [reflexivity|].
      split; [reflexivity|].
      intros h change (Hin & _). rewrite Hrows in Hin. exact Hin. }
    rewrite <- Hrows.
    pose proof (averaging_candidates_sorted Spec self trades (held_rows self trades))
      as Hsorted.
    destruct (NiftyShop.averaging_candidates self trades (held_rows self trades))
      as [|r rest] eqn:Hc.
    + eexists. split; [reflexivity|]. simpl. split; [reflexivity|].
      split; [reflexivity|].
      intros h change Hcand.
      destruct (candidate_is_scored Spec self trades h change Hcand) as [Hin _].
      rewrite Hc in Hin. exact Hin.
    + eexists. split; [reflexivity|]. simpl. split; [reflexivity|].
      split; [reflexivity|].
      assert (Hr : In r (NiftyShop.averaging_candidates
                           self trades (held_rows self trades)))
        by (rewrite Hc; now left).
      apply (averaging_candidates_In Spec) in Hr.
      destruct Hr as (change & Hscore & Hch & Hcand).
      exists (NiftyShop.holding r), change.
      split; [reflexivity|]. split; [exact Hcand|].
      intros h' change' Hcand'.
      destruct (candidate_is_scored Spec self trades h' change' Hcand')
        as [Hin' Hch'].
      rewrite Hc in Hin'. destruct Hin' as [E|Hin'].
      * rewrite <- E in Hch'. rewrite Hch in Hch'.
        injection Hch' as <-. apply Qle_refl.
      * inversion Hsorted as [|? ? _ Hall]; subst.
        rewrite Forall_forall in Hall. specialize (Hall _ Hin').
        rewrite Hch, Hch' in Hall. exact Hall.
Qed.

Lemma averaging_buys_furthest_fallen_after_rounding_witness :
  Pd.SortingSpec Pd.insertion_sorting
  /\ change_of (11871875 # 100000) 125 == - (5025 # 1000)
  /\ rounded_change (11871875 # 100000) 125 = F64.round (- (503 # 100))
  /\ Forall (entry_recorded Aditi) Demo.borderline
  /\ NiftyShop.bought
       (NiftyShop.new_buy_loop (P := Demo.platform) Aditi ["HDFC"] Demo.borderline)
     = []
  /\ exists outcome,
      NiftyShop.initiate_buy
        (S := Pd.insertion_sorting) (P := Demo.platform)
        Aditi ["HDFC"] Demo.borderline = Ok outcome
      /\ NiftyShop.new_buys outcome = [].
Proof.
  assert (Hrec : Forall (entry_recorded Aditi) Demo.borderline).
  { repeat constructor; intros _ _ _; discriminate. }
  split; [exact insertion_sorting_spec|].
  split; [reflexivity|]. split; [vm_compute; reflexivity|].
  split; [exact Hrec|].
  split; [reflexivity|].
  destruct (averaging_buys_furthest_fallen_after_rounding
              insertion_sorting_spec (P := Demo.platform)
              Aditi ["HDFC"] Demo.borderline Hrec eq_refl)
    as (_ & _ & _ & outcome & Hout & Hnew & _).
  exists outcome. split; [exact Hout|exact Hnew].
Defined.

(** ** C10 *)

Lemma nonempty_or_default {A : Type} (l : list A) (x : A) (d : list A) :
  match l ++ [x] with [] => d | _ => l ++ [x] end = l ++ [x].
Proof. now destruct l. Qed.

Section DashboardFacts.

Context {S : Pd.Sorting} (Spec : Pd.SortingSpec S) {F : App.Feed}.

(** The first loop only ever adds [BUY] lines. *)
Lemma buy_loop_only_buys (held : list string) (max_buys_per_day : Z)
      (eligible : list App.Screened) (st : list App.Decision * Z) :
  Forall (fun d => exists stock, d = App.BUY stock) (fst st) ->
  Forall (fun d => exists stock, d = App.BUY stock)
         (fst (fold_left (App.buy_step held max_buys_per_day) eligible st)).
Proof.
  revert st. induction eligible as [|row eligible IH]; intros [ds n] H; simpl.
  - exact H.
  - apply IH. simpl in H. unfold App.buy_step.
    destruct (_ && _); simpl; [|exact H].
    apply Forall_app. split; [exact H|].
    constructor; [eauto|constructor].
Qed.

Lemma potential_avg_In (eligible : list App.Screened) (averaging_pct : Q)
      (holdings : list App.Exported) (s : string) (c : Q) :
  In (s, c) (App.potential_avg eligible averaging_pct holdings) ->
  exists e h,
    In e eligible /\ In h holdings
    /\ App.Symbol e = s /\ App.csv_Symbol h = s
    /\ App.change_pct (App.CMP e) (App.csv_Entry h) = Some c
    /\ c <= averaging_pct.
Proof.
  unfold App.potential_avg. rewrite in_flat_map.
  intros (h & Hh & Hin).
  destruct (filter (fun e => App.Symbol e =? App.csv_Symbol h) eligible)
    as [|e rest] eqn:Hf; [destruct Hin|].
  assert (He : In e (filter (fun e => App.Symbol e =? App.csv_Symbol h) eligible))
    by (rewrite Hf; now left).
  apply filter_In in He. destruct He as [He Hs]. apply String.eqb_eq in Hs.
  destruct (App.change_pct (App.CMP e) (App.csv_Entry h)) as [c'|] eqn:Hc;
    [|destruct Hin].
  destruct (Qle_bool c' averaging_pct) eqn:Hle; [|destruct Hin].
  destruct Hin as [E|[]]. injection E as <- <-.
  exists e, h. apply Qle_bool_iff in Hle. repeat split; auto.
Qed.

End DashboardFacts.

(** C10.  In the dashboard, every [AVERAGE] recommendation is for a held
    symbol that has a row in the screening table, and its change is
    computed from the [CMP] of that row; so a held symbol that the
    screening did not return is never recommended for averaging, whatever
    its entry price. *)
Theorem dashboard_averages_only_screened_symbols
        {S : Pd.Sorting} (Spec : Pd.SortingSpec S) {F : App.Feed}
        (symbols : list string)
        (uploaded_file : option (result (list App.Exported)))
        (max_buys_per_day : Z) (averaging_pct : Q) :
  (forall s c,
      In (App.AVERAGE s c)
         (App.buy_decisions (App.get_eligible_stocks_for_today symbols)
                            (App.get_current_holdings uploaded_file)
                            max_buys_per_day averaging_pct) ->
      exists e h,
        In e (App.get_eligible_stocks_for_today symbols)
        /\ In h (App.get_current_holdings uploaded_file)
        /\ App.Symbol e = s /\ App.csv_Symbol h = s
        /\ App.change_pct (App.CMP e) (App.csv_Entry h) = Some c
        /\ c <= averaging_pct)
  /\ (forall s,
         In s (map App.csv_Symbol (App.get_current_holdings uploaded_file)) ->
         ~ In s (map App.Symbol (App.get_eligible_stocks_for_today symbols)) ->
         forall c,
           ~ In (App.AVERAGE s c)
                (App.buy_decisions (App.get_eligible_stocks_for_today symbols)
                                   (App.get_current_holdings uploaded_file)
                                   max_buys_per_day averaging_pct)).
Proof.
  set (eligible := App.get_eligible_stocks_for_today symbols).
  set (holdings := App.get_current_holdings uploaded_file).
  assert (Hmain : forall s c,
             In (App.AVERAGE s c)
                (App.buy_decisions eligible holdings max_buys_per_day averaging_pct) ->
             exists e h,
               In e eligible /\ In h holdings
               /\ App.Symbol e = s /\ App.csv_Symbol h = s
               /\ App.change_pct (App.CMP e) (App.csv_Entry h) = Some c
               /\ c <= averaging_pct).
  { intros s c. unfold App.buy_decisions.
    pose proof (buy_loop_only_buys (map App.csv_Symbol holdings) max_buys_per_day
                  eligible ([], 0%Z) (Forall_nil _)) as Hbuys.
    destruct (fold_left _ eligible ([], 0%Z)) as [decisions n]. simpl in Hbuys.
    assert (Hnot : ~ In (App.AVERAGE s c) decisions).
    { intros Hin. rewrite Forall_forall in Hbuys.
      destruct (Hbuys _ Hin) as [stock E]. discriminate. }
    destruct ((n =? 0)%Z && negb (is_None (hd_error eligible))
              && negb (is_None (hd_error holdings))).
    - destruct (App.potential_avg eligible averaging_pct holdings)
        as [|first rest] eqn:Hpot.
      + rewrite nonempty_or_default. intros Hin'.
        apply in_app_iff in Hin'. destruct Hin' as [Hin'|[E|[]]];
          [contradiction|discriminate].
      + set (sorted_rows := Pd.sort_values (string * Q) (fun r => Some (snd r))
                                           (first :: rest)).
        assert (Hhd : In (hd first sorted_rows) (first :: rest)).
        { pose proof (Pd.sort_values_perm (string * Q) (fun r => Some (snd r))
                        (first :: rest)) as HP.
          fold sorted_rows in HP.
          destruct sorted_rows as [|x xs]; cbn [hd].
          - now left.
          - eapply Permutation_in; [symmetry; exact HP|now left]. }
        rewrite nonempty_or_default. fold sorted_rows. intros Hin'.
        apply in_app_iff in Hin'. destruct Hin' as [Hin'|[E|[]]]; [contradiction|].
        injection E as <- <-.
        apply (potential_avg_In eligible averaging_pct holdings).
        rewrite Hpot. now destruct (hd first sorted_rows).
    - intros Hin.
      destruct decisions; [|contradiction].
      destruct Hin as [E|[]]. discriminate. }
  split; [exact Hmain|].
  intros s _ Hnot c Hin.
  destruct (Hmain s c Hin) as (e & _ & He & _ & Hs & _).
  apply Hnot. apply in_map_iff. now exists e.
Qed.

Lemma dashboard_averages_only_screened_symbols_witness :
  Pd.SortingSpec Pd.insertion_sorting
  /\ map App.Symbol
       (App.get_eligible_stocks_for_today
          (S := Pd.insertion_sorting) (F := Demo.feed) ["INFY"; "ITC"])
     = ["INFY"]
  /\ map App.csv_Symbol (App.get_current_holdings (Some (Ok Demo.export)))
     = ["INFY"; "WIPRO"]
  /\ forall c,
      ~ In (App.AVERAGE "WIPRO" c)
           (App.buy_decisions
              (S := Pd.insertion_sorting)
              (App.get_eligible_stocks_for_today
                 (S := Pd.insertion_sorting) (F := Demo.feed) ["INFY"; "ITC"])
              (App.get_current_holdings (Some (Ok Demo.export)))
              1 (- (5))).
Proof.
  split; [exact insertion_sorting_spec|].
  split; [reflexivity|]. split; [reflexivity|].
  apply (proj2 (dashboard_averages_only_screened_symbols
                  insertion_sorting_spec (F := Demo.feed)
                  ["INFY"; "ITC"] (Some (Ok Demo.export)) 1 (- (5)))
               "WIPRO").
  - right. now left.
  - vm_compute. intros [H|[]]. discriminate.
Defined.

(* ================================================================== *)
(** * Further properties *)

(** ** What the screening selects *)

Lemma firstn_below_skipn {A : Type} (R : A -> A -> Prop) (n : nat) (l : list A) :
  StronglySorted R l ->
  forall a b, In a (firstn n l) -> In b (skipn n l) -> R a b.
Proof.
  intros H. revert n.
  induction H as [|x l Hl IH Hx]; intros [|n] a b Ha Hb; simpl in *;
    try contradiction.
  destruct Ha as [<-|Ha].
  - rewrite Forall_forall in Hx. apply Hx.
    rewrite <- (firstn_skipn n l). apply in_or_app. now right.
  - eapply IH; eauto.
Qed.

Lemma firstn_length_min {A : Type} (n : nat) (l : list A) :
  List.length (firstn n l) = Nat.min n (List.length l).
Proof. apply length_firstn. Qed.



(** ** The indicator *)

Lemma valid_cells_Some (w : list (option Q)) (xs : list Q) :
  Pd.valid_cells w = Some xs <-> w = map Some xs.
Proof.
  revert xs. induction w as [|[x|] w IH]; intros xs; simpl.
  - split.
    + intros E. injection E as <-. reflexivity.
    + destruct xs; [reflexivity|discriminate].
  - destruct (Pd.valid_cells w) as [ys|] eqn:E.
    + split.
      * intros H. injection H as <-. simpl. f_equal. now apply IH.
      * destruct xs as [|y xs]; [discriminate|]. simpl. intros H.
        injection H as -> H. apply IH in H. congruence.
    + split; [discriminate|].
      destruct xs as [|y xs]; [discriminate|]. simpl. intros H.
      injection H as -> H. apply IH in H. discriminate.
  - split; [discriminate|]. destruct xs; discriminate.
Qed.

Lemma valid_cells_None (w : list (option Q)) :
  Pd.valid_cells w = None <-> In None w.
Proof.
  induction w as [|[x|] w IH]; simpl.
  - split; [discriminate|intros []].
  - destruct (Pd.valid_cells w) as [ys|].
    + split; [discriminate|]. intros [H|H]; [discriminate|].
      apply IH in H. discriminate.
    + split; [|reflexivity]. intros _. right. now apply IH.
  - split; [|reflexivity]. intros _. now left.
Qed.

Lemma iloc_last_app {A : Type} (l1 l2 : list A) :
  l2 <> [] -> Pd.iloc_last (l1 ++ l2) = Pd.iloc_last l2.
Proof.
  intros H. unfold Pd.iloc_last. rewrite rev_app_distr.
  destruct (rev l2) as [|x l] eqn:E; [|reflexivity].
  apply (f_equal (@rev A)) in E. rewrite rev_involutive in E. contradiction.
Qed.

Lemma iloc_last_map_Some (window : list Q) :
  window <> [] -> exists x, Pd.iloc_last (map Some window) = Ok (Some x).
Proof.
  intros H. unfold Pd.iloc_last. rewrite <- map_rev.
  destruct (rev window) as [|x l] eqn:E.
  - apply (f_equal (@rev Q)) in E. rewrite rev_involutive in E. contradiction.
  - simpl. eauto.
Qed.

Lemma sorted_frame_length {S : Pd.Sorting} (Spec : Pd.SortingSpec S)
      (df : Pd.DataFrame) :
  List.length (Pd.Close (sorted_by_date df)) = List.length (Pd.rows df).
Proof.
  unfold Pd.Close, sorted_by_date. simpl. rewrite length_map.
  symmetry. apply Permutation_length. apply Pd.sort_index_perm.
Qed.



(** ** The two screenings side by side *)

Lemma short_frame_has_no_average {S : Pd.Sorting} (Spec : Pd.SortingSpec S)
      (df : Pd.DataFrame) :
  (List.length (Pd.rows df) < 20)%nat -> latest_dma df = None.
Proof.
  intros H. unfold latest_dma, Pd.rolling_mean_last.
  rewrite (sorted_frame_length Spec df).
  now replace (List.length (Pd.rows df) <? 20)%nat with true
    by (symmetry; now apply Nat.ltb_lt).
Qed.

Lemma StronglySorted_map {A B : Type} (f : A -> B) (R : B -> B -> Prop)
      (l : list A) :
  StronglySorted (fun x y => R (f x) (f y)) l -> StronglySorted R (map f l).
Proof.
  induction 1 as [|x l Hl IH Hx]; simpl; constructor; [exact IH|].
  rewrite Forall_forall in *. intros y Hy.
  apply in_map_iff in Hy. destruct Hy as (z & <- & Hz). now apply Hx.
Qed.

Lemma drop_duplicated_unique (r : list (Z * option Q)) :
  NoDup (map fst r) -> Pd.drop_duplicated_keep_last r = r.
Proof.
  induction r as [|x r IH]; simpl; intros H; [reflexivity|].
  inversion H as [|? ? Hnin Hr]; subst.
  destruct (existsb (fun y => (fst y =? fst x)%Z) r) eqn:Ex.
  - exfalso. apply Hnin.
    apply existsb_exists in Ex. destruct Ex as (y & Hy & Heq).
    apply Z.eqb_eq in Heq. rewrite <- Heq. now apply in_map.
  - f_equal. now apply IH.
Qed.

Lemma same_download_same_frame {P : Platform} {F : App.Feed} (s : string) :
  same_download s -> dates_unique s ->
  App.get_historical_data s
  = match get_historical_data s with
    | Ok (Some df) => if Pd.empty df then None else Some df
    | _ => None
    end.
Proof.
  unfold same_download, dates_unique, App.get_historical_data.
  destruct (get_historical_data s) as [[df|]|e].
  - intros -> Hdates. destruct (Pd.empty df); [reflexivity|].
    rewrite (drop_duplicated_unique _ (Hdates df eq_refl)).
    now destruct df.
  - destruct (App.yf_download s) as [df|e]; [|reflexivity].
    now intros ->.
  - destruct (App.yf_download s) as [df|e']; [|reflexivity].
    now intros ->.
Qed.

Lemma same_data_same_contribution
      {S : Pd.Sorting} (Spec : Pd.SortingSpec S) {P : Platform} {F : App.Feed}
      (s : string) :
  same_download s -> dates_unique s ->
  map (fun r => (App.Symbol r, App.Deviation r)) (app_contribution s)
  = contribution s.
Proof.
  intros Hsame Hdates.
  pose proof (same_download_same_frame s Hsame Hdates) as Hframe.
  revert Hframe.
  unfold app_contribution, contribution, App.examine, NiftyShop.examine.
  destruct (get_historical_data s) as [[df|]|e]; simpl; intros ->;
    try reflexivity.
  destruct (Pd.empty df) eqn:He; simpl; [reflexivity|]. rewrite He. simpl.
  destruct (Pd.has_Close df); simpl; [|reflexivity].
  destruct (Nat.ltb_spec (List.length (Pd.rows df)) 20) as [Hlt|Hge].
  - rewrite (short_frame_has_no_average Spec df Hlt).
    now destruct (latest_close df).
  - destruct (latest_close df) as [[close|]|e]; simpl;
      destruct (latest_dma df) as [dma|]; simpl; try reflexivity.
    now destruct (Qlt_bool close dma).
Qed.


(** With a date that comes twice the two screenings can part: the
    strategy works on the twenty rows, the dashboard drops one and then
    finds too few. *)
Lemma repeated_date_is_screened_differently :
  same_download (P := Demo2.repeating_platform) (F := Demo2.repeating_feed)
                "INFY"
  /\ NiftyShop.get_eligible_stocks_for_today
       (S := Pd.insertion_sorting) (P := Demo2.repeating_platform) ["INFY"]
     = Some ["INFY"]
  /\ App.get_eligible_stocks_for_today
       (S := Pd.insertion_sorting) (F := Demo2.repeating_feed) ["INFY"]
     = [].
Proof. split; [reflexivity|]. split; reflexivity. Qed.


(** ** The frames the dashboard works on *)

Lemma drop_duplicated_In (r : list (Z * option Q)) (row : Z * option Q) :
  In row (Pd.drop_duplicated_keep_last r)
  <-> exists before after,
        r = before ++ row :: after /\ ~ In (fst row) (map fst after).
Proof.
  induction r as [|x r IH]; simpl.
  - split; [intros []|]. intros (before & after & E & _).
    destruct before; discriminate.
  - destruct (existsb (fun y => (fst y =? fst x)%Z) r) eqn:Ex.
    + rewrite IH. split.
      * intros (before & after & -> & Hlast).
        exists (x :: before), after. now split.
      * intros (before & after & E & Hlast).
        destruct before as [|b before]; simpl in E; injection E as <- ->.
        -- exfalso. apply Hlast.
           apply existsb_exists in Ex. destruct Ex as (y & Hy & Heq).
           apply Z.eqb_eq in Heq. rewrite <- Heq. now apply in_map.
        -- now exists before, after.
    + simpl. rewrite IH. split.
      * intros [<-|(before & after & -> & Hlast)].
        -- exists [], r. split; [reflexivity|].
           intros Hin. apply in_map_iff in Hin.
           destruct Hin as (y & Heq & Hy).
           assert (Ht : existsb (fun y => (fst y =? fst x)%Z) r = true).
           { apply existsb_exists. exists y. split; [exact Hy|].
             now apply Z.eqb_eq. }
           congruence.
        -- exists (x :: before), after. now split.
      * intros (before & after & E & Hlast).
        destruct before as [|b before]; simpl in E; injection E as <- ->.
        -- now left.
        -- right. now exists before, after.
Qed.

Lemma drop_duplicated_NoDup (r : list (Z * option Q)) :
  NoDup (map fst (Pd.drop_duplicated_keep_last r)).
Proof.
  induction r as [|x r IH]; simpl; [constructor|].
  destruct (existsb (fun y => (fst y =? fst x)%Z) r) eqn:Ex; [exact IH|].
  simpl. constructor; [|exact IH].
  intros Hin. apply in_map_iff in Hin. destruct Hin as (y & Heq & Hy).
  apply drop_duplicated_In in Hy.
  destruct Hy as (before & after & -> & _).
  assert (Ht : existsb (fun y => (fst y =? fst x)%Z) (before ++ y :: after)
               = true).
  { apply existsb_exists. exists y. split.
    - apply in_or_app. right. now left.
    - now apply Z.eqb_eq. }
  congruence.
Qed.

(** X4.  A frame the dashboard gets for a symbol is never empty and has
    every date once: of the downloaded rows exactly those stay that are
    the last of their date, and a download without repeated dates is
    handed on as it is. *)
Theorem dashboard_frames_keep_the_last_row_of_a_date
        {F : App.Feed} (symbol : string) (df : Pd.DataFrame) :
  App.get_historical_data symbol = Some df ->
  exists raw,
    App.yf_download symbol = Ok raw
    /\ Pd.has_Close df = Pd.has_Close raw
    /\ Pd.rows df <> []
    /\ NoDup (map fst (Pd.rows df))
    /\ (forall row,
           In row (Pd.rows df)
           <-> exists before after,
                 Pd.rows raw = before ++ row :: after
                 /\ ~ In (fst row) (map fst after))
    /\ (NoDup (map fst (Pd.rows raw)) -> Pd.rows df = Pd.rows raw).
Proof.
  unfold App.get_historical_data.
  destruct (App.yf_download symbol) as [raw|e]; [|discriminate].
  destruct (Pd.empty raw) eqn:He; [discriminate|].
  intros H. injection H as <-. simpl.
  exists raw. split; [reflexivity|]. split; [reflexivity|].
  split; [|split; [apply drop_duplicated_NoDup|split]].
  - unfold Pd.empty in He.
    destruct (Pd.rows raw) as [|x r] eqn:Er; [discriminate|].
    assert (Hlast : exists row before, x :: r = before ++ [row]).
    { destruct (exists_last (l := x :: r)) as (before & row & E);
        [discriminate|]. eauto. }
    destruct Hlast as (row & before & E). rewrite E.
    intros Hnil.
    assert (Hin : In row (Pd.drop_duplicated_keep_last (before ++ [row]))).
    { apply drop_duplicated_In. exists before, []. split; [reflexivity|].
      intros []. }
    rewrite Hnil in Hin. exact Hin.
  - intros row. apply drop_duplicated_In.
  - apply drop_duplicated_unique.
Qed.

Lemma dashboard_frames_keep_the_last_row_of_a_date_witness :
  App.get_historical_data (F := Demo.feed) "INFY" = Some (Demo.frame 100 80)
  /\ NoDup (map fst (Pd.rows (Demo.frame 100 80))).
Proof.
  split; [reflexivity|].
  destruct (dashboard_frames_keep_the_last_row_of_a_date
              (F := Demo.feed) "INFY" (Demo.frame 100 80) eq_refl)
    as (raw & _ & _ & _ & H & _).
  exact H.
Defined.

(** ** What the sell pass squares off *)

Lemma sell_candidate_inv {P : Platform} (self : Strategy)
      (k : string) (vs : list Trade) (c : string * Q * list Trade) :
  NiftyShop.sell_candidate self (k, vs) = Ok (Some c) ->
  NiftyShop.symbol_of c = k /\ NiftyShop.trades_of c = vs
  /\ target_pct self <= NiftyShop.pnl_of c.
Proof.
  unfold NiftyShop.sell_candidate.
  destruct (NiftyShop.total_qty vs =? 0)%Z; [discriminate|].
  destruct (get_cmp k) as [cmp|]; [|discriminate].
  destruct (Qeq_bool _ 0); [discriminate|]. cbv zeta.
  destruct (Qle_bool (target_pct self) _) eqn:Hq; [|discriminate].
  intros E. injection E as <-. simpl.
  apply Qle_bool_iff in Hq. auto.
Qed.

(** The candidates of a sell pass that did not raise: one per symbol at
    most, each with all the matching trades of its symbol. *)
Lemma sell_candidates_inv {S : Pd.Sorting} {P : Platform} (self : Strategy)
      (trades : list Trade) (candidates : list (string * Q * list Trade)) :
  NiftyShop.sell_candidates self trades = Ok candidates ->
  NoDup (map NiftyShop.symbol_of candidates)
  /\ forall c, In c candidates ->
               NiftyShop.trades_of c
               = holdings_of self trades (NiftyShop.symbol_of c)
               /\ NiftyShop.trades_of c <> []
               /\ target_pct self <= NiftyShop.pnl_of c.
Proof.
  unfold NiftyShop.sell_candidates.
  destruct (NiftyShop.build_symbol_trades self trades []) as [d|e] eqn:Hd;
    simpl; [|discriminate].
  apply build_symbol_trades_sound in Hd. subst d.
  intros H. apply for_collect_sound in H. destruct H as [-> _].
  split.
  - pose proof (NoDup_grouped self trades [] (NoDup_nil _)) as Hk.
    induction (grouped self trades []) as [|[k vs] d IH];
      cbn [flat_map map]; [constructor|].
    inversion Hk as [|? ? Hnin Hd]; subst.
    rewrite map_app. specialize (IH Hd).
    destruct (NiftyShop.sell_candidate self (k, vs)) as [[c|]|e] eqn:Hc;
      cbn [map app]; try exact IH.
    constructor; [|exact IH].
    destruct (sell_candidate_inv self k vs c Hc) as (-> & _).
    intros Hin. apply Hnin.
    apply in_map_iff in Hin. destruct Hin as (c' & Hs & Hc').
    apply in_flat_map in Hc'. destruct Hc' as ([k' vs'] & Hitem & Hc').
    destruct (NiftyShop.sell_candidate self (k', vs')) as [[c''|]|e] eqn:Hc'';
      simpl in Hc'; try contradiction.
    destruct Hc' as [<-|[]].
    destruct (sell_candidate_inv self k' vs' c'' Hc'') as (Hk' & _).
    apply in_map_iff. exists (k', vs'). split; [|exact Hitem].
    simpl. congruence.
  - intros c Hc. apply in_flat_map in Hc. destruct Hc as ([k vs] & Hitem & Hc).
    destruct (NiftyShop.sell_candidate self (k, vs)) as [[c'|]|e] eqn:Hc';
      simpl in Hc; try contradiction.
    destruct Hc as [<-|[]].
    destruct (sell_candidate_inv self k vs c' Hc') as (-> & -> & Hq).
    apply symbol_trades_items in Hitem. destruct Hitem as [-> Hne].
    auto.
Qed.

Lemma initiate_sell_inv {S : Pd.Sorting} {P : Platform} (self : Strategy)
      (trades : list Trade) (to_sell : list (string * Q * list Trade)) :
  NiftyShop.initiate_sell self trades = Ok to_sell ->
  exists candidates,
    NiftyShop.sell_candidates self trades = Ok candidates
    /\ to_sell = slice_to (max_sells_per_day self)
                          (sort_reverse NiftyShop.pnl_of candidates).
Proof.
  unfold NiftyShop.initiate_sell.
  destruct (NiftyShop.sell_candidates self trades) as [candidates|e];
    simpl; [|discriminate].
  intros H. exists candidates. split; [reflexivity|].
  destruct candidates; injection H as <-; [|reflexivity].
  unfold sort_reverse. simpl. now rewrite slice_to_nil.
Qed.

Lemma firstn_NoDup {A : Type} (n : nat) (l : list A) :
  NoDup l -> NoDup (firstn n l).
Proof.
  intros H. revert n.
  induction H as [|x l Hnin Hl IH]; intros [|n]; simpl; try constructor.
  - intros Hin. apply Hnin. eapply In_firstn. exact Hin.
  - apply IH.
Qed.

Lemma slice_to_NoDup {A : Type} (n : Z) (l : list A) :
  NoDup l -> NoDup (slice_to n l).
Proof. unfold slice_to. destruct (0 <=? n)%Z; apply firstn_NoDup. Qed.

Lemma slice_to_map {A B : Type} (f : A -> B) (n : Z) (l : list A) :
  map f (slice_to n l) = slice_to n (map f l).
Proof.
  unfold slice_to. rewrite length_map.
  destruct (0 <=? n)%Z; symmetry; apply firstn_map.
Qed.

(** X5.  A sell pass that returns exits in full: no symbol is sold twice,
    every entry to sell carries all the matching trades of its symbol,
    and the trades squared off are exactly the held trades (active, of
    this strategy, without target order, entry filled) of the symbols
    sold. *)
Theorem sold_symbols_are_exited_in_full
        {S : Pd.Sorting} {P : Platform}
        (self : Strategy) (trades : list Trade)
        (to_sell : list (string * Q * list Trade)) :
  NiftyShop.initiate_sell self trades = Ok to_sell ->
  NoDup (map NiftyShop.symbol_of to_sell)
  /\ (forall c, In c to_sell ->
                NiftyShop.trades_of c
                = holdings_of self trades (NiftyShop.symbol_of c)
                /\ NiftyShop.trades_of c <> [])
  /\ (forall t,
         In t (NiftyShop.squared_off to_sell)
         <-> In t trades /\ open_holding self t = true
             /\ In (tradingSymbol t) (map NiftyShop.symbol_of to_sell)).
Proof.
  intros H. apply initiate_sell_inv in H.
  destruct H as (candidates & Hc & ->).
  apply sell_candidates_inv in Hc. destruct Hc as [Hnodup Hall].
  assert (Hsub : forall c,
             In c (slice_to (max_sells_per_day self)
                            (sort_reverse NiftyShop.pnl_of candidates)) ->
             In c candidates).
  { intros c Hin. apply slice_to_In in Hin.
    eapply Permutation_in; [symmetry; apply sort_reverse_perm|exact Hin]. }
  split; [|split].
  - rewrite slice_to_map. apply slice_to_NoDup.
    eapply Permutation_NoDup; [|exact Hnodup].
    apply Permutation_map. apply sort_reverse_perm.
  - intros c Hin. destruct (Hall c (Hsub c Hin)) as (? & ? & _). auto.
  - intros t. unfold NiftyShop.squared_off. rewrite in_flat_map. split.
    + intros (c & Hin & Ht).
      destruct (Hall c (Hsub c Hin)) as (Hts & _).
      rewrite Hts in Ht. apply filter_In in Ht. destruct Ht as [Ht Hb].
      apply andb_true_iff in Hb. destruct Hb as [Hopen Hsym].
      apply String.eqb_eq in Hsym.
      split; [exact Ht|]. split; [exact Hopen|].
      rewrite Hsym. now apply in_map.
    + intros (Ht & Hopen & Hsym).
      apply in_map_iff in Hsym. destruct Hsym as (c & Hs & Hin).
      exists c. split; [exact Hin|].
      destruct (Hall c (Hsub c Hin)) as (-> & _).
      apply filter_In. split; [exact Ht|].
      apply andb_true_iff. split; [exact Hopen|].
      apply String.eqb_eq. congruence.
Qed.

Lemma sold_symbols_are_exited_in_full_witness :
  NiftyShop.initiate_sell (P := Demo.platform) Aditi Demo.winners
  = Ok [("INFY", 8, [Demo.lot "INFY" 100 10 2])]
  /\ NoDup (map NiftyShop.symbol_of
                [("INFY", 8, [Demo.lot "INFY" 100 10 2])]).
Proof.
  assert (H : NiftyShop.initiate_sell (P := Demo.platform) Aditi Demo.winners
              = Ok [("INFY", 8, [Demo.lot "INFY" 100 10 2])])
    by (vm_compute; reflexivity).
  split; [exact H|].
  exact (proj1 (sold_symbols_are_exited_in_full
                  (S := Pd.insertion_sorting) (P := Demo.platform)
                  Aditi Demo.winners _ H)).
Defined.

(** X6.  How many symbols a sell pass takes: with a cap that is not
    negative, the cap or the number of candidates, whichever is less (so
    none at all with a cap of 0); a negative cap is a slice bound counted
    from the end, and leaves out that many of the candidates with the
    lowest P&L. *)
Theorem number_of_symbols_sold
        {S : Pd.Sorting} {P : Platform}
        (self : Strategy) (trades : list Trade)
        (candidates : list (string * Q * list Trade)) :
  NiftyShop.sell_candidates self trades = Ok candidates ->
  exists to_sell,
    NiftyShop.initiate_sell self trades = Ok to_sell
    /\ ((0 <= max_sells_per_day self)%Z ->
        List.length to_sell
        = Nat.min (Z.to_nat (max_sells_per_day self)) (List.length candidates))
    /\ (max_sells_per_day self = 0%Z -> to_sell = [])
    /\ ((max_sells_per_day self < 0)%Z ->
        List.length to_sell
        = (List.length candidates - Z.to_nat (- max_sells_per_day self))%nat
        /\ forall kept dropped,
            In kept to_sell ->
            In dropped (skipn (List.length to_sell)
                              (sort_reverse NiftyShop.pnl_of candidates)) ->
            NiftyShop.pnl_of dropped <= NiftyShop.pnl_of kept).
Proof.
  intros Hc.
  exists (slice_to (max_sells_per_day self)
                   (sort_reverse NiftyShop.pnl_of candidates)).
  assert (Hlen : List.length (sort_reverse NiftyShop.pnl_of candidates)
                 = List.length candidates).
  { symmetry. apply Permutation_length. apply sort_reverse_perm. }
  split; [|split; [|split]].
  - unfold NiftyShop.initiate_sell. rewrite Hc. simpl.
    destruct candidates; [|reflexivity].
    unfold sort_reverse. simpl. now rewrite slice_to_nil.
  - intros Hmax. rewrite slice_to_nonneg by exact Hmax.
    now rewrite firstn_length_min, Hlen.
  - intros Hmax. rewrite Hmax. reflexivity.
  - intros Hmax. unfold slice_to.
    replace (0 <=? max_sells_per_day self)%Z with false
      by (symmetry; apply Z.leb_gt; lia).
    rewrite firstn_length_min, Hlen. split; [lia|].
    intros kept dropped Hk Hd.
    replace (Nat.min (List.length candidates
                      - Z.to_nat (- max_sells_per_day self))
                     (List.length candidates))
      with (List.length candidates - Z.to_nat (- max_sells_per_day self))%nat
      in Hd by lia.
    apply (firstn_below_skipn
             (fun a b => NiftyShop.pnl_of b <= NiftyShop.pnl_of a)
             (List.length candidates - Z.to_nat (- max_sells_per_day self))
             (sort_reverse NiftyShop.pnl_of candidates));
      [apply sort_reverse_sorted|exact Hk|exact Hd].
Qed.

Lemma number_of_symbols_sold_witness :
  exists candidates to_sell,
    NiftyShop.sell_candidates (P := Demo.platform) Aditi Demo.winners
    = Ok candidates
    /\ List.length candidates = 2%nat
    /\ NiftyShop.initiate_sell (P := Demo.platform) Aditi Demo.winners
       = Ok to_sell
    /\ List.length to_sell = 1%nat.
Proof.
  assert (Hc : NiftyShop.sell_candidates (P := Demo.platform) Aditi Demo.winners
               = Ok [("TCS", 6, [Demo.lot "TCS" 100 10 1]);
                     ("INFY", 8, [Demo.lot "INFY" 100 10 2])])
    by (vm_compute; reflexivity).
  destruct (number_of_symbols_sold
              (S := Pd.insertion_sorting) (P := Demo.platform)
              Aditi Demo.winners _ Hc)
    as (to_sell & Hsell & Hlen & _).
  eexists. exists to_sell. split; [exact Hc|]. split; [reflexivity|].
  split; [exact Hsell|].
  rewrite Hlen by (simpl; lia). reflexivity.
Defined.

(** ** How the passes fail *)

Lemma is_open_holding_raises (self : Strategy) (t : Trade) (e : exn) :
  NiftyShop.is_open_holding self t = Raise e
  <-> e = AttributeError
      /\ strategy t = name self /\ tradeState t = "active"
      /\ targetOrder t = None /\ entryOrder t = None.
Proof.
  unfold NiftyShop.is_open_holding, entryOrder_attr.
  destruct (String.eqb_spec (strategy t) (name self)) as [E1|E1]; simpl.
  2: { split; [discriminate|]. intros (_ & H & _). contradiction. }
  destruct (String.eqb_spec (tradeState t) "active") as [E2|E2]; simpl.
  2: { split; [discriminate|]. intros (_ & _ & H & _). contradiction. }
  destruct (targetOrder t) as [o|]; simpl.
  { split; [discriminate|]. intros (_ & _ & _ & H & _). discriminate. }
  destruct (entryOrder t) as [o|]; simpl.
  - split.
    + destruct (OrderStatus_eqb (Order.orderStatus o) COMPLETE); discriminate.
    + intros (_ & _ & _ & _ & H). discriminate.
  - split.
    + intros H. injection H as <-. auto.
    + intros (-> & _). reflexivity.
Qed.

Lemma build_symbol_trades_raises (self : Strategy) (trades : list Trade) d :
  (exists e, NiftyShop.build_symbol_trades self trades d = Raise e)
  <-> exists t,
        In t trades
        /\ strategy t = name self /\ tradeState t = "active"
        /\ targetOrder t = None /\ entryOrder t = None.
Proof.
  revert d. induction trades as [|t trades IH]; intros d; simpl.
  - split; [intros [e H]; discriminate|intros (t & [] & _)].
  - destruct (NiftyShop.is_open_holding self t) as [b|e] eqn:Ht; simpl.
    + rewrite IH. split.
      * intros (t' & Hin & Hn). exists t'. split; [now right|exact Hn].
      * intros (t' & [<-|Hin] & Hn); [|now exists t'].
        assert (Hr : NiftyShop.is_open_holding self t = Raise AttributeError)
          by (apply is_open_holding_raises; tauto).
        congruence.
    + split; [|eauto]. intros _.
      apply is_open_holding_raises in Ht.
      exists t. split; [now left|tauto].
Qed.

Lemma build_symbol_trades_raises_AttributeError
      (self : Strategy) (trades : list Trade) d (e : exn) :
  NiftyShop.build_symbol_trades self trades d = Raise e -> e = AttributeError.
Proof.
  revert d. induction trades as [|t trades IH]; intros d; simpl;
    [discriminate|].
  destruct (NiftyShop.is_open_holding self t) as [b|e'] eqn:Ht; simpl.
  - apply IH.
  - intros H. injection H as <-.
    now apply is_open_holding_raises in Ht.
Qed.

Lemma for_collect_raises {A B : Type} (body : A -> result (option B))
      (l : list A) (e : exn) :
  for_collect body l = Raise e -> exists x, In x l /\ body x = Raise e.
Proof.
  induction l as [|x l IH]; simpl; [discriminate|].
  destruct (body x) as [o|e'] eqn:Hx; simpl.
  - destruct (for_collect body l) as [rest|e''] eqn:Hl; simpl; [discriminate|].
    intros H. injection H as <-.
    destruct (IH eq_refl) as (y & Hy & Hb). exists y. split; [now right|exact Hb].
  - intros H. injection H as <-. exists x. split; [now left|exact Hx].
Qed.

Lemma comprehension_raises {A : Type} (cond : A -> result bool)
      (l : list A) :
  (exists e, comprehension cond l = Raise e)
  <-> exists x e, In x l /\ cond x = Raise e.
Proof.
  induction l as [|x l IH]; simpl.
  - split; [intros [e H]; discriminate|intros (x & e & [] & _)].
  - destruct (cond x) as [b|e] eqn:Hx; simpl.
    + destruct (comprehension cond l) as [rest|e'] eqn:Hl; simpl.
      * split; [intros [e H]; discriminate|].
        intros (y & e & [<-|Hy] & Hc); [congruence|].
        destruct (proj2 IH (ex_intro _ y (ex_intro _ e (conj Hy Hc))))
          as [e'' H'']. discriminate.
      * split; [|eauto]. intros _.
        destruct (proj1 IH (ex_intro _ e' eq_refl)) as (y & e & Hy & Hc).
        exists y, e. split; [now right|exact Hc].
    + split; [|eauto]. intros _. exists x, e. split; [now left|exact Hx].
Qed.

Lemma comprehension_raises_which {A : Type} (cond : A -> result bool)
      (l : list A) (e : exn) :
  comprehension cond l = Raise e -> exists x, In x l /\ cond x = Raise e.
Proof.
  induction l as [|x l IH]; simpl; [discriminate|].
  destruct (cond x) as [b|e'] eqn:Hx; simpl.
  - destruct (comprehension cond l) as [rest|e''] eqn:Hl; simpl; [discriminate|].
    intros H. injection H as <-.
    destruct (IH eq_refl) as (y & Hy & Hb). exists y. split; [now right|exact Hb].
  - intros H. injection H as <-. exists x. split; [now left|exact Hx].
Qed.

Lemma for_collect_raises_some {A B : Type} (body : A -> result (option B))
      (l : list A) :
  (exists x e, In x l /\ body x = Raise e) ->
  exists e, for_collect body l = Raise e.
Proof.
  induction l as [|x l IH]; simpl.
  - intros (x & e & [] & _).
  - intros (y & e & Hy & Hb).
    destruct (body x) as [o|e'] eqn:Hx; simpl; [|eauto].
    destruct Hy as [<-|Hy]; [congruence|].
    destruct (IH (ex_intro _ y (ex_intro _ e (conj Hy Hb)))) as [e'' ->].
    simpl. eauto.
Qed.

Lemma sell_candidate_raises {P : Platform} (self : Strategy)
      (k : string) (vs : list Trade) (e : exn) :
  NiftyShop.sell_candidate self (k, vs) = Raise e
  <-> e = ZeroDivisionError
      /\ NiftyShop.total_qty vs <> 0%Z
      /\ exists cmp,
          get_cmp k = Some cmp
          /\ inject_Z (NiftyShop.total_qty vs) * NiftyShop.weighted_entry vs == 0.
Proof.
  assert (Hinv : NiftyShop.total_qty vs <> 0%Z ->
                 (F64.mul (F64.of_int (NiftyShop.total_qty vs))
                          (NiftyShop.weighted_entry vs) == 0
                  <-> inject_Z (NiftyShop.total_qty vs)
                      * NiftyShop.weighted_entry vs == 0)).
  { intros E. rewrite (invested_zero vs E). split.
    - intros H. rewrite H. ring.
    - intros H. apply Qmult_integral in H. destruct H as [H|H]; [|exact H].
      exfalso. apply E. now apply inject_Z_injective. }
  rewrite sell_candidate_eq.
  destruct (Z.eqb_spec (NiftyShop.total_qty vs) 0) as [E|E].
  { split; [discriminate|]. intros (_ & H & _). contradiction. }
  destruct (get_cmp k) as [cmp|].
  2: { split; [discriminate|]. intros (_ & _ & cmp & H & _). discriminate. }
  destruct (Qeq_bool _ 0) eqn:Hz.
  - apply Qeq_bool_eq in Hz. apply (Hinv E) in Hz. split.
    + intros H. injection H as <-. split; [reflexivity|].
      split; [exact E|]. now exists cmp.
    + intros (-> & _). reflexivity.
  - apply Qeq_bool_neq in Hz. cbv zeta. split.
    + destruct (Qle_bool _ _); discriminate.
    + intros (_ & _ & cmp' & Hc & Hz'). injection Hc as <-.
      apply (Hinv E) in Hz'. contradiction.
Qed.

(** X7.  The unguarded [entryOrder] access.  The sell pass raises
    [AttributeError] exactly when the ledger has an active trade of the
    strategy without target order whose entry order is [None]; on such a
    ledger the buy pass raises it as well once its first loop has bought
    nothing, and returns normally when that loop did buy. *)
Theorem missing_entry_order_stops_the_passes
        {S : Pd.Sorting} {P : Platform}
        (self : Strategy) (trades : list Trade) :
  (NiftyShop.initiate_sell self trades = Raise AttributeError
   <-> exists t,
         In t trades
         /\ strategy t = name self /\ tradeState t = "active"
         /\ targetOrder t = None /\ entryOrder t = None)
  /\ (forall stock_list,
         NiftyShop.bought (NiftyShop.new_buy_loop self stock_list trades) = [] ->
         (NiftyShop.initiate_buy self stock_list trades = Raise AttributeError
          <-> exists t,
                In t trades
                /\ strategy t = name self /\ tradeState t = "active"
                /\ targetOrder t = None /\ entryOrder t = None))
  /\ (forall stock_list,
         NiftyShop.bought (NiftyShop.new_buy_loop self stock_list trades) <> [] ->
         exists outcome,
           NiftyShop.initiate_buy self stock_list trades = Ok outcome).
Proof.
  split; [|split].
  - unfold NiftyShop.initiate_sell, NiftyShop.sell_candidates.
    rewrite <- (build_symbol_trades_raises self trades []).
    destruct (NiftyShop.build_symbol_trades self trades []) as [d|e] eqn:Hb;
      simpl.
    + split; [|intros [e H]; discriminate].
      destruct (for_collect (NiftyShop.sell_candidate self) d) as [cs|e] eqn:Hf;
        simpl.
      * destruct cs; discriminate.
      * intros H. injection H as ->.
        apply for_collect_raises in Hf. destruct Hf as ([k vs] & _ & Hr).
        apply sell_candidate_raises in Hr. destruct Hr as [Hr _].
        discriminate.
    + split; [eauto|]. intros _.
      now rewrite (build_symbol_trades_raises_AttributeError _ _ _ _ Hb).
  - intros stock_list Hnone.
    assert (Hst : NiftyShop.new_buy_loop self stock_list trades
                  = {| NiftyShop.ledger := trades;
                       NiftyShop.new_stocks_bought := 0;
                       NiftyShop.bought := [] |}).
    { apply nothing_bought_ledger_untouched.
      rewrite new_buy_loop_counts, Hnone. reflexivity. }
    unfold NiftyShop.initiate_buy, NiftyShop.holding_rows.
    rewrite Hst. simpl.
    destruct (comprehension (NiftyShop.is_open_holding self) trades)
      as [kept|e] eqn:Hc; simpl.
    + split.
      * destruct (map _ kept); [discriminate|].
        destruct (NiftyShop.averaging_candidates self trades _); discriminate.
      * intros (t & Ht & H).
        assert (Hr : exists e, comprehension (NiftyShop.is_open_holding self)
                                             trades = Raise e).
        { apply comprehension_raises. exists t, AttributeError.
          split; [exact Ht|]. apply is_open_holding_raises. tauto. }
        destruct Hr as [e Hr]. congruence.
    + apply comprehension_raises_which in Hc.
      destruct Hc as (t & Ht & Hr).
      apply is_open_holding_raises in Hr. destruct Hr as (-> & Hr).
      split; [|reflexivity]. intros _. now exists t.
  - intros stock_list Hne.
    unfold NiftyShop.initiate_buy.
    replace (0 <? _)%Z with true; [eauto|].
    symmetry. apply Z.ltb_lt. rewrite new_buy_loop_counts.
    destruct (NiftyShop.bought _); [congruence|]. simpl. lia.
Qed.

(** X8.  The division by the invested amount.  The sell pass raises
    [ZeroDivisionError] exactly when no entry order is missing and some
    symbol with matching trades, a non-zero total quantity and a quote
    has a zero invested amount (total quantity times weighted entry), as
    with an entry price of 0. *)
Theorem zero_invested_amount_stops_the_sell_pass
        {S : Pd.Sorting} {P : Platform}
        (self : Strategy) (trades : list Trade) :
  NiftyShop.initiate_sell self trades = Raise ZeroDivisionError
  <-> (forall t, In t trades -> entry_recorded self t)
      /\ exists symbol cmp,
          NiftyShop.total_qty (holdings_of self trades symbol) <> 0%Z
          /\ get_cmp symbol = Some cmp
          /\ inject_Z (NiftyShop.total_qty (holdings_of self trades symbol))
             * NiftyShop.weighted_entry (holdings_of self trades symbol) == 0.
Proof.
  unfold NiftyShop.initiate_sell, NiftyShop.sell_candidates. split.
  - destruct (NiftyShop.build_symbol_trades self trades []) as [d|e] eqn:Hb;
      simpl.
    + pose proof (build_symbol_trades_sound self trades [] d Hb) as ->.
      destruct (for_collect (NiftyShop.sell_candidate self) _) as [cs|e] eqn:Hf;
        simpl; [destruct cs; discriminate|].
      intros H. injection H as ->. split.
      * intros t Ht E1 E2 E3 E4.
        assert (Hr : exists e, NiftyShop.build_symbol_trades self trades []
                               = Raise e)
          by (apply build_symbol_trades_raises; exists t; auto).
        destruct Hr as [e Hr]. congruence.
      * apply for_collect_raises in Hf. destruct Hf as ([k vs] & Hin & Hr).
        apply symbol_trades_items in Hin. destruct Hin as [-> _].
        apply sell_candidate_raises in Hr.
        destruct Hr as (_ & Hq & cmp & Hc & Hz).
        now exists k, cmp.
    + intros H. injection H as ->.
      apply build_symbol_trades_raises_AttributeError in Hb. discriminate.
  - intros (Hrec & symbol & cmp & Hq & Hc & Hz).
    rewrite (build_symbol_trades_grouped self trades [])
      by (apply Forall_forall; exact Hrec).
    simpl.
    assert (Hin : In (symbol, holdings_of self trades symbol)
                     (grouped self trades [])).
    { apply symbol_trades_items. split; [reflexivity|].
      intros Hnil. apply Hq. now rewrite Hnil. }
    assert (Hr : NiftyShop.sell_candidate
                   self (symbol, holdings_of self trades symbol)
                 = Raise ZeroDivisionError).
    { apply sell_candidate_raises. split; [reflexivity|].
      split; [exact Hq|]. now exists cmp. }
    destruct (for_collect_raises_some (NiftyShop.sell_candidate self)
                (grouped self trades []))
      as [e He]; [eauto|].
    rewrite He. simpl.
    apply for_collect_raises in He. destruct He as ([k vs] & _ & He).
    apply sell_candidate_raises in He. destruct He as [-> _]. reflexivity.
Qed.

Lemma missing_entry_order_stops_the_passes_witness :
  In Demo2.orphan (Demo.winners ++ [Demo2.orphan])
  /\ NiftyShop.initiate_sell
       (P := Demo.platform) Aditi (Demo.winners ++ [Demo2.orphan])
     = Raise AttributeError.
Proof.
  assert (Hin : In Demo2.orphan (Demo.winners ++ [Demo2.orphan]))
    by (right; right; now left).
  split; [exact Hin|].
  apply (proj1 (missing_entry_order_stops_the_passes
                  (S := Pd.insertion_sorting) (P := Demo.platform)
                  Aditi (Demo.winners ++ [Demo2.orphan]))).
  exists Demo2.orphan. repeat split; [exact Hin].
Defined.

Lemma zero_invested_amount_stops_the_sell_pass_witness :
  (forall t, In t Demo2.unpriced -> entry_recorded Aditi t)
  /\ NiftyShop.initiate_sell (P := Demo.platform) Aditi Demo2.unpriced
     = Raise ZeroDivisionError.
Proof.
  assert (Hrec : forall t, In t Demo2.unpriced -> entry_recorded Aditi t).
  { intros t [<-|[]] _ _ _. discriminate. }
  split; [exact Hrec|].
  apply (proj2 (zero_invested_amount_stops_the_sell_pass
                  (S := Pd.insertion_sorting) (P := Demo.platform)
                  Aditi Demo2.unpriced)).
  split; [exact Hrec|].
  exists "INFY", 108. split; [discriminate|]. split; reflexivity.
Defined.

(** ** The first loop of the buy pass, again *)

Section BuyLoopBounds.

Context {S : Pd.Sorting} {P : Platform}.
Variable self : Strategy.

Lemma buy_loop_bounds (l : list string) (st : NiftyShop.BuyLoop) :
  (NiftyShop.new_stocks_bought (fold_left (NiftyShop.buy_step self) l st)
   <= Z.max (NiftyShop.new_stocks_bought st) (max_buys_per_day self))%Z
  /\ forall s,
      In s (NiftyShop.bought (fold_left (NiftyShop.buy_step self) l st)) ->
      In s (NiftyShop.bought st) \/ In s l.
Proof.
  revert st. induction l as [|stock l IH]; intros st; simpl.
  - split; [lia|auto].
  - destruct (IH (NiftyShop.buy_step self st stock)) as [IH1 IH2].
    unfold NiftyShop.buy_step in *.
    destruct (negb (NiftyShop.already_held self (NiftyShop.ledger st) stock))
      eqn:Hheld; simpl in *.
    + destruct (Z.ltb_spec (NiftyShop.new_stocks_bought st)
                           (max_buys_per_day self)) as [Hlt|Hge]; simpl in *.
      * split; [lia|]. intros s Hs.
        destruct (IH2 s Hs) as [Hin|Hin]; [|auto].
        apply in_app_iff in Hin. destruct Hin as [Hin|[<-|[]]]; auto.
      * split; [exact IH1|]. intros s Hs.
        destruct (IH2 s Hs); auto.
    + split; [exact IH1|]. intros s Hs. destruct (IH2 s Hs); auto.
Qed.

(** The loop when placing an order leaves what is held as it is. *)
Lemma buy_loop_exact (l : list string) (st : NiftyShop.BuyLoop)
      (trades : list Trade) :
  (forall stock ledger s,
      NiftyShop.already_held self (place_new_trade stock ledger) s
      = NiftyShop.already_held self ledger s) ->
  (forall s, NiftyShop.already_held self (NiftyShop.ledger st) s
             = NiftyShop.already_held self trades s) ->
  NiftyShop.bought (fold_left (NiftyShop.buy_step self) l st)
  = NiftyShop.bought st
    ++ firstn (Z.to_nat (max_buys_per_day self - NiftyShop.new_stocks_bought st))
              (filter (fun s => negb (NiftyShop.already_held self trades s)) l).
Proof.
  intros Hplace. revert st.
  induction l as [|stock l IH]; intros st Hst; simpl.
  - now rewrite firstn_nil, app_nil_r.
  - unfold NiftyShop.buy_step at 2. rewrite (Hst stock).
    destruct (NiftyShop.already_held self trades stock); simpl.
    + now apply IH.
    + destruct (Z.ltb_spec (NiftyShop.new_stocks_bought st)
                           (max_buys_per_day self)) as [Hlt|Hge].
      * rewrite IH by (intros s; simpl; now rewrite Hplace). simpl.
        rewrite <- app_assoc. simpl.
        replace (Z.to_nat (max_buys_per_day self - NiftyShop.new_stocks_bought st))
          with (Datatypes.S
                  (Z.to_nat (max_buys_per_day self
                             - (NiftyShop.new_stocks_bought st + 1))))
          by lia.
        reflexivity.
      * rewrite IH by exact Hst.
        now replace (Z.to_nat (max_buys_per_day self
                               - NiftyShop.new_stocks_bought st))
          with 0%nat by lia.
Qed.

End BuyLoopBounds.

(** X10.  The first loop of the buy pass buys only symbols of the list it
    was given, never more of them than [max_buys_per_day], and nothing
    (leaving the ledger alone) when that cap is 0 or negative. *)
Theorem new_buys_are_capped
        {S : Pd.Sorting} {P : Platform}
        (self : Strategy) (stock_list : list string) (trades : list Trade) :
  (Z.of_nat (List.length
               (NiftyShop.bought (NiftyShop.new_buy_loop self stock_list trades)))
   <= Z.max 0 (max_buys_per_day self))%Z
  /\ incl (NiftyShop.bought (NiftyShop.new_buy_loop self stock_list trades))
          stock_list
  /\ ((max_buys_per_day self <= 0)%Z ->
      NiftyShop.bought (NiftyShop.new_buy_loop self stock_list trades) = []
      /\ NiftyShop.ledger (NiftyShop.new_buy_loop self stock_list trades)
         = trades).
Proof.
  pose proof (new_buy_loop_counts self stock_list trades) as Hcount.
  destruct (buy_loop_bounds self stock_list
              {| NiftyShop.ledger := trades;
                 NiftyShop.new_stocks_bought := 0;
                 NiftyShop.bought := [] |}) as [Hle Hin].
  fold (NiftyShop.new_buy_loop self stock_list trades) in Hle, Hin.
  simpl in Hle, Hin.
  split; [lia|]. split.
  - intros s Hs. destruct (Hin s Hs) as [[]|H]. exact H.
  - intros Hmax.
    assert (Hz : NiftyShop.new_stocks_bought
                   (NiftyShop.new_buy_loop self stock_list trades) = 0%Z) by lia.
    rewrite (nothing_bought_ledger_untouched self stock_list trades Hz).
    split; reflexivity.
Qed.

Lemma new_buys_are_capped_witness :
  (max_buys_per_day
     {| name := "Aditi"; investment_first_buy := 15000;
        investment_averaging := 7500; target_pct := 5;
        averaging_pct := - (5); max_buys_per_day := 0;
        max_sells_per_day := 1; max_averaging_per_stock := 3 |} <= 0)%Z
  /\ NiftyShop.bought
       (NiftyShop.new_buy_loop
          (P := Demo.platform)
          {| name := "Aditi"; investment_first_buy := 15000;
             investment_averaging := 7500; target_pct := 5;
             averaging_pct := - (5); max_buys_per_day := 0;
             max_sells_per_day := 1; max_averaging_per_stock := 3 |}
          ["INFY"; "TCS"] Demo.fallen) = [].
Proof.
  split; [simpl; lia|].
  apply (proj2 (proj2 (new_buys_are_capped
                         (S := Pd.insertion_sorting) (P := Demo.platform)
                         _ ["INFY"; "TCS"] Demo.fallen))).
  simpl. lia.
Defined.

(** X11.  On a platform where placing an order does not change which
    symbols count as held (the new trade is not active yet), the new
    buys are the first [max_buys_per_day] symbols of the list that are
    not held, in the order of the list. *)
Theorem new_buys_are_the_first_unheld
        {S : Pd.Sorting} {P : Platform}
        (self : Strategy) (stock_list : list string) (trades : list Trade) :
  (forall stock ledger s,
      NiftyShop.already_held self (place_new_trade stock ledger) s
      = NiftyShop.already_held self ledger s) ->
  NiftyShop.bought (NiftyShop.new_buy_loop self stock_list trades)
  = firstn (Z.to_nat (max_buys_per_day self))
           (filter (fun s => negb (NiftyShop.already_held self trades s))
                   stock_list).
Proof.
  intros Hplace. unfold NiftyShop.new_buy_loop.
  rewrite (buy_loop_exact self stock_list _ trades Hplace) by reflexivity.
  simpl. now rewrite Z.sub_0_r.
Qed.

Lemma new_buys_are_the_first_unheld_witness :
  (forall stock ledger s,
      NiftyShop.already_held Aditi
        (place_new_trade (Platform := Demo.platform) stock ledger) s
      = NiftyShop.already_held Aditi ledger s)
  /\ NiftyShop.bought
       (NiftyShop.new_buy_loop (P := Demo.platform) Aditi
                               ["WIPRO"; "INFY"; "TCS"] Demo.fallen)
     = ["INFY"].
Proof.
  assert (Hplace : forall stock ledger s,
             NiftyShop.already_held Aditi
               (place_new_trade (Platform := Demo.platform) stock ledger) s
             = NiftyShop.already_held Aditi ledger s).
  { intros stock ledger s. unfold NiftyShop.already_held. simpl.
    rewrite filter_app. simpl. now rewrite app_nil_r. }
  split; [exact Hplace|].
  rewrite (new_buys_are_the_first_unheld
             (S := Pd.insertion_sorting) (P := Demo.platform)
             Aditi ["WIPRO"; "INFY"; "TCS"] Demo.fallen Hplace).
  reflexivity.
Defined.

(** ** The averaging block, again *)

Lemma comprehension_sound {A : Type} (cond : A -> result bool) (f : A -> bool)
      (l kept : list A) :
  (forall x b, cond x = Ok b -> b = f x) ->
  comprehension cond l = Ok kept -> kept = filter f l.
Proof.
  intros Hf. revert kept. induction l as [|x l IH]; intros kept; simpl.
  - congruence.
  - destruct (cond x) as [b|e] eqn:Hx; simpl; [|discriminate].
    destruct (comprehension cond l) as [rest|e]; simpl; [|discriminate].
    intros H. injection H as <-.
    rewrite <- (Hf x b Hx), <- (IH rest eq_refl). reflexivity.
Qed.

Lemma holding_rows_sound (self : Strategy) (trades : list Trade)
      (rows : list NiftyShop.Holding) :
  NiftyShop.holding_rows self trades = Ok rows -> rows = held_rows self trades.
Proof.
  unfold NiftyShop.holding_rows, held_rows.
  destruct (comprehension (NiftyShop.is_open_holding self) trades)
    as [kept|e] eqn:Hc; simpl; [|discriminate].
  intros H. injection H as <-.
  now rewrite (comprehension_sound _ (open_holding self) trades kept
                 (is_open_holding_sound self) Hc).
Qed.

(** What an averaging buy was chosen from: the latest held lot of its
    symbol, with a quote, a rounded change at or below the threshold and
    a count below the cap. *)
Lemma averaging_buy_inv
      {S : Pd.Sorting} (Spec : Pd.SortingSpec S) {P : Platform}
      (self : Strategy) (stock_list : list string) (trades : list Trade)
      (outcome : NiftyShop.BuyOutcome) (s : string) :
  NiftyShop.initiate_buy self stock_list trades = Ok outcome ->
  NiftyShop.averaging_buy outcome = Some s ->
  exists h change,
    NiftyShop.Symbol h = s /\ averaging_candidate self trades h change.
Proof.
  unfold NiftyShop.initiate_buy.
  destruct (0 <? _)%Z eqn:Hpos.
  { intros E. injection E as <-. discriminate. }
  rewrite (averaging_reads_initial_ledger self stock_list trades Hpos). simpl.
  destruct (NiftyShop.holding_rows self trades) as [rows|e] eqn:Hrows; simpl;
    [|discriminate].
  apply holding_rows_sound in Hrows. subst rows.
  destruct (held_rows self trades) as [|row rows] eqn:Hheld.
  { intros E. injection E as <-. discriminate. }
  rewrite <- Hheld.
  destruct (NiftyShop.averaging_candidates self trades (held_rows self trades))
    as [|r rest] eqn:Hc.
  { intros E. injection E as <-. discriminate. }
  intros E. injection E as <-. simpl. intros Hs. injection Hs as <-.
  assert (Hr : In r (NiftyShop.averaging_candidates
                       self trades (held_rows self trades)))
    by (rewrite Hc; now left).
  apply (averaging_candidates_In Spec) in Hr.
  destruct Hr as (change & _ & _ & Hcand).
  now exists (NiftyShop.holding r), change.
Qed.

Lemma latest_purchase_is_held (self : Strategy) (trades : list Trade)
      (h : NiftyShop.Holding) :
  In h (NiftyShop.latest_purchase (held_rows self trades)) ->
  exists t,
    In t trades /\ open_holding self t = true
    /\ tradingSymbol t = NiftyShop.Symbol h
    /\ entry t = NiftyShop.LastBuyPrice h.
Proof.
  intros Hh. apply latest_purchase_In in Hh. destruct Hh as [Hin _].
  unfold held_rows in Hin. apply in_map_iff in Hin.
  destruct Hin as (t & <- & Ht). apply filter_In in Ht.
  destruct Ht as [Ht Hopen]. exists t. simpl. auto.
Qed.

(** X12.  The averaging count includes the first buy: a long holding
    counts for its own symbol.  So with [max_averaging_per_stock] at 1 or
    less, a strategy whose holdings are all long never places an
    averaging buy. *)
Theorem first_buy_counts_towards_the_cap
        {S : Pd.Sorting} (Spec : Pd.SortingSpec S) {P : Platform}
        (self : Strategy) (trades : list Trade) :
  (forall t, In t trades -> open_holding self t = true -> direction t = LONG) ->
  (forall t, In t trades -> open_holding self t = true ->
             (1 <= NiftyShop._current_averaging_count
                     self trades (tradingSymbol t))%Z)
  /\ ((max_averaging_per_stock self <= 1)%Z ->
      forall stock_list outcome,
        NiftyShop.initiate_buy self stock_list trades = Ok outcome ->
        NiftyShop.averaging_buy outcome = None).
Proof.
  intros Hlong.
  assert (Hcount : forall t, In t trades -> open_holding self t = true ->
                             (1 <= NiftyShop._current_averaging_count
                                     self trades (tradingSymbol t))%Z).
  { intros t Ht Hopen. unfold NiftyShop._current_averaging_count.
    rewrite sumZ_ones.
    assert (Hin : In t (filter (NiftyShop.counts_as_entry
                                  self (tradingSymbol t)) trades)).
    { apply filter_In. split; [exact Ht|].
      unfold NiftyShop.counts_as_entry.
      rewrite (Hlong t Ht Hopen). unfold open_holding in Hopen.
      apply andb_true_iff in Hopen. destruct Hopen as [Hopen Horder].
      apply andb_true_iff in Hopen. destruct Hopen as [Hopen _].
      apply andb_true_iff in Hopen. destruct Hopen as [Hstrat _].
      rewrite Hstrat, String.eqb_refl. simpl.
      destruct (entryOrder t); [exact Horder|discriminate]. }
    destruct (filter _ trades); [destruct Hin|]. simpl List.length. lia. }
  split; [exact Hcount|].
  intros Hcap stock_list outcome Hout.
  destruct (NiftyShop.averaging_buy outcome) as [s|] eqn:Hs; [|reflexivity].
  exfalso.
  destruct (averaging_buy_inv Spec self stock_list trades outcome s Hout Hs)
    as (h & change & <- & Hh & _ & _ & Hbelow).
  destruct (latest_purchase_is_held self trades h Hh)
    as (t & Ht & Hopen & Hsym & _).
  specialize (Hcount t Ht Hopen). rewrite Hsym in Hcount. lia.
Qed.

Lemma first_buy_counts_towards_the_cap_witness :
  Pd.SortingSpec Pd.insertion_sorting
  /\ (forall t, In t Demo.fallen -> open_holding Aditi t = true ->
                direction t = LONG)
  /\ (1 <= NiftyShop._current_averaging_count Aditi Demo.fallen "WIPRO")%Z.
Proof.
  assert (Hlong : forall t, In t Demo.fallen -> open_holding Aditi t = true ->
                            direction t = LONG).
  { intros t [<-|[]] _. reflexivity. }
  split; [exact insertion_sorting_spec|]. split; [exact Hlong|].
  apply (proj1 (first_buy_counts_towards_the_cap
                  insertion_sorting_spec (P := Demo.platform)
                  Aditi Demo.fallen Hlong)
               (Demo.lot "WIPRO" 100 10 1)).
  - now left.
  - reflexivity.
Defined.

(** X13.  An averaging buy is for a held symbol whose latest held lot
    (no held lot of the symbol has a later timestamp) has fallen far
    enough: the symbol has a quote, the entry price of that lot is not
    zero, the change from that entry price to the quote, as computed and
    rounded to two decimals, is at or below [averaging_pct], and the
    symbol is below the averaging cap. *)
Theorem averaging_buy_is_for_a_fallen_latest_lot
        {S : Pd.Sorting} (Spec : Pd.SortingSpec S) {P : Platform}
        (self : Strategy) (stock_list : list string) (trades : list Trade)
        (outcome : NiftyShop.BuyOutcome) (s : string) :
  NiftyShop.initiate_buy self stock_list trades = Ok outcome ->
  NiftyShop.averaging_buy outcome = Some s ->
  exists t close,
    In t trades /\ open_holding self t = true /\ tradingSymbol t = s
    /\ (forall t',
           In t' trades -> open_holding self t' = true ->
           tradingSymbol t' = s ->
           (createTimestamp t' <= createTimestamp t)%Z)
    /\ get_cmp s = Some close
    /\ ~ entry t == 0
    /\ rounded_change close (entry t) <= averaging_pct self
    /\ (NiftyShop._current_averaging_count self trades s
        < max_averaging_per_stock self)%Z.
Proof.
  intros Hout Hs.
  destruct (averaging_buy_inv Spec self stock_list trades outcome s Hout Hs)
    as (h & change & <- & Hh & (close & Hq & Hnz & Hch) & Hle & Hcap).
  apply latest_purchase_In in Hh. destruct Hh as [Hin Hmax].
  unfold held_rows in Hin. apply in_map_iff in Hin.
  destruct Hin as (t & <- & Ht). apply filter_In in Ht.
  destruct Ht as [Ht Hopen]. simpl in *.
  exists t, close. rewrite <- Hch.
  repeat split; auto.
  intros t' Ht' Hopen' Hsym.
  apply (Hmax {| NiftyShop.Symbol := tradingSymbol t';
                 NiftyShop.LastBuyPrice := entry t';
                 NiftyShop.Date := createTimestamp t' |}); [|exact Hsym].
  unfold held_rows.
  apply (in_map (fun t => {| NiftyShop.Symbol := tradingSymbol t;
                             NiftyShop.LastBuyPrice := entry t;
                             NiftyShop.Date := createTimestamp t |})).
  apply filter_In. now split.
Qed.

Lemma averaging_buy_is_for_a_fallen_latest_lot_witness :
  Pd.SortingSpec Pd.insertion_sorting
  /\ exists t close,
      In t Demo.borderline
      /\ get_cmp (Platform := Demo.platform) "HDFC" = Some close
      /\ rounded_change close (entry t) <= averaging_pct Aditi.
Proof.
  split; [exact insertion_sorting_spec|].
  assert (Hout : NiftyShop.initiate_buy
                   (S := Pd.insertion_sorting) (P := Demo.platform)
                   Aditi ["HDFC"] Demo.borderline
                 = Ok {| NiftyShop.new_buys := [];
                         NiftyShop.averaging_buy := Some "HDFC";
                         NiftyShop.trades_after :=
                           Demo.borderline ++ [Demo.placed "HDFC"] |})
    by (vm_compute; reflexivity).
  destruct (averaging_buy_is_for_a_fallen_latest_lot
              insertion_sorting_spec (P := Demo.platform)
              Aditi ["HDFC"] Demo.borderline _ "HDFC" Hout eq_refl)
    as (t & close & Ht & _ & _ & _ & Hq & _ & Hle & _).
  exists t, close. auto.
Defined.

(** ** One cycle *)

Lemma initiate_buy_new_buys {S : Pd.Sorting} {P : Platform}
      (self : Strategy) (stock_list : list string) (trades : list Trade)
      (outcome : NiftyShop.BuyOutcome) :
  NiftyShop.initiate_buy self stock_list trades = Ok outcome ->
  NiftyShop.new_buys outcome
  = NiftyShop.bought (NiftyShop.new_buy_loop self stock_list trades).
Proof.
  unfold NiftyShop.initiate_buy.
  destruct (0 <? _)%Z.
  { intros E. injection E as <-. reflexivity. }
  destruct (NiftyShop.holding_rows self _) as [rows|e]; simpl; [|discriminate].
  destruct rows as [|row rows].
  { intros E. injection E as <-. reflexivity. }
  destruct (NiftyShop.averaging_candidates self _ _);
    intros E; injection E as <-; reflexivity.
Qed.





(** ** The dashboard's recommendations *)

Lemma app_buy_loop_exact (held : list string) (max_buys_per_day : Z)
      (eligible : list App.Screened) (ds : list App.Decision) (n : Z) :
  fold_left (App.buy_step held max_buys_per_day) eligible (ds, n)
  = (ds ++ map App.BUY
             (firstn (Z.to_nat (max_buys_per_day - n))
                     (filter (fun s => negb (existsb (String.eqb s) held))
                             (map App.Symbol eligible))),
     (n + Z.of_nat
            (List.length
               (firstn (Z.to_nat (max_buys_per_day - n))
                       (filter (fun s => negb (existsb (String.eqb s) held))
                               (map App.Symbol eligible)))))%Z).
Proof.
  revert ds n. induction eligible as [|row eligible IH]; intros ds n; simpl.
  - rewrite firstn_nil, app_nil_r. simpl. f_equal. lia.
  - destruct (negb (existsb (String.eqb (App.Symbol row)) held)); simpl.
    + destruct (Z.ltb_spec n max_buys_per_day) as [Hlt|Hge].
      * rewrite IH.
        replace (Z.to_nat (max_buys_per_day - n))
          with (Datatypes.S (Z.to_nat (max_buys_per_day - (n + 1)))) by lia.
        simpl. rewrite <- app_assoc. simpl. f_equal. lia.
      * rewrite IH.
        replace (Z.to_nat (max_buys_per_day - n)) with 0%nat by lia.
        reflexivity.
    + apply IH.
Qed.

(** X16.  The dashboard recommends one kind of action.  If some screened
    symbol is not held (and the cap is positive) it lists a [BUY] for the
    first [max_buys_per_day] such symbols, in table order, and nothing
    else.  Otherwise, with a non-empty table and holdings, it lists one
    [AVERAGE], for a holding whose change is the lowest among those at or
    below the threshold, or the one [HOLD] line of the averaging block
    when there is none.  Otherwise it lists the one closing [HOLD]
    line. *)
Theorem dashboard_recommends_one_kind
        {S : Pd.Sorting} (Spec : Pd.SortingSpec S)
        (eligible : list App.Screened) (holdings : list App.Exported)
        (max_buys_per_day : Z) (averaging_pct : Q) :
  (first_unheld eligible holdings max_buys_per_day <> [] ->
   App.buy_decisions eligible holdings max_buys_per_day averaging_pct
   = map App.BUY (first_unheld eligible holdings max_buys_per_day))
  /\ (first_unheld eligible holdings max_buys_per_day = [] ->
      eligible <> [] -> holdings <> [] ->
      (App.potential_avg eligible averaging_pct holdings = [] ->
       App.buy_decisions eligible holdings max_buys_per_day averaging_pct
       = [App.HOLD_no_candidates])
      /\ (App.potential_avg eligible averaging_pct holdings <> [] ->
          exists s c,
            App.buy_decisions eligible holdings max_buys_per_day averaging_pct
            = [App.AVERAGE s c]
            /\ In (s, c) (App.potential_avg eligible averaging_pct holdings)
            /\ forall s' c',
                In (s', c') (App.potential_avg eligible averaging_pct holdings) ->
                c <= c'))
  /\ (first_unheld eligible holdings max_buys_per_day = [] ->
      eligible = [] \/ holdings = [] ->
      App.buy_decisions eligible holdings max_buys_per_day averaging_pct
      = [App.HOLD_no_recommendations]).
Proof.
  unfold App.buy_decisions, first_unheld.
  rewrite app_buy_loop_exact. rewrite Z.sub_0_r. simpl app.
  set (buys := firstn (Z.to_nat max_buys_per_day)
                      (filter (fun s => negb (existsb (String.eqb s)
                                                      (map App.csv_Symbol holdings)))
                              (map App.Symbol eligible))).
  split; [|split].
  - intros Hne. destruct buys as [|b buys']; [congruence|].
    simpl. reflexivity.
  - intros -> He Hh. simpl.
    destruct eligible as [|e0 eligible']; [congruence|].
    destruct holdings as [|h0 holdings']; [congruence|]. cbn [hd_error is_None negb andb].
    split.
    + intros ->. reflexivity.
    + intros Hpot.
      destruct (App.potential_avg (e0 :: eligible') averaging_pct (h0 :: holdings'))
        as [|first rest] eqn:Epot; [congruence|].
      pose proof (Pd.sort_values_perm (string * Q) (fun r => Some (snd r))
                    (first :: rest)) as HP.
      pose proof (Pd.sort_values_sorted (string * Q) (fun r => Some (snd r))
                    (first :: rest)) as HS.
      destruct (Pd.sort_values (string * Q) (fun r => Some (snd r))
                               (first :: rest)) as [|[s c] others].
      { apply Permutation_sym, Permutation_nil in HP. discriminate. }
      exists s, c. cbn [hd fst snd app]. split; [reflexivity|]. split.
      * eapply Permutation_in; [symmetry; exact HP|now left].
      * intros s' c' Hin. apply (Permutation_in _ HP) in Hin.
        destruct Hin as [E|Hin]; [injection E as <- <-; apply Qle_refl|].
        inversion HS as [|? ? _ Hall]; subst.
        rewrite Forall_forall in Hall. exact (Hall _ Hin).
  - intros -> Hempty. simpl.
    destruct Hempty as [->| ->]; [reflexivity|].
    destruct eligible; reflexivity.
Qed.

Lemma dashboard_recommends_one_kind_witness :
  Pd.SortingSpec Pd.insertion_sorting
  /\ first_unheld
       (App.get_eligible_stocks_for_today
          (S := Pd.insertion_sorting) (F := Demo.feed) ["INFY"; "TCS"])
       (App.get_current_holdings (Some (Ok Demo.export))) 1
     = ["TCS"]
  /\ App.buy_decisions
       (S := Pd.insertion_sorting)
       (App.get_eligible_stocks_for_today
          (S := Pd.insertion_sorting) (F := Demo.feed) ["INFY"; "TCS"])
       (App.get_current_holdings (Some (Ok Demo.export))) 1 (- (5))
     = [App.BUY "TCS"]
  /\ first_unheld Demo2.table
                  (App.get_current_holdings (Some (Ok Demo.export))) 1
     = []
  /\ App.change_pct 171 200
     = Some (- (8162774324609023 # 562949953421312))
  /\ ~ - (8162774324609023 # 562949953421312) <= - (29 # 2)
  /\ App.buy_decisions
       (S := Pd.insertion_sorting) Demo2.table
       (App.get_current_holdings (Some (Ok Demo.export))) 1 (- (29 # 2))
     = [App.HOLD_no_candidates].
Proof.
  split; [exact insertion_sorting_spec|]. split; [reflexivity|].
  split.
  { apply (proj1 (dashboard_recommends_one_kind
                    insertion_sorting_spec
                    (App.get_eligible_stocks_for_today
                       (S := Pd.insertion_sorting) (F := Demo.feed)
                       ["INFY"; "TCS"])
                    (App.get_current_holdings (Some (Ok Demo.export)))
                    1 (- (5)))).
    discriminate. }
  split; [reflexivity|]. split; [reflexivity|].
  split; [vm_compute; intros H; now apply H|].
  apply (proj1 (proj2 (dashboard_recommends_one_kind
                         insertion_sorting_spec Demo2.table
                         (App.get_current_holdings (Some (Ok Demo.export)))
                         1 (- (29 # 2)))));
    try discriminate; reflexivity.
Defined.

Lemma sort_values_descending_perm {S : Pd.Sorting} (Spec : Pd.SortingSpec S)
      {A : Type} (key : A -> option Q) (l : list A) :
  Permutation l (AppSell.sort_values_descending key l).
Proof.
  unfold AppSell.sort_values_descending.
  rewrite <- Permutation_rev, <- Pd.sort_values_perm. apply Permutation_rev.
Qed.

Lemma sort_values_descending_sorted {S : Pd.Sorting} (Spec : Pd.SortingSpec S)
      {A : Type} (key : A -> option Q) (l : list A) :
  StronglySorted (fun a b => Pd.na_le (key b) (key a))
                 (AppSell.sort_values_descending key l).
Proof.
  unfold AppSell.sort_values_descending.
  apply (StronglySorted_rev (fun a b => Pd.na_le (key a) (key b))).
  apply Pd.sort_values_sorted.
Qed.

Lemma slice_to_firstn {A : Type} (n : Z) (l : list A) :
  exists m, slice_to n l = firstn m l
            /\ ((0 <= n)%Z -> m = Z.to_nat n).
Proof.
  unfold slice_to. destruct (Z.leb_spec 0 n).
  - eexists. split; [reflexivity|auto].
  - eexists. split; [reflexivity|lia].
Qed.

Lemma with_pnl_In (rows : list (App.Exported * option Q)) (r : App.Exported * Q) :
  In r (with_pnl rows) <-> In (fst r, Some (snd r)) rows.
Proof.
  unfold with_pnl. rewrite in_flat_map. split.
  - intros ([e [p|]] & Hin & Hr); simpl in Hr; [|destruct Hr].
    destruct Hr as [<-|[]]. exact Hin.
  - intros Hin. exists (fst r, Some (snd r)). split; [exact Hin|].
    simpl. left. now destruct r.
Qed.

Lemma with_pnl_sorted (rows : list (App.Exported * option Q)) :
  StronglySorted (fun a b => Pd.na_le (snd b) (snd a)) rows ->
  StronglySorted (fun a b => snd b <= snd a) (with_pnl rows).
Proof.
  induction 1 as [|[e [p|]] rows Hs IH Hall]; simpl; [constructor| |exact IH].
  constructor; [exact IH|].
  apply Forall_forall. intros [e' p'] Hin.
  apply with_pnl_In in Hin. simpl in Hin.
  rewrite Forall_forall in Hall. exact (Hall _ Hin).
Qed.

Lemma with_pnl_length (target_pct : Q) (rows : list (App.Exported * option Q)) :
  Forall (fun row => AppSell.reached target_pct row = true) rows ->
  List.length (with_pnl rows) = List.length rows.
Proof.
  induction 1 as [|[e [p|]] rows Hr _ IH]; simpl; [reflexivity| |discriminate].
  now rewrite IH.
Qed.

Lemma sell_lines_with_pnl (rows : list (App.Exported * option Q)) :
  flat_map (fun row => match snd row with
                       | Some pnl => [AppSell.SELL (App.csv_Symbol (fst row)) pnl]
                       | None => []
                       end) rows
  = map (fun r => AppSell.SELL (App.csv_Symbol (fst r)) (snd r)) (with_pnl rows).
Proof.
  induction rows as [|[e [p|]] rows IH]; simpl; [reflexivity| |exact IH].
  now rewrite IH.
Qed.

(** X17.  The dashboard's sell recommendations.  Without holdings or
    without a ['Pnl%'] column there is none.  Otherwise, if no holding has
    reached [target_pct] there is the one [HOLD] line; if some have, there
    are only [SELL] lines, each for a holding at or above the target, in
    descending order of P&L, [max_sells_per_day] of them or as many as
    qualify, and a qualifying holding that is not listed has a P&L no
    higher than the listed ones. *)
Theorem dashboard_sells_best_first
        {S : Pd.Sorting} (Spec : Pd.SortingSpec S)
        (holdings : list (App.Exported * option Q)) (has_Pnl : bool)
        (target_pct : Q) (max_sells_per_day : Z) :
  (holdings = [] \/ has_Pnl = false ->
   AppSell.sell_decisions holdings has_Pnl target_pct max_sells_per_day = [])
  /\ (holdings <> [] -> has_Pnl = true ->
      filter (AppSell.reached target_pct) holdings = [] ->
      AppSell.sell_decisions holdings has_Pnl target_pct max_sells_per_day
      = [AppSell.HOLD_below_target])
  /\ (has_Pnl = true ->
      filter (AppSell.reached target_pct) holdings <> [] ->
      exists to_sell,
        AppSell.sell_decisions holdings has_Pnl target_pct max_sells_per_day
        = map (fun r => AppSell.SELL (App.csv_Symbol (fst r)) (snd r)) to_sell
        /\ StronglySorted (fun a b => snd b <= snd a) to_sell
        /\ (forall r, In r to_sell ->
                      In (fst r, Some (snd r)) holdings /\ target_pct <= snd r)
        /\ ((0 <= max_sells_per_day)%Z ->
            List.length to_sell
            = Nat.min (Z.to_nat max_sells_per_day)
                      (List.length (filter (AppSell.reached target_pct) holdings)))
        /\ (forall row p r,
               In row holdings -> snd row = Some p -> target_pct <= p ->
               In r to_sell ->
               In (fst row, p) to_sell \/ p <= snd r)).
Proof.
  unfold AppSell.sell_decisions. split; [|split].
  - intros [->| ->]; [reflexivity|]. now rewrite andb_false_r.
  - intros Hne -> ->. destruct holdings; [congruence|reflexivity].
  - intros -> Hsome.
    destruct holdings as [|h0 holdings']; [simpl in Hsome; congruence|].
    cbn [hd_error is_None negb andb].
    set (holdings := h0 :: holdings') in *.
    destruct (filter (AppSell.reached target_pct) holdings)
      as [|c0 cs] eqn:Hf; [congruence|].
    rewrite <- Hf. clear Hsome.
    set (candidates := filter (AppSell.reached target_pct) holdings).
    set (ranked := AppSell.sort_values_descending snd candidates).
    pose proof (sort_values_descending_perm Spec snd candidates) as HP.
    pose proof (sort_values_descending_sorted Spec snd candidates) as HS.
    fold ranked in HP, HS.
    destruct (slice_to_firstn max_sells_per_day ranked) as (m & -> & Hm).
    assert (Hreached : forall row, In row ranked ->
                                   In row holdings
                                   /\ AppSell.reached target_pct row = true).
    { intros row Hin. apply (Permutation_in _ (Permutation_sym HP)) in Hin.
      now apply filter_In in Hin. }
    exists (with_pnl (firstn m ranked)).
    split; [|split; [|split; [|split]]].
    + apply sell_lines_with_pnl.
    + apply with_pnl_sorted. now apply firstn_sorted.
    + intros r Hr. apply with_pnl_In in Hr. apply In_firstn in Hr.
      destruct (Hreached _ Hr) as [Hin Hreach]. split; [exact Hin|].
      unfold AppSell.reached in Hreach. simpl in Hreach.
      now apply Qle_bool_iff.
    + intros Hmax. rewrite (with_pnl_length target_pct).
      * rewrite firstn_length_min, (Hm Hmax). f_equal.
        symmetry. now apply Permutation_length.
      * apply Forall_forall. intros row Hrow. apply In_firstn in Hrow.
        now apply Hreached.
    + intros row p r Hrow Hp Hle Hr.
      assert (Hin : In row ranked).
      { apply (Permutation_in _ HP). apply filter_In. split; [exact Hrow|].
        unfold AppSell.reached. rewrite Hp. now apply Qle_bool_iff. }
      rewrite <- (firstn_skipn m ranked) in Hin.
      apply in_app_iff in Hin. destruct Hin as [Hin|Hin].
      * left. apply with_pnl_In. simpl. rewrite <- Hp.
        now destruct row.
      * right. apply with_pnl_In in Hr.
        pose proof (firstn_below_skipn _ m ranked HS _ _ Hr Hin) as H.
        simpl in H. rewrite Hp in H. exact H.
Qed.

Lemma dashboard_sells_best_first_witness :
  Pd.SortingSpec Pd.insertion_sorting
  /\ filter (AppSell.reached 5) Demo2.positions
     = [(Demo2.held "WIPRO", Some 6); (Demo2.held "INFY", Some 8)]
  /\ AppSell.sell_decisions (S := Pd.insertion_sorting) Demo2.positions true 5 1
     = [AppSell.SELL "INFY" 8]
  /\ exists to_sell,
      List.length to_sell = 1%nat
      /\ AppSell.sell_decisions (S := Pd.insertion_sorting) Demo2.positions true 5 1
         = map (fun r => AppSell.SELL (App.csv_Symbol (fst r)) (snd r)) to_sell.
Proof.
  split; [exact insertion_sorting_spec|]. split; [reflexivity|].
  split; [reflexivity|].
  destruct (proj2 (proj2 (dashboard_sells_best_first
                            insertion_sorting_spec Demo2.positions true 5 1))
                  eq_refl ltac:(discriminate))
    as (to_sell & Heq & _ & _ & Hlen & _).
  exists to_sell. split; [|exact Heq].
  rewrite Hlen by lia. reflexivity.
Defined.

(** ** The universe *)

Lemma ends_with_NS_sound (s : string) :
  ends_with_NS s = true -> exists base, s = (base ++ ".NS")%string.
Proof.
  induction s as [|c s IH]; cbn [ends_with_NS].
  - discriminate.
  - intros H. apply orb_true_iff in H. destruct H as [H|H].
    + apply String.eqb_eq in H. exists EmptyString. exact H.
    + destruct (IH H) as [base ->]. exists (String c base). reflexivity.
Qed.

Lemma append_ends_with_NS (base : string) :
  ends_with_NS (base ++ ".NS") = true.
Proof.
  induction base as [|c base IH]; [reflexivity|].
  change (String c base ++ ".NS")%string with (String c (base ++ ".NS")).
  cbn [ends_with_NS]. rewrite IH. apply orb_true_r.
Qed.

Lemma symbols_NS_inv (items : list Universe.json) (symbols : list string) :
  Universe.symbols_NS items = Some symbols ->
  List.length symbols = List.length items
  /\ Forall (fun s => ends_with_NS s = true) symbols.
Proof.
  revert symbols. induction items as [|item items IH]; intros symbols; simpl.
  - intros H. injection H as <-. split; [reflexivity|constructor].
  - destruct (Universe.symbol_NS item) as [s|] eqn:Hs; [|discriminate].
    destruct (Universe.symbols_NS items) as [rest|]; [|discriminate].
    intros H. injection H as <-.
    destruct (IH rest eq_refl) as [Hlen Hall].
    split; [simpl; now rewrite Hlen|].
    constructor; [|exact Hall].
    unfold Universe.symbol_NS in Hs.
    destruct item as [| | | |l|members]; try discriminate.
    destruct (Universe.member "symbol" members) as [[| | |name|l|m]|];
      try discriminate.
    injection Hs as <-. apply append_ends_with_NS.
Qed.

Lemma parse_inv (response : Universe.Response) (symbols : list string) :
  Universe.parse response = Ok (Some symbols) ->
  symbols <> [] /\ Forall (fun s => ends_with_NS s = true) symbols.
Proof.
  unfold Universe.parse.
  destruct (negb _ || _); [discriminate|].
  destruct (Universe.body response) as [[| | | |l|members]|]; try discriminate.
  destruct (Universe.iterate _) as [items|]; [|discriminate].
  destruct (Universe.symbols_NS items) as [[|s rest]|] eqn:Hs; try discriminate.
  intros H. injection H as <-.
  split; [discriminate|]. now apply symbols_NS_inv in Hs.
Qed.

(** X18.  When [get_nifty50_symbols] returns a list, whether from the API
    or the static one, the list is not empty and every symbol in it ends
    in [".NS"], the suffix the price download expects. *)
Theorem universe_symbols_carry_the_exchange_suffix
        (exchange : result Universe.Response) (symbols : list string) :
  Universe.get_nifty50_symbols exchange = Some symbols ->
  symbols <> []
  /\ forall s, In s symbols -> exists base, s = (base ++ ".NS")%string.
Proof.
  assert (Hfallback : Universe.fallback <> []
                      /\ Forall (fun s => ends_with_NS s = true)
                                Universe.fallback).
  { split; [discriminate|]. apply Forall_forall. apply forallb_forall.
    reflexivity. }
  intros H.
  assert (Hall : symbols <> []
                 /\ Forall (fun s => ends_with_NS s = true) symbols).
  { unfold Universe.get_nifty50_symbols in H.
    destruct exchange as [response|e].
    - destruct (Universe.parse response) as [[l|]|e] eqn:Hp.
      + injection H as <-. now apply parse_inv in Hp.
      + discriminate.
      + injection H as <-. exact Hfallback.
    - injection H as <-. exact Hfallback. }
  destruct Hall as [Hne Hall]. split; [exact Hne|].
  intros s Hs. rewrite Forall_forall in Hall.
  apply ends_with_NS_sound. now apply Hall.
Qed.

Lemma universe_symbols_carry_the_exchange_suffix_witness :
  Universe.get_nifty50_symbols (Ok Demo2.answer) = Some ["INFY.NS"; "TCS.NS"]
  /\ ["INFY.NS"; "TCS.NS"] <> []
  /\ forall s, In s ["INFY.NS"; "TCS.NS"] ->
               exists base, s = (base ++ ".NS")%string.
Proof.
  split; [reflexivity|].
  exact (universe_symbols_carry_the_exchange_suffix
           (Ok Demo2.answer) ["INFY.NS"; "TCS.NS"] eq_refl).
Defined.

Lemma keys_nil (members : list (string * Universe.json)) (seen : list string) :
  seen = [] -> Universe.keys members seen = [] -> members = [].
Proof.
  intros -> H. destruct members as [|[k v] rest]; [reflexivity|].
  simpl in H. discriminate.
Qed.

Lemma iterate_nothing (v : Universe.json) :
  Universe.iterate v = Some []
  <-> v = Universe.JArray [] \/ v = Universe.JString EmptyString
      \/ v = Universe.JObject [].
Proof.
  split.
  - destruct v as [| | |s|items|members]; simpl; try discriminate.
    + destruct s; [auto|discriminate].
    + intros H. injection H as ->. auto.
    + intros H. injection H as H.
      destruct (Universe.keys members []) eqn:Hk; [|discriminate].
      apply keys_nil in Hk; [subst; auto|reflexivity].
  - intros [->|[->| ->]]; reflexivity.
Qed.

Lemma symbols_NS_nil (items : list Universe.json) :
  Universe.symbols_NS items = Some [] -> items = [].
Proof.
  destruct items as [|item rest]; [reflexivity|]. simpl.
  destruct (Universe.symbol_NS item); [|discriminate].
  destruct (Universe.symbols_NS rest); discriminate.
Qed.

(** X19.  [get_nifty50_symbols] returns [None], neither the API's symbols
    nor the static list, exactly when the API answers with status 200, a
    non-blank text and a JSON object whose ['data'] is missing or has
    nothing to iterate (an empty list, string or object): the [try] block
    then ends without a [return].  The dashboard's scan, which takes the
    length of what it is given, fails in exactly that case. *)
Theorem empty_constituent_list_returns_None
        `{S : Pd.Sorting} `{F : App.Feed}
        (exchange : result Universe.Response) :
  (Universe.get_nifty50_symbols exchange = None
   <-> exists response members,
        exchange = Ok response
        /\ Universe.status_code response = 200%Z
        /\ Universe.text_is_blank response = false
        /\ Universe.body response = Some (Universe.JObject members)
        /\ (data_of members = Universe.JArray []
            \/ data_of members = Universe.JString EmptyString
            \/ data_of members = Universe.JObject []))
  /\ (Universe.scan exchange = None
      <-> Universe.get_nifty50_symbols exchange = None).
Proof.
  split.
  - split.
    + unfold Universe.get_nifty50_symbols.
      destruct exchange as [response|e]; [|discriminate].
      destruct (Universe.parse response) as [[l|]|e] eqn:Hp; try discriminate.
      intros _. unfold Universe.parse in Hp.
      destruct (Z.eqb_spec (Universe.status_code response) 200) as [Hs|Hs];
        [|discriminate].
      destruct (Universe.text_is_blank response) eqn:Hb; [discriminate|].
      simpl in Hp.
      destruct (Universe.body response) as [[| | | |l|members]|] eqn:Hbody;
        try discriminate.
      fold (data_of members) in Hp.
      destruct (Universe.iterate (data_of members)) as [items|] eqn:Hit;
        [|discriminate].
      destruct (Universe.symbols_NS items) as [[|s rest]|] eqn:Hsym;
        try discriminate.
      apply symbols_NS_nil in Hsym. subst items.
      exists response, members. repeat split; try assumption.
      now apply iterate_nothing.
    + intros (response & members & -> & Hs & Hb & Hbody & Hdata).
      apply iterate_nothing in Hdata.
      unfold Universe.get_nifty50_symbols, Universe.parse.
      rewrite Hs, Hb, Hbody. simpl. fold (data_of members).
      rewrite Hdata. reflexivity.
  - unfold Universe.scan.
    destruct (Universe.get_nifty50_symbols exchange); split;
      intros H; try discriminate; reflexivity.
Qed.

Lemma empty_constituent_list_returns_None_witness :
  Universe.get_nifty50_symbols (Ok Demo2.empty_answer) = None
  /\ Universe.scan (S := Pd.insertion_sorting) (F := Demo.feed)
                   (Ok Demo2.empty_answer) = None.
Proof.
  destruct (empty_constituent_list_returns_None
              (S := Pd.insertion_sorting) (F := Demo.feed)
              (Ok Demo2.empty_answer)) as [Hnone Hscan].
  assert (H : Universe.get_nifty50_symbols (Ok Demo2.empty_answer) = None).
  { apply Hnone. eexists. eexists. split; [reflexivity|].
    split; [reflexivity|]. split; [reflexivity|]. split; [reflexivity|].
    left. reflexivity. }
  split; [exact H|]. apply Hscan. exact H.
Defined.

Lemma symbol_NS_has_symbol (item : Universe.json) (name : string) :
  has_symbol item name ->
  Universe.symbol_NS item = Some (name ++ ".NS")%string.
Proof.
  intros (members & -> & Hm). simpl. now rewrite Hm.
Qed.

Lemma symbol_NS_None (item : Universe.json) :
  (forall name, ~ has_symbol item name) -> Universe.symbol_NS item = None.
Proof.
  intros H. destruct item as [| | | |l|members]; try reflexivity.
  simpl. destruct (Universe.member "symbol" members) as [[| | |name|l|m]|] eqn:Hm;
    try reflexivity.
  exfalso. apply (H name). now exists members.
Qed.

Lemma symbols_NS_all (items : list Universe.json) (names : list string) :
  Forall2 has_symbol items names ->
  Universe.symbols_NS items = Some (map (fun n => (n ++ ".NS")%string) names).
Proof.
  induction 1 as [|item name items names H _ IH]; [reflexivity|].
  simpl. rewrite (symbol_NS_has_symbol _ _ H), IH. reflexivity.
Qed.

Lemma symbols_NS_one_bad (items : list Universe.json) (item : Universe.json) :
  In item items -> Universe.symbol_NS item = None ->
  Universe.symbols_NS items = None.
Proof.
  induction items as [|i items IH]; [contradiction|].
  intros [->|Hin] Hbad; simpl.
  - now rewrite Hbad.
  - destruct (Universe.symbol_NS i); [|reflexivity].
    now rewrite (IH Hin Hbad).
Qed.

(** X20.  On a well-formed answer (status 200, non-blank, a JSON object),
    [get_nifty50_symbols] is all or nothing: when every item under
    ['data'] is an object with a string ['symbol'], it returns those
    symbols with [".NS"] appended, in the API's order; a single item
    that is not makes it return the static list, whatever the other
    items are. *)
Theorem one_malformed_item_discards_the_api_list
        (response : Universe.Response)
        (members : list (string * Universe.json))
        (items : list Universe.json) :
  Universe.status_code response = 200%Z ->
  Universe.text_is_blank response = false ->
  Universe.body response = Some (Universe.JObject members) ->
  Universe.iterate (data_of members) = Some items ->
  (forall names,
      Forall2 has_symbol items names -> names <> [] ->
      Universe.get_nifty50_symbols (Ok response)
      = Some (map (fun n => (n ++ ".NS")%string) names))
  /\ ((exists item, In item items /\ forall name, ~ has_symbol item name) ->
      Universe.get_nifty50_symbols (Ok response) = Some Universe.fallback).
Proof.
  intros Hs Hb Hbody Hit.
  unfold Universe.get_nifty50_symbols, Universe.parse.
  rewrite Hs, Hb, Hbody. simpl. fold (data_of members). rewrite Hit.
  split.
  - intros names Hall Hne. rewrite (symbols_NS_all _ _ Hall).
    destruct names as [|n names]; [contradiction|]. reflexivity.
  - intros (item & Hin & Hbad).
    now rewrite (symbols_NS_one_bad _ _ Hin (symbol_NS_None _ Hbad)).
Qed.

Lemma one_malformed_item_discards_the_api_list_witness :
  Universe.get_nifty50_symbols (Ok Demo2.answer) = Some ["INFY.NS"; "TCS.NS"].
Proof.
  refine (proj1 (one_malformed_item_discards_the_api_list
                   Demo2.answer
                   [("data", Universe.JArray
                               [Demo2.constituent "INFY";
                                Demo2.constituent "TCS"])]
                   [Demo2.constituent "INFY"; Demo2.constituent "TCS"]
                   eq_refl eq_refl eq_refl eq_refl)
                ["INFY"; "TCS"] _ _).
  - repeat constructor; eexists; (split; [reflexivity|reflexivity]).
  - discriminate.
Defined.

(** X21.  Every failure of the fetch is answered with the static list of
    50 symbols: a request that raises, a status other than 200, a blank
    text, a body that is not JSON or not a JSON object, and a ['data']
    that is null, a boolean or a number. *)
Theorem failed_fetch_returns_the_static_list :
  (forall e, Universe.get_nifty50_symbols (Raise e) = Some Universe.fallback)
  /\ (forall response,
         Universe.status_code response <> 200%Z
         \/ Universe.text_is_blank response = true
         \/ Universe.body response = None
         \/ (exists v, Universe.body response = Some v
                       /\ forall members, v <> Universe.JObject members)
         \/ (exists members,
                Universe.body response = Some (Universe.JObject members)
                /\ (data_of members = Universe.JNull
                    \/ (exists b, data_of members = Universe.JBool b)
                    \/ (exists n, data_of members = Universe.JNumber n))) ->
         Universe.get_nifty50_symbols (Ok response) = Some Universe.fallback).
Proof.
  split; [reflexivity|].
  - intros response H.
    unfold Universe.get_nifty50_symbols, Universe.parse.
    destruct (Z.eqb_spec (Universe.status_code response) 200) as [Hs|Hs];
      [|reflexivity].
    destruct (Universe.text_is_blank response) eqn:Hb; [reflexivity|].
    simpl.
    destruct H as [H|[H|[H|[H|H]]]]; try contradiction; try discriminate.
    + now rewrite H.
    + destruct H as (v & -> & Hv).
      destruct v as [| | | |l|members]; try reflexivity.
      now destruct (Hv members).
    + destruct H as (members & -> & Hd). fold (data_of members).
      destruct Hd as [->|[[b ->]|[n ->]]]; reflexivity.
Qed.

Lemma failed_fetch_returns_the_static_list_witness :
  Universe.get_nifty50_symbols
    (Ok {| Universe.status_code := 403;
           Universe.text_is_blank := false;
           Universe.body := None |})
  = Some Universe.fallback.
Proof.
  apply (proj2 failed_fetch_returns_the_static_list).
  left. simpl. lia.
Defined.
